(** * Room membership authorization, audience reconciliation and archival

    A shallow embedding of the membership core of the Synapse modules:

    - [monkey_patches/event_auth.py]: the patched event authorization
      ([_check_power_levels], [_is_leave_allowed],
      [_is_membership_change_allowed]) and the power-levels clean-up that
      follows a leave ([on_new_event]);
    - [audiences/audiences_batch_membership_processor.py]: the audience
      reconciler ([process_batch_memberships]);
    - [archive_rooms/handler.py]: the archive controller ([handle_put],
      [update_memberships_directly]).

    Python exceptions are values of [exn], a function that may raise returns
    a [result]; the calls to the homeserver go through an oracle and are
    recorded in a trace, so that what was issued, and in which order, can be
    stated. *)

From stdpp Require Import gmap strings list fin_maps.
From Stdlib Require Import ZArith.

Set Warnings "-register-all".

Open Scope string_scope.
Open Scope Z_scope.
Open Scope list_scope.

(** ** Python values *)

Module Py.

(** The JSON values found in event contents. Canonical JSON has no
    floating point numbers. *)
Inductive json : Type :=
| JNull
| JBool (b : bool)
| JInt (n : Z)
| JStr (s : string)
| JList (l : list json)
| JDict (kvs : list (string * json)).

(** A Python [dict] with string keys: the items in insertion order. A
    well-formed dict holds each key once. *)
Definition dict : Type := list (string * json).

(** [d.get(k)] *)
Fixpoint dict_get (k : string) (d : dict) : option json :=
  match d with
  | [] => None
  | (k', v) :: d' => if String.eqb k' k then Some v else dict_get k d'
  end.

(** [k in d] *)
Definition dict_contains (k : string) (d : dict) : bool :=
  match dict_get k d with Some _ => true | None => false end.

(** [del d[k]] (on a key that is present) *)
Definition dict_del (k : string) (d : dict) : dict :=
  List.filter (fun kv => negb (String.eqb (fst kv) k)) d.

(** [d[k] = v] on a key that is present: the item keeps its place. *)
Fixpoint dict_replace (k : string) (v : json) (d : dict) : dict :=
  match d with
  | [] => []
  | (k', v') :: d' =>
      if String.eqb k' k then (k', v) :: d' else (k', v') :: dict_replace k v d'
  end.

(** [list(d)] *)
Definition dict_keys (d : dict) : list string := map fst d.

(** [v == n] for an [int] literal [n]: a [bool] is an [int] in Python. *)
Definition eq_int (v : json) (n : Z) : bool :=
  match v with
  | JInt m => m =? n
  | JBool b => (if b then 1 else 0)%Z =? n
  | _ => false
  end.

(** [o == s] for a [str] literal [s], where [o] is the result of a
    [dict.get]. *)
Definition eq_str (o : option json) (s : string) : bool :=
  match o with
  | Some (JStr s') => String.eqb s' s
  | _ => false
  end.

(** [type(v) is int] *)
Definition is_int (v : json) : bool :=
  match v with JInt _ => true | _ => false end.

(** [sub in s] on strings *)
Fixpoint contains (sub s : string) : bool :=
  String.prefix sub s
  || match s with
     | EmptyString => false
     | String _ s' => contains sub s'
     end.

(** The exceptions the modelled code raises or lets through. *)
Inductive Codes : Type :=
| NOT_JOINED
| INSUFFICIENT_POWER
| OTHER_CODE (c : string).

Inductive exn : Type :=
| AuthError (code : Z) (msg : string)
| UnstableSpecAuthError (code : Z) (msg : string) (errcode : Codes)
| SynapseError (code : Z) (msg : string)
| LimitExceededError (retry_after_ms : option Z) (msg : string)
| AssertionError
| KeyError (k : string)
| TypeError
| ValueError
| AttributeError
| OtherError (msg : string).

Inductive result (A : Type) : Type :=
| Ok (a : A)
| Raise (e : exn).
Arguments Ok {A} a.
Arguments Raise {A} e.

#[export] Instance result_ret : MRet result := fun _ a => Ok a.
#[export] Instance result_bind : MBind result := fun _ _ f m =>
  match m with
  | Ok a => f a
  | Raise e => Raise e
  end.

Definition is_raise {A} (r : result A) : Prop :=
  match r with Ok _ => False | Raise _ => True end.

(** [d.get(k, {})] followed by a mapping operation: a value that is not a
    mapping makes Python raise at that operation. *)
Definition get_mapping (k : string) (d : dict) : result dict :=
  match dict_get k d with
  | None => Ok []
  | Some (JDict m) => Ok m
  | Some _ => Raise AttributeError
  end.

(** [s in v] for a [str] [s]: a key of a dict, an element of a list, a
    substring of a string; on the other values Python raises
    [TypeError]. *)
Definition in_json (s : string) (v : json) : result bool :=
  match v with
  | JDict m => Ok (dict_contains s m)
  | JList l =>
      Ok (existsb (fun x => match x with
                            | JStr s' => String.eqb s' s
                            | _ => false
                            end) l)
  | JStr s' => Ok (contains s s')
  | _ => Raise TypeError
  end.

End Py.
Export Py.

(** ** Events and room state *)

Definition EventTypes_Member : string := "m.room.member".
Definition EventTypes_PowerLevels : string := "m.room.power_levels".
Definition Membership_JOIN : string := "join".
Definition Membership_LEAVE : string := "leave".
Definition Membership_INVITE : string := "invite".
Definition Membership_BAN : string := "ban".

Record EventBase : Type := {
  type : string;
  state_key : string;
  sender : string;
  room_id : string;
  content : dict
}.

(** [event.user_id] is the host's alias of [event.sender]. *)
Definition user_id (e : EventBase) : string := sender e.

(** [event.membership] reads [content["membership"]]. *)
Definition membership (e : EventBase) : option json :=
  dict_get "membership" (content e).

(** [StateMap[EventBase]]: events by (type, state key). *)
Abbreviation StateMap := (gmap (string * string) EventBase).

(** [ev and ev.membership == m] for the result [ev] of a [StateMap.get].
    The events of a state map are member events that were accepted into
    the room, and these carry a membership: the [KeyError] that
    [ev.membership] raises on a content without one is not modelled here,
    such an event reads as having no membership. *)
Definition has_membership (ev : option EventBase) (m : string) : bool :=
  match ev with
  | Some e => eq_str (membership e) m
  | None => false
  end.

Record RoomVersion : Type := {
  enforce_int_power_levels : bool;
  limit_notifications_power_levels : bool
}.

(** ** The host's side of event authorization

    What [synapse.event_auth] and [synapse.types] provide to the patches and
    is not part of this repository; the patches are verified for every
    implementation of it. *)

Class EventAuthHost : Type := {
  (** [event_auth.get_user_power_level(user_id, auth_events)] *)
  get_user_power_level : string -> StateMap -> Z;
  (** [event_auth.get_named_level(auth_events, name, default)] *)
  get_named_level : StateMap -> string -> Z -> Z;
  (** the membership check the patch replaces and keeps as a fallback *)
  _is_membership_change_allowed_original :
    RoomVersion -> EventBase -> StateMap -> result unit;
  (** whether [UserID.from_string] accepts the string *)
  UserID_from_string : string -> bool;
  (** [int(s)] on a [str], [None] where Python raises [ValueError] *)
  int_of_str : string -> option Z;
  (** ["%s" % (v,)] and [f"{v!r}"] *)
  py_str : json -> string;
  py_repr : json -> string
}.

(** ** monkey_patches/event_auth.py *)

Module EventAuth.

Section Patches.

Context {host : EventAuthHost}.

(** The module-level [bot_ids], set from the configuration when the module
    is loaded (the functions below assert that it is set). *)
Variable bot_ids : gset string.

(** [{user_id for (user_id, power_level) in users.items() if power_level == 100}] *)
Definition admin_ids (users : dict) : gset string :=
  list_to_set (map fst (List.filter (fun kv => eq_int (snd kv) 100) users)).

Definition _raise_if_human_demotes_bot_or_last_human
    (new_power_levels_event current_power_levels_event : EventBase) : result unit :=
  if decide (sender new_power_levels_event ∈ bot_ids) then Ok tt
  else
    current_power_levels ← get_mapping "users" (content current_power_levels_event);
    let current_admin_ids := admin_ids current_power_levels in
    updated_power_levels ← get_mapping "users" (content new_power_levels_event);
    let updated_admin_ids := admin_ids updated_power_levels in
    let removed_admin_ids := current_admin_ids ∖ updated_admin_ids in
    if decide (removed_admin_ids ∩ bot_ids ≠ ∅)
    then Raise (AuthError 403 "Human admins cannot demote bot admins")
    else
      let human_admin_ids := updated_admin_ids ∖ bot_ids in
      if decide (human_admin_ids = ∅)
      then Raise (AuthError 403 "There'd be no human admins left in this room")
      else Ok tt.

(** [for x in l: f(x)], stopping at the first exception. *)
Fixpoint for_each {A : Type} (f : A -> result unit) (l : list A) : result unit :=
  match l with
  | [] => Ok tt
  | x :: l' => _ ← f x; for_each f l'
  end.

(** [k in {...}] for a set literal of strings *)
Definition str_in (k : string) (l : list string) : bool :=
  existsb (String.eqb k) l.

(** [int(v)] *)
Definition py_int (v : json) : result Z :=
  match v with
  | JInt n => Ok n
  | JBool b => Ok (if b then 1 else 0)
  | JStr s => match int_of_str s with Some n => Ok n | None => Raise ValueError end
  | _ => Raise TypeError
  end.

Definition validate_user (kv : string * json) : result unit :=
  if negb (UserID_from_string (fst kv))
  then Raise (SynapseError 400 ("Not a valid user_id: " +:+ fst kv))
  else
    match py_int (snd kv) with
    | Ok _ => Ok tt
    | Raise _ =>
        Raise (SynapseError 400 ("Not a valid power level: " +:+ py_str (snd kv)))
    end.

Definition int_level_names : list string :=
  ["users_default"; "events_default"; "state_default"; "ban"; "redact";
   "kick"; "invite"].

Definition reject_stringy_level (kv : string * json) : result unit :=
  let '(k, v) := kv in
  _ ← (if str_in k int_level_names && negb (is_int v)
       then Raise (SynapseError 400 (py_repr v +:+ " must be an integer."))
       else Ok tt);
  if str_in k ["events"; "notifications"; "users"]
  then
    match v with
    | JDict m =>
        if forallb (fun kv' => is_int (snd kv')) m then Ok tt
        else Raise (SynapseError 400
               (py_repr v +:+ " must be a dict wherein all the values are integers."))
    | _ => Raise (SynapseError 400
               (py_repr v +:+ " must be a dict wherein all the values are integers."))
    end
  else Ok tt.

(** [int(loc[k]) if k in loc else None] *)
Definition level_at (loc : dict) (k : string) : result (option Z) :=
  match dict_get k loc with
  | Some v => n ← py_int v; Ok (Some n)
  | None => Ok None
  end.

(** One turn of the loop over [levels_to_check]. *)
Definition check_level (user_level : Z) (old_state new_state : dict)
    (lc : string * option string) : result unit :=
  let '(level_to_check, dir) := lc in
  old_loc ← match dir with
            | Some d => get_mapping d old_state
            | None => Ok old_state
            end;
  new_loc ← match dir with
            | Some d => get_mapping d new_state
            | None => Ok new_state
            end;
  old_level ← level_at old_loc level_to_check;
  new_level ← level_at new_loc level_to_check;
  let unchanged :=
    match new_level, old_level with
    | Some n, Some o => n =? o
    | _, _ => false
    end in
  if unchanged then Ok tt
  else
    let old_level_too_big :=
      match old_level with Some o => user_level <? o | None => false end in
    let new_level_too_big :=
      match new_level with Some n => user_level <? n | None => false end in
    if old_level_too_big || new_level_too_big
    then Raise (AuthError 403
           "You don't have permission to add ops level greater than your own")
    else Ok tt.

(** The patched [_check_power_levels]. The source walks
    [set(list(old) + list(new))]; the walk here is over the concatenation,
    which visits the same keys. The values at [users], [events] and
    [notifications] are read as mappings, which is what the validation of
    the room versions that enforce integer power levels lets through;
    where one of them is not a mapping this model raises at the first
    read, whereas the source raises only where one of [list], [in] and
    indexing fails on the value. *)
Definition _check_power_levels (room_version_obj : RoomVersion)
    (event : EventBase) (auth_events : StateMap) : result unit :=
  user_list ← get_mapping "users" (content event);
  _ ← for_each validate_user user_list;
  _ ← (if String.eqb (type event) EventTypes_PowerLevels
          && enforce_int_power_levels room_version_obj
       then for_each reject_stringy_level (content event)
       else Ok tt);
  let key := (type event, state_key event) in
  match auth_events !! key with
  | None => Ok tt
  | Some current_state =>
      (* PATCHED *)
      _ ← _raise_if_human_demotes_bot_or_last_human event current_state;
      let user_level := get_user_power_level (user_id event) auth_events in
      let levels_to_check : list (string * option string) :=
        map (fun n => (n, None)) int_level_names in
      old_list ← get_mapping "users" (content current_state);
      let levels_to_check := (levels_to_check ++
        map (fun u => (u, Some "users"))
            (dict_keys old_list ++ dict_keys user_list))%list in
      old_list ← get_mapping "events" (content current_state);
      new_list ← get_mapping "events" (content event);
      let levels_to_check := (levels_to_check ++
        map (fun e => (e, Some "events"))
            (dict_keys old_list ++ dict_keys new_list))%list in
      levels_to_check ←
        (if limit_notifications_power_levels room_version_obj
         then
           old_list ← get_mapping "notifications" (content current_state);
           new_list ← get_mapping "notifications" (content event);
           Ok (levels_to_check ++
               map (fun e => (e, Some "notifications"))
                   (dict_keys old_list ++ dict_keys new_list))%list
         else Ok levels_to_check);
      let old_state := content current_state in
      let new_state := content event in
      for_each (check_level user_level old_state new_state) levels_to_check
  end.

Definition _raise_if_human_kicks_bot (leave_event : EventBase) : result unit :=
  if decide (sender leave_event ∈ bot_ids) then Ok tt
  else if decide (state_key leave_event ∈ bot_ids)
  then Raise (AuthError 403 "Human admins cannot kick bot admins")
  else Ok tt.

(** The users the comprehension of [_raise_if_last_human_kicks_self] keeps. *)
Definition other_human_admin_ids (event : EventBase) (users : dict) : gset string :=
  list_to_set (map fst (List.filter
    (fun kv => negb (String.eqb (fst kv) (user_id event))
               && negb (bool_decide (fst kv ∈ bot_ids))
               && eq_int (snd kv) 100) users)).

Definition _raise_if_last_human_kicks_self (event : EventBase)
    (auth_events : StateMap) : result unit :=
  match auth_events !! (EventTypes_PowerLevels, "") with
  | None => Ok tt
  | Some current_state =>
      if eq_str (dict_get "reason" (content event)) "Account deactivated"
      then Ok tt
      else
        current_power_levels ← get_mapping "users" (content current_state);
        if decide (other_human_admin_ids event current_power_levels = ∅)
        then Raise (AuthError 403
          "You cannot leave the room, because you are the only admin in this room.")
        else Ok tt
  end.

(** [event.type == EventTypes.Member and event.membership == Membership.LEAVE]:
    [event.membership] is read for a member event only, and raises
    [KeyError] when the content of the event has no membership. *)
Definition is_member_leave (event : EventBase) : result bool :=
  if String.eqb (type event) EventTypes_Member
  then
    match membership event with
    | Some m => Ok (eq_str (Some m) Membership_LEAVE)
    | None => Raise (KeyError "membership")
    end
  else Ok false.

Definition _is_leave_allowed (event : EventBase) (auth_events : StateMap)
    : result unit :=
  is_leave ← is_member_leave event;
  if negb is_leave then Raise AssertionError
  else
    (* PATCHED *)
    _ ← _raise_if_human_kicks_bot event;
    let target_user_id := state_key event in
    (* get info about the caller *)
    let caller := auth_events !! (EventTypes_Member, user_id event) in
    let caller_in_room := has_membership caller Membership_JOIN in
    let caller_invited := has_membership caller Membership_INVITE in
    (* get info about the target *)
    let target := auth_events !! (EventTypes_Member, target_user_id) in
    let target_banned := has_membership target Membership_BAN in
    let user_level := get_user_power_level (user_id event) auth_events in
    let target_level := get_user_power_level target_user_id auth_events in
    let ban_level := get_named_level auth_events "ban" 50 in
    if caller_invited && String.eqb target_user_id (user_id event) then Ok tt
    else if negb caller_in_room
    then Raise (UnstableSpecAuthError 403
           (user_id event +:+ " not in room " +:+ room_id event +:+ ".")
           NOT_JOINED)
    else if target_banned && (user_level <? ban_level)
    then Raise (UnstableSpecAuthError 403
           ("You cannot unban user " +:+ target_user_id +:+ ".")
           INSUFFICIENT_POWER)
    else if negb (String.eqb target_user_id (user_id event))
    then
      let kick_level := get_named_level auth_events "kick" 50 in
      (* PATCHED *)
      if (user_level <? kick_level) || (user_level <? target_level)
      then Raise (UnstableSpecAuthError 403
             ("You cannot kick user " +:+ target_user_id +:+ ".")
             INSUFFICIENT_POWER)
      else Ok tt
    (* PATCHED *)
    else _raise_if_last_human_kicks_self event auth_events.

(** Which check [_is_membership_change_allowed] handed the event to. *)
Inductive check_call : Type :=
| Called_is_leave_allowed
| Called_original.

(** The patched [_is_membership_change_allowed]: the checks it invoked, and
    its outcome. Both conditions of the source start with the test of
    [is_member_leave]; when that test raises, no check is invoked. *)
Definition _is_membership_change_allowed (room_version : RoomVersion)
    (event : EventBase) (auth_events : StateMap)
    : list check_call * result unit :=
  let target_user_id := state_key event in
  let requester_user_id := user_id event in
  match is_member_leave event with
  | Raise e => ([], Raise e)
  | Ok is_leave =>
      if negb (is_leave
               && bool_decide (requester_user_id ∈ bot_ids)
               && negb (String.eqb target_user_id requester_user_id))
      then
        match is_member_leave event with
        | Raise e => ([], Raise e)
        | Ok true =>
            ([Called_is_leave_allowed], _is_leave_allowed event auth_events)
        | Ok false =>
            ([Called_original],
             _is_membership_change_allowed_original room_version event
               auth_events)
        end
      else ([], Ok tt)
  end.

End Patches.

(** *** The clean-up of the power levels after a leave *)

Section Demotion.

(** What [EventAuthPatches] reads from the homeserver: [api.server_name],
    [store.is_room_blocked] and [store.check_local_user_in_room]. *)
Variable server_name : string.
Variable is_room_blocked : string -> bool.
Variable check_local_user_in_room : string -> string -> bool.

(** [d[k]] where a mapping is expected. *)
Definition index_mapping (k : string) (d : dict) : result dict :=
  match dict_get k d with
  | None => Raise (KeyError k)
  | Some (JDict m) => Ok m
  | Some _ => Raise TypeError
  end.

Definition audiences_bot_id : string := "@audiences_bot:" +:+ server_name.

Definition _find_sender_in_room (leave_event : EventBase) (content : dict)
    : result string :=
  users ← index_mapping "users" content;
  let audiences_bot_is_admin :=
    match dict_get audiences_bot_id users with
    | Some v => eq_int v 100
    | None => false
    end in
  let audiences_bot_in_room :=
    check_local_user_in_room audiences_bot_id (room_id leave_event) in
  if audiences_bot_is_admin && audiences_bot_in_room then Ok audiences_bot_id
  else
    let admin_ids :=
      map fst (List.filter
        (fun kv => eq_int (snd kv) 100
                   && negb (String.eqb (fst kv) audiences_bot_id)) users) in
    match List.find
            (fun admin_id => check_local_user_in_room admin_id (room_id leave_event))
            admin_ids with
    | Some admin_id => Ok admin_id
    | None => Ok (sender leave_event)
    end.

(** The events handed to [api.create_and_send_event_into_room]. The test
    [user not in users] is Python's [in] on whatever [users] is; the
    deletion that follows needs a mapping. *)
Definition _delete_user_from_power_levels (leave_event power_levels : EventBase)
    : result (list EventBase) :=
  let user := state_key leave_event in
  users ← match dict_get "users" (content power_levels) with
          | Some users => Ok users
          | None => Raise (KeyError "users")
          end;
  present ← in_json user users;
  if negb present then Ok []
  else if is_room_blocked (room_id leave_event) then Ok []
  else
    (* del content["users"][user] *)
    users ← match users with
            | JDict m => Ok m
            | _ => Raise TypeError
            end;
    let content := dict_replace "users" (JDict (dict_del user users))
                     (content power_levels) in
    sender ← _find_sender_in_room leave_event content;
    Ok [ {| type := "m.room.power_levels";
            content := content;
            room_id := room_id leave_event;
            sender := sender;
            state_key := "" |} ].

Definition on_new_event (event : EventBase) (state_events : StateMap)
    : result (list EventBase) :=
  if negb (String.eqb (type event) EventTypes_Member) then Ok []
  else
    match membership event with
    | None => Raise (KeyError "membership")
    | Some m =>
        if negb (eq_str (Some m) Membership_LEAVE) then Ok []
        else
          match state_events !! ("m.room.power_levels", "") with
          | Some power_levels => _delete_user_from_power_levels event power_levels
          | None => Ok []
          end
    end.

End Demotion.

End EventAuth.

(** ** The homeserver

    The calls of the reconciler and of the archive controller that change
    the homeserver, in the order they are issued. *)

Inductive call : Type :=
| update_room_membership (sender target room_id new_membership : string)
| sleep (retry_after_ms : Z)
| block_room (room_id user : string)
| unblock_room (room_id : string)
| update_membership (requester target room_id action : string)
| wait_for_stream_position (room_id : string) (stream_id : Z)
| forget (user room_id : string)
| set_room_is_public (room_id : string) (is_public : bool)
| run_as_background_process (desc room_id : string).

(** The homeserver as the modules see it: [perform] is the outcome of a
    call (the integer is the stream id [update_membership] returns), the
    other fields are the queries. [sleep ms] stands for
    [api.sleep(ms / 1000)]. *)
Class Homeserver (H : Type) : Type := {
  perform : H -> call -> H * result Z;
  (** [store.get_local_users_related_to_room(room_id)] *)
  get_local_users_related_to_room : H -> string -> list (string * string);
  (** [http_client.get_json] on the audiences service: the [room_mxid] and
      the [subs] of the response, or the [SynapseError] made from the
      [HttpResponseException] *)
  get_json_subs : H -> string -> result (string * list string);
  (** the [user_id] column of [user_external_ids] for an auth provider and
      a list of external ids *)
  select_user_external_ids : H -> string -> list string -> list string;
  (** [UserHelpers.get_deactivated_users] *)
  get_deactivated_users : H -> list string;
  (** [api.get_room_state(room_id, [("m.room.join_rules", None)])], at the
      key [("m.room.join_rules", "")] *)
  get_join_rules : H -> string -> option EventBase
}.

Module Effects.

Section World.

Context {H : Type} {homeserver : Homeserver H}.

Record World : Type := {
  hs : H;
  trace : list call
}.

(** A computation that calls the homeserver and may raise. *)
Definition M (A : Type) : Type := World -> World * result A.

Definition ret {A : Type} (a : A) : M A := fun w => (w, Ok a).

Definition bind {A B : Type} (m : M A) (k : A -> M B) : M B :=
  fun w =>
    match m w with
    | (w', Ok a) => k a w'
    | (w', Raise e) => (w', Raise e)
    end.

Definition raise {A : Type} (e : exn) : M A := fun w => (w, Raise e).

(** Issue a call: it is appended to the trace, whatever its outcome. *)
Definition do (c : call) : M Z :=
  fun w =>
    let '(h', r) := perform (hs w) c in
    ({| hs := h'; trace := trace w ++ [c] |}, r).

(** A query of the homeserver. *)
Definition ask {A : Type} (q : H -> A) : M A := fun w => (w, Ok (q (hs w))).

(** [await] of a query that may raise. *)
Definition ask_result {A : Type} (q : H -> result A) : M A :=
  fun w => (w, q (hs w)).

End World.

Arguments World : clear implicits.
Arguments M : clear implicits.

#[export] Instance M_ret {H : Type} : MRet (M H) := @ret H.
#[export] Instance M_bind {H : Type} : MBind (M H) := fun A B k m => bind m k.

End Effects.
Export Effects.

(** [s] as a condition: the empty string is false. *)
Definition truthy (s : string) : bool := negb (String.eqb s "").

(** ** audiences/audiences_batch_membership_processor.py *)

Module Audiences.

Record Config : Type := {
  bot_user_ids : list string;
  idp_id : string;
  hs_token : string;
  audiences_bot_user_id : string
}.

Section Processor.

Context {H : Type} {homeserver : Homeserver H}.
Variable config : Config.

Local Abbreviation M := (M H).

Definition self_idp_id : string := "oidc-" +:+ idp_id config.

Definition _get_subs (room_id : string) : M (list string) :=
  response ← ask_result (fun h => get_json_subs h room_id);
  if String.eqb (fst response) room_id then ret (snd response)
  else raise AssertionError.

Definition _desired_room_members (room_id : string) : M (gset string) :=
  subs ← _get_subs room_id;
  results ← ask (fun h => select_user_external_ids h self_idp_id subs);
  deactivated_users ← ask get_deactivated_users;
  ret (list_to_set
         (List.filter (fun mxid => negb (EventAuth.str_in mxid deactivated_users))
                      results)).

Definition _fetch_invited_and_joined_users (room_id : string)
    : M (gset string * gset string) :=
  user_memberships ← ask (fun h => get_local_users_related_to_room h room_id);
  let invited : gset string :=
    list_to_set (map fst (List.filter
      (fun um => String.eqb (snd um) Membership_INVITE) user_memberships)) in
  let joined : gset string :=
    list_to_set (map fst (List.filter
      (fun um => String.eqb (snd um) Membership_JOIN) user_memberships)) in
  ret (invited, joined).

(** The body of the loop of [_process_batch_memberships_type]. In the
    handler of [UnstableSpecAuthError] both branches of the test on the
    message leave the handler normally, as in the source. *)
Definition process_member (room_id kind mxid : string) : M unit :=
  fun w =>
    let attempt :=
      do (update_room_membership (audiences_bot_user_id config) mxid room_id kind) in
    match attempt w with
    | (w', Ok _) => (w', Ok tt)
    | (w', Raise (UnstableSpecAuthError _ msg _)) =>
        if contains "already in the room" msg then (w', Ok tt) else (w', Ok tt)
    | (w', Raise (LimitExceededError retry_after_ms msg)) =>
        match retry_after_ms with
        | Some ms => (do (sleep ms);; attempt;; ret tt) w'
        | None => (w', Ok tt)
        end
    | (w', Raise e) => (w', Raise e)
    end.

Fixpoint _process_batch_memberships_type (room_id kind : string)
    (mxids : list string) : M unit :=
  match mxids with
  | [] => ret tt
  | mxid :: mxids' =>
      process_member room_id kind mxid;;
      _process_batch_memberships_type room_id kind mxids'
  end.

Definition room_members_to_add (desired_room_members joined : gset string)
    : list string :=
  List.filter
    (fun mxid => truthy mxid && negb (bool_decide (mxid ∈ joined)))
    (elements desired_room_members).

Definition room_members_to_remove (desired_room_members invited joined : gset string)
    : list string :=
  List.filter
    (fun mxid => truthy mxid
                 && negb (bool_decide (mxid ∈ desired_room_members))
                 && negb (EventAuth.str_in mxid (bot_user_ids config)))
    (elements (invited ∪ joined)).

Definition process_batch_memberships (room_id : string) : M unit :=
  desired_room_members ← _desired_room_members room_id;
  invited_joined ← _fetch_invited_and_joined_users room_id;
  let '(invited, joined) := invited_joined in
  _process_batch_memberships_type room_id "invite"
    (room_members_to_add desired_room_members joined);;
  _process_batch_memberships_type room_id "leave"
    (room_members_to_remove desired_room_members invited joined).

Definition restore_memberships_from_audience_criteria (room_id : string) : M unit :=
  desired_room_members ← _desired_room_members room_id;
  _process_batch_memberships_type room_id "invite" (elements desired_room_members).

End Processor.

End Audiences.

(** ** archive_rooms/handler.py *)

Module ArchiveRooms.

Section Handler.

Context {H : Type} {homeserver : Homeserver H}.

Local Abbreviation M := (M H).

(** [self.bot_ids] and [self.audiences_services_enabled] *)
Variable bot_ids : list string.
Variable audiences_services_enabled : bool.

(** [try: m except UnstableSpecAuthError: pass] *)
Definition except_UnstableSpecAuthError (m : M unit) : M unit :=
  fun w =>
    match m w with
    | (w', Raise (UnstableSpecAuthError _ _ _)) => (w', Ok tt)
    | (w', r) => (w', r)
    end.

(** The body of the [try] of [update_memberships_directly]: the membership
    change of one user, the wait for its replication and, on archival, the
    forgetting of the room. *)
Definition membership_transition (room_id requester : string) (archive : bool)
    (user_id : string) : M unit :=
  stream_id ← do (update_membership requester user_id room_id
                    (if archive then Membership_LEAVE else Membership_INVITE));
  do (wait_for_stream_position room_id stream_id);;
  if archive then do (forget user_id room_id);; ret tt else ret tt.

(** The body of the loop of [update_memberships_directly]; [requester] is
    [requester.user]. User ids that come from the store parse, so that
    [create_requester] succeeds and comparing the parsed ids is comparing
    the strings. *)
Definition update_member (room_id requester : string) (archive : bool)
    (um : string * string) : M unit :=
  let '(user_id, membership) := um in
  if EventAuth.str_in user_id bot_ids then ret tt
  else if EventAuth.str_in membership
            [Membership_JOIN; Membership_LEAVE; Membership_INVITE]
  then
    if String.eqb user_id requester then ret tt
    else
      except_UnstableSpecAuthError
        (membership_transition room_id requester archive user_id)
  else ret tt.

Fixpoint for_each_member (room_id requester : string) (archive : bool)
    (users : list (string * string)) : M unit :=
  match users with
  | [] => ret tt
  | um :: users' =>
      update_member room_id requester archive um;;
      for_each_member room_id requester archive users'
  end.

Definition update_memberships_directly (room_id requester : string)
    (archive : bool) : M unit :=
  users ← ask (fun h => get_local_users_related_to_room h room_id);
  for_each_member room_id requester archive users.

(** [handle_put] returns the status and the [room_id] and [archive] of the
    response. *)
Definition handle_put (room_id : string) (archive : bool) (requester : string)
    : M (Z * (string * bool)) :=
  (if archive
   then
     do (block_room room_id requester);;
     update_memberships_directly room_id requester archive
   else
     do (unblock_room room_id);;
     if audiences_services_enabled
     then
       do (run_as_background_process
             "audiences_batch_processor_restore_memberships_from_audience_criteria"
             room_id);; ret tt
     else ret tt);;
  join_rules ← ask (fun h => get_join_rules h room_id);
  room_is_currently_public ←
    match join_rules with
    | Some jr =>
        match dict_get "join_rule" (content jr) with
        | Some v => ret (eq_str (Some v) "public")
        | None => raise (KeyError "join_rule")
        end
    | None => ret false
    end;
  (if room_is_currently_public : bool
   then do (set_room_is_public room_id (negb archive));; ret tt
   else ret tt);;
  ret (200, (room_id, archive)).

End Handler.

End ArchiveRooms.

(** ** Concrete hosts

    Small implementations of the two host interfaces, on which the
    functions above run on concrete rooms. *)

Module Sample.

(** Power levels read from the current power-levels event, in the way of
    the homeserver: a user's entry, else [users_default], else 0; no
    event, no power. *)
Definition sample_user_power_level (user : string) (auth_events : StateMap) : Z :=
  match auth_events !! (EventTypes_PowerLevels, "") with
  | Some pl =>
      match get_mapping "users" (content pl) with
      | Ok users =>
          match dict_get user users with
          | Some (JInt n) => n
          | _ =>
              match dict_get "users_default" (content pl) with
              | Some (JInt n) => n
              | _ => 0
              end
          end
      | Raise _ => 0
      end
  | None => 0
  end.

Definition sample_named_level (auth_events : StateMap) (name : string)
    (default : Z) : Z :=
  match auth_events !! (EventTypes_PowerLevels, "") with
  | Some pl =>
      match dict_get name (content pl) with
      | Some (JInt n) => n
      | _ => default
      end
  | None => default
  end.

Definition sample_host : EventAuthHost := {|
  get_user_power_level := sample_user_power_level;
  get_named_level := sample_named_level;
  _is_membership_change_allowed_original := fun _ _ _ => Ok tt;
  UserID_from_string := fun s => String.prefix "@" s;
  int_of_str := fun _ => None;
  py_str := fun _ => "";
  py_repr := fun _ => ""
|}.

(** A homeserver with one room: the membership of its local users, the
    audience of the room, and the outcomes of the coming calls ([Ok] once
    the script is used up). An accepted membership change is recorded in
    the table. *)
Record TestHS : Type := {
  members : gmap string string;
  script : list (result Z);
  subs : list string;
  external_ids : list (string * string);
  deactivated : list string;
  join_rules : option EventBase
}.

Definition set_member (target kind : string) (h : TestHS) : TestHS :=
  {| members := <[target := kind]> (members h);
     script := script h;
     subs := subs h;
     external_ids := external_ids h;
     deactivated := deactivated h;
     join_rules := join_rules h |}.

Definition next_outcome (h : TestHS) : TestHS * result Z :=
  ({| members := members h;
      script := tail (script h);
      subs := subs h;
      external_ids := external_ids h;
      deactivated := deactivated h;
      join_rules := join_rules h |},
   hd (Ok 0) (script h)).

Definition test_perform (h : TestHS) (c : call) : TestHS * result Z :=
  let '(h', r) := next_outcome h in
  match r, c with
  | Ok _, update_room_membership _ target _ kind => (set_member target kind h', r)
  | Ok _, update_membership _ target _ action => (set_member target action h', r)
  | _, _ => (h', r)
  end.

#[export] Instance test_homeserver : Homeserver TestHS := {|
  perform := test_perform;
  get_local_users_related_to_room := fun h _ => map_to_list (members h);
  get_json_subs := fun h room_id => Ok (room_id, subs h);
  select_user_external_ids := fun h _ ids =>
    map snd (List.filter (fun p => EventAuth.str_in (fst p) ids) (external_ids h));
  get_deactivated_users := deactivated;
  get_join_rules := fun h _ => join_rules h
|}.

(** A room for the examples. *)
Definition room : string := "!abc:localhost".
Definition a : string := "@a:localhost".
Definition b : string := "@b:localhost".
Definition c : string := "@c:localhost".
Definition bot : string := "@bot:localhost".
Definition audiences_bot : string := "@audiences_bot:localhost".

Definition member_event (user kind : string) (extra : dict) : EventBase :=
  {| type := "m.room.member"; state_key := user; sender := user;
     room_id := room; content := ("membership", JStr kind) :: extra |}.

Definition leave_event (sender target : string) (extra : dict) : EventBase :=
  {| type := "m.room.member"; state_key := target; sender := sender;
     room_id := room; content := ("membership", JStr "leave") :: extra |}.

Definition power_levels_event (sender : string) (users : dict) : EventBase :=
  {| type := "m.room.power_levels"; state_key := ""; sender := sender;
     room_id := room;
     content := [("ban", JInt 50); ("kick", JInt 50); ("users_default", JInt 0);
                 ("users", JDict users)] |}.

Definition state_of (events : list EventBase) : StateMap :=
  list_to_map (map (fun e => ((type e, state_key e), e)) events).

Definition config : Audiences.Config := {|
  Audiences.bot_user_ids := [bot; audiences_bot];
  Audiences.idp_id := "idp";
  Audiences.hs_token := "token";
  Audiences.audiences_bot_user_id := audiences_bot
|}.

(** A homeserver whose audience for the room is [desired] and whose local
    users have the memberships [ms]. *)
Definition homeserver_with (desired : list string) (ms : list (string * string))
    (outcomes : list (result Z)) (jr : option EventBase) : TestHS :=
  {| members := list_to_map ms;
     script := outcomes;
     subs := desired;
     external_ids := map (fun u => (u, u)) desired;
     deactivated := [];
     join_rules := jr |}.

Definition start (h : TestHS) : World TestHS := {| hs := h; trace := [] |}.

(** The room version and the bots of the scenarios. *)
Definition room_version : RoomVersion :=
  {| enforce_int_power_levels := true; limit_notifications_power_levels := true |}.

Definition bots : gset string := {[ bot ]}.

(** The join rule of a public room. *)
Definition public_join_rules : EventBase :=
  {| type := "m.room.join_rules"; state_key := ""; sender := a;
     room_id := room; content := [("join_rule", JStr "public")] |}.

(** The homeserver after it accepted a membership change, and after it
    accepted the changes of a whole batch. *)
Definition accept (target kind : string) (h : TestHS) : TestHS :=
  set_member target kind (next_outcome h).1.

Definition accept_all (kind : string) (mxids : list string) (h : TestHS) : TestHS :=
  foldl (fun h' mxid => accept mxid kind h') h mxids.

(** The desired, invited and joined users of the room, as the reconciler
    reads them from this homeserver. *)
Definition desired_of (config : Audiences.Config) (h : TestHS) : gset string :=
  list_to_set
    (List.filter (fun mxid => negb (EventAuth.str_in mxid (deactivated h)))
       (map snd (List.filter (fun p => EventAuth.str_in (fst p) (subs h))
                   (external_ids h)))).

Definition users_with (kind : string) (h : TestHS) : gset string :=
  list_to_set (map fst (List.filter (fun um => String.eqb (snd um) kind)
                          (map_to_list (members h)))).

End Sample.

(** ** Vocabulary of the statements *)

Module Statements.

(** A membership event with membership [leave]. *)
Definition is_leave_event (event : EventBase) : Prop :=
  type event = EventTypes_Member ∧ membership event = Some (JStr Membership_LEAVE).

(** The outcome is an [UnstableSpecAuthError] with the given error code. *)
Definition denied_with (r : result unit) (errcode : Codes) : Prop :=
  ∃ code msg, r = Raise (UnstableSpecAuthError code msg errcode).

(** A user has an entry equal to 100 in a [users] mapping. *)
Definition at_level_100 (users : dict) (u : string) : Prop :=
  ∃ v, (u, v) ∈ users ∧ eq_int v 100 = true.

(** A human (a sender that is not a bot) removes a bot. *)
Definition human_kicks_bot (bot_ids : gset string) (event : EventBase) : Prop :=
  (sender event ∉ bot_ids) ∧ (state_key event ∈ bot_ids).

#[export] Instance human_kicks_bot_dec bot_ids event :
  Decision (human_kicks_bot bot_ids event).
Proof. unfold human_kicks_bot. apply _. Defined.

(** The members [update_memberships_directly] acts on: not a bot, joined,
    left or invited, and not the requester. *)
Definition qualifies (bot_ids : list string) (requester : string)
    (um : string * string) : bool :=
  negb (EventAuth.str_in (fst um) bot_ids)
  && EventAuth.str_in (snd um)
       [Membership_JOIN; Membership_LEAVE; Membership_INVITE]
  && negb (String.eqb (fst um) requester).

(** The membership changes among the calls of a trace. *)
Definition is_membership_change (c : call) : bool :=
  match c with
  | update_membership _ _ _ _ | update_room_membership _ _ _ _ => true
  | _ => false
  end.

Definition membership_changes (t : list call) : list call :=
  List.filter is_membership_change t.

(** The calls [update_memberships_directly] may issue for a room. *)
Definition is_eviction_call (room_id : string) (c : call) : bool :=
  match c with
  | update_membership _ _ r _ | wait_for_stream_position r _ | forget _ r =>
      String.eqb r room_id
  | _ => false
  end.

(** The calls of a reconciliation batch of one kind: the membership change
    of a member of the batch by the audiences bot, or a sleep. *)
Definition is_batch_call (config : Audiences.Config) (room_id kind : string)
    (mxids : list string) (c : call) : Prop :=
  (∃ ms, c = sleep ms)
  ∨ (∃ mxid, mxid ∈ mxids
       ∧ c = update_room_membership (Audiences.audiences_bot_user_id config)
               mxid room_id kind).

(** The leaves that the eviction of a list of members issues. *)
Definition expected_leaves (bot_ids : list string) (room_id requester : string)
    (users : list (string * string)) : list call :=
  map (fun um => update_membership requester (fst um) room_id Membership_LEAVE)
      (List.filter (qualifies bot_ids requester) users).

(** [join_rules and join_rules.content["join_rule"] == "public"] *)
Definition join_rule_is_public (join_rules : option EventBase) : bool :=
  match join_rules with
  | Some jr => eq_str (dict_get "join_rule" (content jr)) "public"
  | None => false
  end.

End Statements.
Export Statements.

(** ** More Python values *)

Module PyMore.

(** [d[k]], raising [KeyError] on a missing key. *)
Definition dict_index (k : string) (d : dict) : result json :=
  match dict_get k d with
  | Some v => Ok v
  | None => Raise (KeyError k)
  end.

(** [d[k] = v]: the item keeps its place when the key is present, and is
    added at the end otherwise. *)
Fixpoint dict_set (k : string) (v : json) (d : dict) : dict :=
  match d with
  | [] => [(k, v)]
  | (k', v') :: d' =>
      if String.eqb k' k then (k', v) :: d' else (k', v') :: dict_set k v d'
  end.

(** [v] as a condition. *)
Definition truthy_json (v : json) : bool :=
  match v with
  | JNull => false
  | JBool b => b
  | JInt n => negb (n =? 0)
  | JStr s => truthy s
  | JList l => match l with [] => false | _ => true end
  | JDict d => match d with [] => false | _ => true end
  end.

(** [v < n] for an [int] [n]: Python orders numbers, and raises
    [TypeError] when [v] is not a number. *)
Definition lt_int (v : json) (n : Z) : result bool :=
  match v with
  | JInt m => Ok (m <? n)
  | JBool b => Ok ((if b then 1 else 0) <? n)
  | _ => Raise TypeError
  end.

End PyMore.
Export PyMore.

(** ** archive_rooms/api.py *)

Module ArchiveApi.

(** A requester: [str(requester.user)] and [requester.user.localpart]. *)
Record Requester : Type := {
  requester_user : string;
  requester_localpart : string
}.

(** The error code of the [SynapseError] is not kept. *)
Definition _archive_permission_error (requester : Requester) : exn :=
  SynapseError 403 (requester_localpart requester +:+ " cannot archive rooms").

(** [_validate_user], given the outcome of
    [api.get_room_state(room_id, [("m.room.power_levels", None)])]. In the
    last test the error is built and not raised, as in the source. *)
Definition _validate_user (room_state : result StateMap) (requester : Requester)
    : result unit :=
  let required_level := 100 in
  let attempt : result json :=
    room_state ← room_state;
    power_levels ← match room_state !! ("m.room.power_levels", "") with
                   | Some ev => Ok ev
                   | None => Raise (KeyError "('m.room.power_levels', '')")
                   end;
    users ← EventAuth.index_mapping "users" (content power_levels);
    dict_index (requester_user requester) users in
  match attempt with
  | Raise (KeyError _) => Raise (_archive_permission_error requester)
  | Raise e => Raise e
  | Ok requester_power_level =>
      too_low ← lt_int requester_power_level required_level;
      if too_low : bool
      then (let _ := _archive_permission_error requester in Ok tt)
      else Ok tt
  end.

End ArchiveApi.

(** ** audiences/power_levels_helpers.py *)

Module PowerLevelsHelpers.

Definition permission_denied : exn :=
  AuthError 403 "User does not have permission to perform this action".

(** [PowerLevelsHelpers.authorize]: a [bool] is an instance of [int]. *)
Definition authorize (user_id : string) (power_levels : EventBase) (level : Z)
    : result unit :=
  let attempt : result json :=
    users ← EventAuth.index_mapping "users" (content power_levels);
    dict_index user_id users in
  match attempt with
  | Raise (KeyError _) => Raise permission_denied
  | Raise e => Raise e
  | Ok requester_power_level =>
      match requester_power_level with
      | JInt _ | JBool _ =>
          too_low ← lt_int requester_power_level level;
          if too_low : bool then Raise permission_denied else Ok tt
      | _ => Raise permission_denied
      end
  end.

End PowerLevelsHelpers.

(** ** audiences/room_creation_listener.py *)

Module RoomCreationListener.

Section Listener.

(** [self.audiences_bot_user_id] and [self.bridge_bot_user_id] *)
Variable audiences_bot_user_id : string.
Variable bridge_bot_user_id : string.

(** [d.setdefault(k, {})]: the dict after the call, and the value at [k]. *)
Definition setdefault (k : string) (d : dict) : dict * json :=
  match dict_get k d with
  | None => (d ++ [(k, JDict [])], JDict [])
  | Some v => (d, v)
  end.

(** [_on_create_room] changes [request_content] in place: the value is the
    content after the call. [requester_user_id] is
    [requester.user.to_string()]. A [power_level_content_override] that is
    not a mapping fails at its [setdefault], an [invite] that is not a list
    at its [append], and a [users] that is not a mapping at the first
    assignment to it. *)
Definition _on_create_room (requester_user_id : string) (request_content : dict)
    : result dict :=
  if match dict_get "is_direct" request_content with
     | Some v => truthy_json v
     | None => false
     end
  then Ok request_content
  else
    let request_content :=
      if dict_contains "invite" request_content then request_content
      else request_content ++ [("invite", JList [])] in
    let '(request_content, power_level_override) :=
      setdefault "power_level_content_override" request_content in
    power_level_override ← match power_level_override with
                           | JDict m => Ok m
                           | _ => Raise AttributeError
                           end;
    let '(power_level_override, user_power_levels) :=
      setdefault "users" power_level_override in
    invites ← match dict_get "invite" request_content with
              | Some (JList l) => Ok l
              | Some _ => Raise AttributeError
              | None => Raise (KeyError "invite")
              end;
    let invites := invites ++ [JStr audiences_bot_user_id] in
    user_power_levels ← match user_power_levels with
                        | JDict m => Ok m
                        | _ => Raise TypeError
                        end;
    let user_power_levels :=
      dict_set audiences_bot_user_id (JInt 100) user_power_levels in
    let user_power_levels :=
      dict_set requester_user_id (JInt 100) user_power_levels in
    let '(invites, user_power_levels) :=
      if negb (String.eqb requester_user_id bridge_bot_user_id)
      then (invites ++ [JStr bridge_bot_user_id],
            dict_set bridge_bot_user_id (JInt 100) user_power_levels)
      else (invites, user_power_levels) in
    Ok (dict_replace "power_level_content_override"
          (JDict (dict_replace "users" (JDict user_power_levels)
                    power_level_override))
          (dict_replace "invite" (JList invites) request_content)).

End Listener.

End RoomCreationListener.

(** ** More vocabulary of the statements *)

Module MoreStatements.

(** The last part of [handle_put], from the comment "Only modify
    visibility for public rooms" on: the join rule is read, the room's
    [is_public] column is set when the rule is [public], and the response
    is returned. *)
Definition visibility_phase {H : Type} {homeserver : Homeserver H}
    (room_id : string) (archive : bool) (w : World H)
    : World H * result (Z * (string * bool)) :=
  match get_join_rules (hs w) room_id with
  | None => (w, Ok (200, (room_id, archive)))
  | Some jr =>
      match dict_get "join_rule" (content jr) with
      | None => (w, Raise (KeyError "join_rule"))
      | Some v =>
          if eq_str (Some v) "public"
          then
            match do (set_room_is_public room_id (negb archive)) w with
            | (w', Raise e) => (w', Raise e)
            | (w', Ok _) => (w', Ok (200, (room_id, archive)))
            end
          else (w, Ok (200, (room_id, archive)))
      end
  end.

(** A level, when there is one, is within a power. *)
Definition within_power (level : option Z) (power : Z) : Prop :=
  ∀ z, level = Some z → z ≤ power.

End MoreStatements.
Export MoreStatements.

(** * Properties of the patched event authorization *)

Module EventAuthFacts.

Import EventAuth.

Section Facts.

Context {host : EventAuthHost}.
Variable bot_ids : gset string.

Lemma is_leave_event_guard event :
  is_leave_event event → is_member_leave event = Ok true.
Proof.
  intros [Ht Hm]. unfold is_member_leave. rewrite Ht, Hm. reflexivity.
Qed.

Lemma eqb_false_of_ne (s t : string) : s ≠ t → String.eqb s t = false.
Proof. intros Hne. by apply String.eqb_neq. Qed.

Lemma elem_of_admin_ids users u :
  u ∈ admin_ids users ↔ at_level_100 users u.
Proof.
  unfold admin_ids, at_level_100.
  rewrite elem_of_list_to_set, list_elem_of_fmap. split.
  - intros [[u' v] [-> Hin]]. apply list_elem_of_In, filter_In in Hin.
    destruct Hin as [Hin H100]. exists v. split; [by apply list_elem_of_In|done].
  - intros [v [Hin H100]]. exists (u, v). split; [done|].
    apply list_elem_of_In, filter_In. split; [by apply list_elem_of_In|done].
Qed.

Lemma elem_of_other_human_admin_ids event users u :
  u ∈ other_human_admin_ids bot_ids event users ↔
  at_level_100 users u ∧ u ≠ sender event ∧ u ∉ bot_ids.
Proof.
  unfold other_human_admin_ids, at_level_100, user_id.
  rewrite elem_of_list_to_set, list_elem_of_fmap. split.
  - intros [[u' v] [-> Hin]]. apply list_elem_of_In, filter_In in Hin.
    destruct Hin as [Hin Hc]. simpl in Hc.
    apply andb_prop in Hc as [Hc H100]. apply andb_prop in Hc as [Hne Hbot].
    apply negb_true_iff in Hne, Hbot.
    apply String.eqb_neq in Hne. apply bool_decide_eq_false in Hbot.
    split; [|done]. exists v. split; [by apply list_elem_of_In|done].
  - intros [[v [Hin H100]] [Hne Hbot]]. exists (u, v). split; [done|].
    apply list_elem_of_In, filter_In. split; [by apply list_elem_of_In|]. simpl.
    rewrite H100, (eqb_false_of_ne _ _ Hne), bool_decide_eq_false_2 by done.
    reflexivity.
Qed.

(** C10: a leave event sent by a bot for another user is permitted, and
    neither [_is_leave_allowed] nor the host's original check is invoked. *)
Theorem bot_kick_permitted_without_checks room_version event auth_events :
  is_leave_event event →
  sender event ∈ bot_ids →
  state_key event ≠ sender event →
  _is_membership_change_allowed bot_ids room_version event auth_events = ([], Ok tt).
Proof.
  intros Hleave Hbot Hne. unfold _is_membership_change_allowed, user_id.
  rewrite (is_leave_event_guard _ Hleave), bool_decide_eq_true_2 by done.
  rewrite (eqb_false_of_ne _ _ Hne). reflexivity.
Qed.

Lemma raise_if_human_kicks_bot_spec event :
  _raise_if_human_kicks_bot bot_ids event
  = if decide (human_kicks_bot bot_ids event)
    then Raise (AuthError 403 "Human admins cannot kick bot admins")
    else Ok tt.
Proof.
  unfold _raise_if_human_kicks_bot, human_kicks_bot.
  destruct (decide (sender event ∈ bot_ids)) as [Hs|Hs].
  - rewrite decide_False by tauto. done.
  - destruct (decide (state_key event ∈ bot_ids)) as [Ht|Ht].
    + rewrite decide_True by tauto. done.
    + rewrite decide_False by tauto. done.
Qed.

(** The checks a kick goes through, in the order of the source. *)
Lemma kick_decision_list event auth_events :
  is_leave_event event →
  state_key event ≠ sender event →
  has_membership (auth_events !! (EventTypes_Member, state_key event))
    Membership_BAN = false →
  _is_leave_allowed bot_ids event auth_events
  = if decide (human_kicks_bot bot_ids event)
    then Raise (AuthError 403 "Human admins cannot kick bot admins")
    else if negb (has_membership (auth_events !! (EventTypes_Member, sender event))
                    Membership_JOIN)
    then Raise (UnstableSpecAuthError 403
           (sender event +:+ " not in room " +:+ room_id event +:+ ".") NOT_JOINED)
    else if (get_user_power_level (sender event) auth_events
               <? get_named_level auth_events "kick" 50)
            || (get_user_power_level (sender event) auth_events
                  <? get_user_power_level (state_key event) auth_events)
    then Raise (UnstableSpecAuthError 403
           ("You cannot kick user " +:+ state_key event +:+ ".")
           INSUFFICIENT_POWER)
    else Ok tt.
Proof.
  intros Hleave Hne Hban. unfold _is_leave_allowed, user_id.
  rewrite (is_leave_event_guard _ Hleave), Hban,
    (eqb_false_of_ne _ _ Hne), andb_false_r. cbn [negb andb mbind result_bind].
  rewrite raise_if_human_kicks_bot_spec.
  destruct (decide (human_kicks_bot bot_ids event)); reflexivity.
Qed.

(** C3, as the code has it: a kick (the sender removes another user, who
    is not banned) is refused with the bot-protection error whenever a
    human removes a bot, whatever the power levels and the membership of
    the sender; otherwise it is refused with NOT_JOINED if the sender is
    not joined; and it is refused with INSUFFICIENT_POWER exactly when,
    past these two checks, the sender's power is below the kick level or
    below the target's power, so that equal power suffices. *)
Theorem kick_authorization event auth_events :
  is_leave_event event →
  state_key event ≠ sender event →
  has_membership (auth_events !! (EventTypes_Member, state_key event))
    Membership_BAN = false →
  let joined :=
    has_membership (auth_events !! (EventTypes_Member, sender event))
      Membership_JOIN in
  let user_level := get_user_power_level (sender event) auth_events in
  let target_level := get_user_power_level (state_key event) auth_events in
  let kick_level := get_named_level auth_events "kick" 50 in
  let r := _is_leave_allowed bot_ids event auth_events in
  (human_kicks_bot bot_ids event →
     r = Raise (AuthError 403 "Human admins cannot kick bot admins"))
  ∧ (joined = false →
       is_raise r ∧ (¬ human_kicks_bot bot_ids event → denied_with r NOT_JOINED))
  ∧ (denied_with r INSUFFICIENT_POWER ↔
       ¬ human_kicks_bot bot_ids event ∧ joined = true
       ∧ (user_level < kick_level ∨ user_level < target_level))
  ∧ (r = Ok tt ↔
       ¬ human_kicks_bot bot_ids event ∧ joined = true
       ∧ kick_level ≤ user_level ∧ target_level ≤ user_level).
Proof.
  intros Hleave Hne Hban. cbn zeta.
  rewrite (kick_decision_list _ _ Hleave Hne Hban). unfold denied_with.
  destruct (decide (human_kicks_bot bot_ids event)) as [Hkb|Hkb];
    [|destruct (has_membership (auth_events !! (EventTypes_Member, sender event))
                  Membership_JOIN); cbn [negb];
      [destruct (Z.ltb_spec (get_user_power_level (sender event) auth_events)
                   (get_named_level auth_events "kick" 50)); cbn [orb];
       [|destruct (Z.ltb_spec (get_user_power_level (sender event) auth_events)
                     (get_user_power_level (state_key event) auth_events))]|]];
    repeat split; intros; try done; try lia; try tauto;
    try (by eexists _, _);
    try (destruct_and?; lia);
    try (repeat match goal with H : ∃ _, _ |- _ => destruct H end; discriminate).
Qed.

Lemma has_membership_exclusive ev m m' :
  m ≠ m' → has_membership ev m = true → has_membership ev m' = false.
Proof.
  intros Hne. destruct ev as [e|]; [|done]. unfold has_membership, eq_str.
  destruct (membership e) as [[]|]; try done.
  intros Heq%String.eqb_eq. subst. by apply String.eqb_neq.
Qed.

(** The checks a self-leave goes through, in the order of the source: the
    bot guard never fires, and a joined user is not banned. *)
Lemma self_leave_decision_list event auth_events :
  is_leave_event event →
  state_key event = sender event →
  _is_leave_allowed bot_ids event auth_events
  = if has_membership (auth_events !! (EventTypes_Member, sender event))
         Membership_INVITE
    then Ok tt
    else if negb (has_membership (auth_events !! (EventTypes_Member, sender event))
                    Membership_JOIN)
    then Raise (UnstableSpecAuthError 403
           (sender event +:+ " not in room " +:+ room_id event +:+ ".") NOT_JOINED)
    else _raise_if_last_human_kicks_self bot_ids event auth_events.
Proof.
  intros Hleave Heq. unfold _is_leave_allowed, user_id.
  rewrite (is_leave_event_guard _ Hleave). cbn [negb mbind result_bind].
  rewrite raise_if_human_kicks_bot_spec.
  rewrite decide_False by (unfold human_kicks_bot; rewrite Heq; tauto).
  cbn [negb mbind result_bind]. rewrite Heq, String.eqb_refl, andb_true_r.
  destruct (has_membership (auth_events !! (EventTypes_Member, sender event))
              Membership_INVITE); [done|].
  destruct (has_membership (auth_events !! (EventTypes_Member, sender event))
              Membership_JOIN) eqn:Hj; [|done].
  rewrite (has_membership_exclusive _ Membership_JOIN Membership_BAN) by done.
  reflexivity.
Qed.

Lemma other_human_admin_ids_empty event users :
  other_human_admin_ids bot_ids event users = ∅ ↔
  ¬ ∃ u, at_level_100 users u ∧ u ≠ sender event ∧ u ∉ bot_ids.
Proof.
  split.
  - intros Hempty [u Hu]. apply elem_of_other_human_admin_ids in Hu.
    rewrite Hempty in Hu. by apply not_elem_of_empty in Hu.
  - intros Hnone. apply elem_of_equiv_empty_L. intros u Hu.
    apply Hnone. exists u. by apply elem_of_other_human_admin_ids.
Qed.

(** C1, as the code has it: an invited user may always decline; a user who
    is neither invited nor joined is refused with NOT_JOINED; a joined
    user may leave when the room has no power-levels event or when the
    leave carries the "Account deactivated" reason, and is otherwise
    refused with the sole-admin error exactly when the users mapping holds
    no user at 100 who is neither the sender nor a bot. *)
Theorem self_leave_authorization event auth_events :
  is_leave_event event →
  state_key event = sender event →
  let caller := auth_events !! (EventTypes_Member, sender event) in
  let r := _is_leave_allowed bot_ids event auth_events in
  let other_human_admin :=
    fun users => ∃ u, at_level_100 users u ∧ u ≠ sender event ∧ u ∉ bot_ids in
  (has_membership caller Membership_INVITE = true → r = Ok tt)
  ∧ (has_membership caller Membership_INVITE = false →
     has_membership caller Membership_JOIN = false →
     denied_with r NOT_JOINED)
  ∧ (has_membership caller Membership_JOIN = true →
     match auth_events !! (EventTypes_PowerLevels, "") with
     | None => r = Ok tt
     | Some current_state =>
         (eq_str (dict_get "reason" (content event)) "Account deactivated" = true →
          r = Ok tt)
         ∧ ∀ users,
             eq_str (dict_get "reason" (content event)) "Account deactivated" = false →
             get_mapping "users" (content current_state) = Ok users →
             (r = Raise (AuthError 403
                "You cannot leave the room, because you are the only admin in this room.")
              ↔ ¬ other_human_admin users)
             ∧ (r = Ok tt ↔ other_human_admin users)
     end).
Proof.
  intros Hleave Heq. cbn zeta.
  rewrite (self_leave_decision_list _ _ Hleave Heq).
  split; [by intros ->|]. split.
  - intros -> ->. by eexists _, _.
  - intros Hj.
    rewrite (has_membership_exclusive _ Membership_JOIN Membership_INVITE), Hj
      by done.
    cbn [negb]. unfold _raise_if_last_human_kicks_self.
    destruct (auth_events !! (EventTypes_PowerLevels, "")) as [current_state|];
      [|done].
    split; [by intros ->|]. intros users -> ->. cbn [mbind result_bind].
    destruct (decide (other_human_admin_ids bot_ids event users = ∅)) as [He|He].
    + pose proof (proj1 (other_human_admin_ids_empty _ _) He) as Hnone.
      split; [done|]. split; [done|]. intros Hex. by destruct Hnone.
    + assert (∃ u, at_level_100 users u ∧ u ≠ sender event ∧ u ∉ bot_ids)
        as Hex.
      { apply set_choose_L in He as [u Hu]. exists u.
        by apply elem_of_other_human_admin_ids. }
      split; [|done]. split; [done|]. intros Hnone. by destruct Hnone.
Qed.

(** [_check_power_levels] accepts a change of an existing power-levels
    event only if the patched guard accepted it. *)
Lemma check_power_levels_runs_guard room_version event current_state auth_events :
  auth_events !! (type event, state_key event) = Some current_state →
  _check_power_levels bot_ids room_version event auth_events = Ok tt →
  _raise_if_human_demotes_bot_or_last_human bot_ids event current_state = Ok tt.
Proof.
  intros Hcur. unfold _check_power_levels. rewrite Hcur.
  destruct (get_mapping "users" (content event)) as [user_list|]; [|done].
  cbn [mbind result_bind].
  destruct (for_each validate_user user_list) as [[]|]; [|done].
  cbn [mbind result_bind].
  destruct (if String.eqb (type event) EventTypes_PowerLevels
               && enforce_int_power_levels room_version
            then for_each reject_stringy_level (content event)
            else Ok tt) as [[]|]; [|done].
  cbn [mbind result_bind].
  by destruct (_raise_if_human_demotes_bot_or_last_human bot_ids event current_state)
    as [[]|].
Qed.

Lemma removed_bot_admins old_users new_users :
  (admin_ids old_users ∖ admin_ids new_users) ∩ bot_ids ≠ ∅ ↔
  ∃ u, u ∈ bot_ids ∧ at_level_100 old_users u ∧ ¬ at_level_100 new_users u.
Proof.
  split.
  - intros [u Hu]%set_choose_L. exists u.
    rewrite elem_of_intersection, elem_of_difference, !elem_of_admin_ids in Hu.
    tauto.
  - intros (u & Hbot & Hold & Hnew) Hempty.
    apply (not_elem_of_empty (C:=gset string) u). rewrite <- Hempty.
    rewrite elem_of_intersection, elem_of_difference, !elem_of_admin_ids. tauto.
Qed.

Lemma no_human_admins new_users :
  admin_ids new_users ∖ bot_ids = ∅ ↔
  ¬ ∃ u, at_level_100 new_users u ∧ u ∉ bot_ids.
Proof.
  split.
  - intros Hempty (u & Hadm & Hbot).
    apply (not_elem_of_empty (C:=gset string) u). rewrite <- Hempty.
    rewrite elem_of_difference, elem_of_admin_ids. tauto.
  - intros Hnone. apply elem_of_equiv_empty_L. intros u.
    rewrite elem_of_difference, elem_of_admin_ids. intros [? ?].
    apply Hnone. by exists u.
Qed.

(** C2, as the code has it: a power-levels event that replaces the current
    power-levels event of the room and is sent by a human is refused when
    a bot that was at 100 is no longer at 100, and refused when no human
    is at 100 in the new mapping; a bot passes both checks. So such a
    change by a human that [_check_power_levels] accepts leaves a human at
    100. *)
Theorem power_levels_change_guard room_version event current_state auth_events
    old_users new_users :
  auth_events !! (type event, state_key event) = Some current_state →
  get_mapping "users" (content current_state) = Ok old_users →
  get_mapping "users" (content event) = Ok new_users →
  let guard :=
    _raise_if_human_demotes_bot_or_last_human bot_ids event current_state in
  let r := _check_power_levels bot_ids room_version event auth_events in
  let demotes_bot :=
    ∃ u, u ∈ bot_ids ∧ at_level_100 old_users u ∧ ¬ at_level_100 new_users u in
  let human_admin_left := ∃ u, at_level_100 new_users u ∧ u ∉ bot_ids in
  (sender event ∉ bot_ids →
     (demotes_bot →
        guard = Raise (AuthError 403 "Human admins cannot demote bot admins")
        ∧ is_raise r)
     ∧ (¬ human_admin_left → is_raise guard ∧ is_raise r)
     ∧ (¬ demotes_bot → ¬ human_admin_left →
          guard = Raise (AuthError 403 "There'd be no human admins left in this room"))
     ∧ (r = Ok tt → human_admin_left))
  ∧ (sender event ∈ bot_ids → guard = Ok tt).
Proof.
  intros Hcur Hold Hnew. cbn zeta.
  pose proof (check_power_levels_runs_guard room_version _ _ _ Hcur) as Hruns.
  assert (∀ r : result unit, (r = Ok tt → False) → is_raise r) as Hraise.
  { intros [[]|e] Hr; [by destruct Hr|done]. }
  revert Hruns. unfold _raise_if_human_demotes_bot_or_last_human.
  rewrite Hold, Hnew. cbn [mbind result_bind]. intros Hruns.
  split.
  - intros Hhuman. rewrite decide_False in Hruns |- * by done.
    destruct (decide ((admin_ids old_users ∖ admin_ids new_users) ∩ bot_ids ≠ ∅))
      as [Hrem|Hrem].
    + pose proof (proj1 (removed_bot_admins _ _) Hrem) as Hdem.
      repeat split; try done.
      * apply Hraise. intros Hr. by specialize (Hruns Hr).
      * apply Hraise. intros Hr. by specialize (Hruns Hr).
      * intros Hr. by specialize (Hruns Hr).
    + assert (¬ ∃ u, u ∈ bot_ids ∧ at_level_100 old_users u
                     ∧ ¬ at_level_100 new_users u) as Hdem.
      { intros Hdem. by apply Hrem, removed_bot_admins. }
      destruct (decide (admin_ids new_users ∖ bot_ids = ∅)) as [Hnone|Hsome].
      * pose proof (proj1 (no_human_admins _) Hnone) as Hno.
        repeat split; try done.
        -- apply Hraise. intros Hr. by specialize (Hruns Hr).
        -- intros Hr. by specialize (Hruns Hr).
      * assert (∃ u, at_level_100 new_users u ∧ u ∉ bot_ids) as Hleft.
        { apply set_choose_L in Hsome as [u Hu]. exists u.
          rewrite elem_of_difference, elem_of_admin_ids in Hu. tauto. }
        repeat split; try done.
  - intros Hbot. by rewrite decide_True.
Qed.

End Facts.

End EventAuthFacts.

(** * Properties of the power-levels clean-up after a leave *)

Module DemotionFacts.

Import EventAuth.

Section Facts.

Variable server_name : string.
Variable is_room_blocked : string -> bool.
Variable check_local_user_in_room : string -> string -> bool.

Lemma dict_get_replace k v v' (d : dict) :
  dict_get k d = Some v → dict_get k (dict_replace k v' d) = Some v'.
Proof.
  induction d as [|[k0 v0] d IH]; [done|]. cbn.
  destruct (String.eqb k0 k) eqn:Hk; cbn; rewrite Hk; [done|]. apply IH.
Qed.

Lemma index_mapping_replace k m m' (d : dict) :
  index_mapping k d = Ok m →
  index_mapping k (dict_replace k (JDict m') d) = Ok m'.
Proof.
  unfold index_mapping. destruct (dict_get k d) as [v|] eqn:Hget; [|done].
  intros _. by rewrite (dict_get_replace _ _ (JDict m') _ Hget).
Qed.

(** The sender of the replacement event: the audiences bot when it is at
    100 in the mapping and in the room, else the first user at 100 of the
    mapping, the bot apart, that is in the room, else the sender of the
    leave. *)
Lemma find_sender_in_room_spec leave_event content users :
  index_mapping "users" content = Ok users →
  let bot := audiences_bot_id server_name in
  let in_room := fun u => check_local_user_in_room u (room_id leave_event) = true in
  let bot_eligible :=
    (∃ v, dict_get bot users = Some v ∧ eq_int v 100 = true) ∧ in_room bot in
  let other_admin := fun u => at_level_100 users u ∧ u ≠ bot ∧ in_room u in
  ∃ s,
    _find_sender_in_room server_name check_local_user_in_room leave_event content
    = Ok s
    ∧ (bot_eligible → s = bot)
    ∧ (¬ bot_eligible → (∃ u, other_admin u) → other_admin s)
    ∧ (¬ bot_eligible → ¬ (∃ u, other_admin u) → s = sender leave_event).
Proof.
  intros Husers. cbn zeta. unfold _find_sender_in_room. rewrite Husers.
  cbn [mbind result_bind].
  set (bot := audiences_bot_id server_name).
  set (is_admin := match dict_get bot users with
                   | Some v => eq_int v 100
                   | None => false
                   end).
  assert (is_admin = true ↔ ∃ v, dict_get bot users = Some v ∧ eq_int v 100 = true)
    as Hadmin.
  { unfold is_admin. destruct (dict_get bot users) as [v|].
    - split; [intros ?; by exists v|by intros (? & [= ->] & ?)].
    - split; [done|by intros (? & [=] & _)]. }
  destruct (is_admin && check_local_user_in_room bot (room_id leave_event))
    eqn:Hbot.
  - apply andb_prop in Hbot as [Ha Hr]. exists bot.
    split; [done|]. split; [done|]. split.
    + intros Hn. destruct Hn. split; [by apply Hadmin|done].
    + intros Hn. destruct Hn. split; [by apply Hadmin|done].
  - assert (¬ ((∃ v, dict_get bot users = Some v ∧ eq_int v 100 = true)
               ∧ check_local_user_in_room bot (room_id leave_event) = true))
      as Hnot.
    { intros [Ha%Hadmin Hr]. by rewrite Ha, Hr in Hbot. }
    match goal with |- context [List.find ?f ?l] =>
      destruct (List.find f l) as [admin_id|] eqn:Hfind end.
    + apply find_some in Hfind as [Hin Hroom]. exists admin_id.
      split; [done|]. split; [done|].
      apply in_map_iff in Hin as ([u v] & <- & Hin).
      apply filter_In in Hin as [Hin Hc]. cbn in Hc.
      apply andb_prop in Hc as [H100 Hne].
      apply negb_true_iff, String.eqb_neq in Hne.
      split.
      * intros _ _. split; [|done]. exists v.
        split; [by apply list_elem_of_In|done].
      * intros _ Hnone. destruct Hnone. exists u. split; [|done].
        exists v. split; [by apply list_elem_of_In|done].
    + exists (sender leave_event). split; [done|]. split; [done|].
      split; [|done]. intros _ (u & (v & Hin & H100) & Hne & Hroom).
      exfalso. pose proof (find_none _ _ Hfind u) as Hn. cbn in Hn.
      rewrite Hroom in Hn. assert (true = false) as Habs; [|done].
      apply Hn. apply in_map_iff. exists (u, v). split; [done|].
      apply filter_In. split; [by apply list_elem_of_In|]. cbn.
      rewrite H100. by apply negb_true_iff, String.eqb_neq.
Qed.

(** On a power-levels event whose [users] is a mapping, the membership
    test is the test of the key and the deletion goes through. *)
Lemma delete_user_from_mapping leave_event power_levels users :
  index_mapping "users" (content power_levels) = Ok users →
  _delete_user_from_power_levels server_name is_room_blocked
    check_local_user_in_room leave_event power_levels
  = if negb (dict_contains (state_key leave_event) users) then Ok []
    else if is_room_blocked (room_id leave_event) then Ok []
    else
      let content :=
        dict_replace "users" (JDict (dict_del (state_key leave_event) users))
          (content power_levels) in
      sender ← _find_sender_in_room server_name check_local_user_in_room
                 leave_event content;
      Ok [ {| type := "m.room.power_levels";
              content := content;
              room_id := room_id leave_event;
              sender := sender;
              state_key := "" |} ].
Proof.
  unfold index_mapping, _delete_user_from_power_levels.
  destruct (dict_get "users" (content power_levels)) as [[]|]; try done.
  by intros [= ->].
Qed.

(** C4, as the code has it: on a leave, one replacement power-levels event
    is emitted exactly when the leaving user has an entry, at whatever
    level, in the users mapping of the current power-levels event and the
    room is not blocked; its content is the old content with that entry
    removed; its sender is the audiences bot when it is at 100 in the new
    mapping and in the room, else another user at 100 who is in the room,
    else the sender of the leave event. *)
Theorem orphaned_admin_reassignment event state_events power_levels users :
  is_leave_event event →
  state_events !! (EventTypes_PowerLevels, "") = Some power_levels →
  index_mapping "users" (content power_levels) = Ok users →
  let user := state_key event in
  let new_users := dict_del user users in
  let bot := audiences_bot_id server_name in
  let in_room := fun u => check_local_user_in_room u (room_id event) = true in
  let bot_eligible :=
    (∃ v, dict_get bot new_users = Some v ∧ eq_int v 100 = true) ∧ in_room bot in
  let other_admin := fun u => at_level_100 new_users u ∧ u ≠ bot ∧ in_room u in
  ∃ s,
    on_new_event server_name is_room_blocked check_local_user_in_room
      event state_events
    = Ok (if dict_contains user users && negb (is_room_blocked (room_id event))
          then [ {| type := EventTypes_PowerLevels;
                    state_key := "";
                    sender := s;
                    room_id := room_id event;
                    content := dict_replace "users" (JDict new_users)
                                 (content power_levels) |} ]
          else [])
    ∧ (bot_eligible → s = bot)
    ∧ (¬ bot_eligible → (∃ u, other_admin u) → other_admin s)
    ∧ (¬ bot_eligible → ¬ (∃ u, other_admin u) → s = sender event).
Proof.
  intros [Htype Hmem] Hpl Husers. cbn zeta.
  destruct (find_sender_in_room_spec event
              (dict_replace "users" (JDict (dict_del (state_key event) users))
                 (content power_levels))
              (dict_del (state_key event) users)
              (index_mapping_replace _ _ _ _ Husers))
    as (s & Hfind & Hprefs).
  exists s. split; [|exact Hprefs].
  unfold on_new_event. rewrite Htype, Hmem. cbn [negb String.eqb eq_str].
  change (String.eqb EventTypes_Member EventTypes_Member) with true.
  change (String.eqb Membership_LEAVE Membership_LEAVE) with true.
  cbn [negb]. change ("m.room.power_levels", "") with (EventTypes_PowerLevels, "").
  rewrite Hpl. rewrite (delete_user_from_mapping _ _ _ Husers).
  destruct (dict_contains (state_key event) users); [|done]. cbn [negb andb].
  destruct (is_room_blocked (room_id event)); [done|]. cbn [negb].
  rewrite Hfind. reflexivity.
Qed.

End Facts.

End DemotionFacts.

(** * The effect monad *)

Module EffectsFacts.

Section Facts.

Context {H : Type} {homeserver : Homeserver H}.

Lemma do_spec (c : call) (w : World H) :
  ∃ h' r, do c w = ({| hs := h'; trace := trace w ++ [c] |}, r)
          ∧ perform (hs w) c = (h', r).
Proof.
  unfold do. destruct (perform (hs w) c) as [h' r]. by exists h', r.
Qed.

Lemma bind_run {A B : Type} (m : M H A) (k : A → M H B) (w : World H) :
  (m ≫= k) w
  = match m w with
    | (w', Ok a) => k a w'
    | (w', Raise e) => (w', Raise e)
    end.
Proof. reflexivity. Qed.

End Facts.

Ltac step_do h r :=
  match goal with
  | |- context [do ?c ?w0] =>
      let Hdo := fresh "Hdo" in
      destruct (do_spec c w0) as (h & r & Hdo & _); rewrite Hdo; clear Hdo
  end.

End EffectsFacts.

(** * Properties of the audience reconciler *)

Module AudiencesFacts.

Import Audiences EffectsFacts.

Section Facts.

Context {H : Type} {homeserver : Homeserver H}.
Variable config : Config.

Lemma is_batch_call_mono room_id kind mxids mxids' c :
  mxids ⊆ mxids' →
  is_batch_call config room_id kind mxids c →
  is_batch_call config room_id kind mxids' c.
Proof.
  intros Hsub [Hs|(mxid & Hin & ->)]; [by left|right].
  exists mxid. split; [by apply Hsub|done].
Qed.

(** One member of a batch: its membership change is issued first, and
    what follows is at most a sleep and a second attempt. *)
Lemma process_member_trace room_id kind mxid (w : World H) :
  ∃ t,
    trace (process_member config room_id kind mxid w).1
    = trace w ++
      update_room_membership (audiences_bot_user_id config) mxid room_id kind :: t
    ∧ Forall (is_batch_call config room_id kind [mxid]) t.
Proof.
  assert (is_batch_call config room_id kind [mxid]
            (update_room_membership (audiences_bot_user_id config) mxid room_id kind))
    as Hupd.
  { right. exists mxid. split; [apply list_elem_of_here|done]. }
  unfold process_member.
  destruct (do_spec
    (update_room_membership (audiences_bot_user_id config) mxid room_id kind) w)
    as (h' & r & -> & _).
  destruct r as [n|e].
  - exists []. cbn; by rewrite <- ?app_assoc.
  - destruct e; try (exists []; cbn; by rewrite <- ?app_assoc).
    + exists []. destruct (contains _ _); cbn; by rewrite <- ?app_assoc.
    + destruct retry_after_ms as [ms|]; [|exists []; cbn; by rewrite <- ?app_assoc].
      rewrite !bind_run. step_do h1 r1. destruct r1 as [n1|e1].
      * rewrite bind_run. step_do h2 r2. cbn [hs trace].
        exists [sleep ms;
                update_room_membership (audiences_bot_user_id config) mxid
                  room_id kind].
        split; [destruct r2; cbn; by rewrite <- ?app_assoc|].
        constructor; [left; by exists ms|]. constructor; [done|]. constructor.
      * exists [sleep ms]. split; [cbn; by rewrite <- ?app_assoc|].
        constructor; [left; by exists ms|]. constructor.
Qed.

(** A batch issues only membership changes of its kind for its members,
    and sleeps; when it returns normally, every member had its change
    issued. *)
Lemma process_batch_memberships_type_trace room_id kind mxids (w : World H) :
  ∃ t,
    trace (_process_batch_memberships_type config room_id kind mxids w).1
    = trace w ++ t
    ∧ Forall (is_batch_call config room_id kind mxids) t
    ∧ ((_process_batch_memberships_type config room_id kind mxids w).2 = Ok tt →
       ∀ mxid, mxid ∈ mxids →
         update_room_membership (audiences_bot_user_id config) mxid room_id kind ∈ t).
Proof.
  revert w. induction mxids as [|mxid mxids IH]; intros w.
  - exists []. cbn. rewrite app_nil_r. split; [done|]. split; [done|].
    intros _ mxid Hin. by apply elem_of_nil in Hin.
  - cbn [_process_batch_memberships_type]. rewrite bind_run.
    destruct (process_member_trace room_id kind mxid w) as (t1 & Ht1 & Hall1).
    destruct (process_member config room_id kind mxid w) as [w1 r1].
    cbn [fst] in Ht1. destruct r1 as [[]|e].
    + destruct (IH w1) as (t2 & Ht2 & Hall2 & Hok2).
      destruct (_process_batch_memberships_type config room_id kind mxids w1)
        as [w2 r2]. cbn [fst snd] in *.
      exists (update_room_membership (audiences_bot_user_id config) mxid
                room_id kind :: t1 ++ t2).
      split; [rewrite Ht2, Ht1, <- ?app_assoc; done|]. split.
      * constructor; [right; exists mxid; split; [apply list_elem_of_here|done]|].
        apply Forall_app. split.
        -- eapply Forall_impl; [exact Hall1|]. intros c.
           apply is_batch_call_mono. intros x Hx.
           apply list_elem_of_singleton in Hx as ->. apply list_elem_of_here.
        -- eapply Forall_impl; [exact Hall2|]. intros c.
           apply is_batch_call_mono. intros x Hx. by apply list_elem_of_further.
      * intros Hr mxid' Hin. apply elem_of_cons in Hin as [->|Hin].
        -- apply list_elem_of_here.
        -- apply list_elem_of_further, elem_of_app. right. by apply Hok2.
    + cbn [fst snd].
      exists (update_room_membership (audiences_bot_user_id config) mxid
                room_id kind :: t1).
      split; [done|]. split; [|done].
      constructor; [right; exists mxid; split; [apply list_elem_of_here|done]|].
      eapply Forall_impl; [exact Hall1|]. intros c.
      apply is_batch_call_mono. intros x Hx.
      apply list_elem_of_singleton in Hx as ->. apply list_elem_of_here.
Qed.

Lemma truthy_ne_empty (s : string) : truthy s = true ↔ s ≠ "".
Proof.
  unfold truthy. rewrite negb_true_iff. apply String.eqb_neq.
Qed.

Lemma str_in_elem_of (k : string) (l : list string) :
  EventAuth.str_in k l = true ↔ k ∈ l.
Proof.
  unfold EventAuth.str_in. rewrite existsb_exists. split.
  - intros (x & Hin & Heq%String.eqb_eq). subst. by apply list_elem_of_In.
  - intros Hin. exists k. split; [by apply list_elem_of_In|apply String.eqb_refl].
Qed.

Lemma elem_of_room_members_to_add (D J : gset string) u :
  u ∈ room_members_to_add D J ↔ u ∈ D ∧ (u ∉ J) ∧ u ≠ "".
Proof.
  unfold room_members_to_add.
  rewrite list_elem_of_In, filter_In, <- list_elem_of_In, elem_of_elements.
  rewrite andb_true_iff, negb_true_iff, bool_decide_eq_false, truthy_ne_empty.
  tauto.
Qed.

Lemma elem_of_room_members_to_remove (D I J : gset string) u :
  u ∈ room_members_to_remove config D I J ↔
  u ∈ I ∪ J ∧ (u ∉ D) ∧ (u ∉ bot_user_ids config) ∧ u ≠ "".
Proof.
  unfold room_members_to_remove.
  rewrite list_elem_of_In, filter_In, <- list_elem_of_In, elem_of_elements.
  rewrite !andb_true_iff, !negb_true_iff, bool_decide_eq_false, truthy_ne_empty.
  rewrite <- not_true_iff_false, str_in_elem_of. tauto.
Qed.

(** C5, as the code has it: the users to invite are the desired users that
    are not joined (a desired user who is only invited is invited again),
    the users to remove are the invited or joined users that are neither
    desired nor bots, the empty id apart in both; and every call of the
    invite batch is issued before any call of the removal batch. *)
Theorem reconcile_diff_and_order room_id (w : World H) (D I J : gset string) :
  _desired_room_members config room_id w = (w, Ok D) →
  _fetch_invited_and_joined_users room_id w = (w, Ok (I, J)) →
  let to_add := room_members_to_add D J in
  let to_remove := room_members_to_remove config D I J in
  let run := process_batch_memberships config room_id w in
  (∀ u, u ∈ to_add ↔ u ∈ D ∧ (u ∉ J) ∧ u ≠ "")
  ∧ (∀ u, u ∈ to_remove ↔
          u ∈ I ∪ J ∧ (u ∉ D) ∧ (u ∉ bot_user_ids config) ∧ u ≠ "")
  ∧ ∃ invites leaves,
      trace run.1 = trace w ++ invites ++ leaves
      ∧ Forall (is_batch_call config room_id "invite" to_add) invites
      ∧ Forall (is_batch_call config room_id "leave" to_remove) leaves
      ∧ (run.2 = Ok tt →
         (∀ u, u ∈ to_add →
            update_room_membership (audiences_bot_user_id config) u room_id "invite"
            ∈ invites)
         ∧ (∀ u, u ∈ to_remove →
              update_room_membership (audiences_bot_user_id config) u room_id "leave"
              ∈ leaves)).
Proof.
  intros Hd Hf. cbn zeta.
  split; [apply elem_of_room_members_to_add|].
  split; [apply elem_of_room_members_to_remove|].
  unfold process_batch_memberships.
  rewrite bind_run, Hd, bind_run, Hf, bind_run.
  destruct (process_batch_memberships_type_trace room_id "invite"
              (room_members_to_add D J) w) as (t1 & Ht1 & Hall1 & Hok1).
  destruct (_process_batch_memberships_type config room_id "invite"
              (room_members_to_add D J) w) as [w1 r1].
  cbn [fst snd] in *. destruct r1 as [[]|e].
  - destruct (process_batch_memberships_type_trace room_id "leave"
                (room_members_to_remove config D I J) w1) as (t2 & Ht2 & Hall2 & Hok2).
    destruct (_process_batch_memberships_type config room_id "leave"
                (room_members_to_remove config D I J) w1) as [w2 r2].
    cbn [fst snd] in *. exists t1, t2.
    split; [by rewrite Ht2, Ht1, <- app_assoc|]. split; [done|]. split; [done|].
    intros Hr. split; [by apply Hok1|by apply Hok2].
  - exists t1, []. cbn [fst snd]. rewrite app_nil_r.
    split; [done|]. split; [done|]. split; [constructor|]. intros [=].
Qed.

End Facts.

End AudiencesFacts.

(** * Reconciling twice on a homeserver that accepts every change *)

Module ReconcileTwiceFacts.

Import Audiences Sample.

Section Facts.

Variable config : Config.

Lemma script_accept target kind h : script h = [] → script (accept target kind h) = [].
Proof. intros Hs. unfold accept, set_member, next_outcome. cbn. by rewrite Hs. Qed.

Lemma perform_accepting h sender target room_id kind :
  script h = [] →
  perform h (update_room_membership sender target room_id kind)
  = (accept target kind h, Ok 0).
Proof.
  intros Hs. cbn. unfold test_perform, accept, next_outcome. by rewrite Hs.
Qed.

Lemma script_accept_all kind mxids h :
  script h = [] → script (accept_all kind mxids h) = [].
Proof.
  revert h. induction mxids as [|x l IH]; intros h Hs; [done|].
  cbn. apply IH. by apply script_accept.
Qed.

Lemma members_accept_all kind mxids h u :
  members (accept_all kind mxids h) !! u
  = if decide (u ∈ mxids) then Some kind else members h !! u.
Proof.
  revert h. induction mxids as [|x l IH]; intros h.
  - cbn. by rewrite decide_False by apply not_elem_of_nil.
  - cbn [accept_all foldl]. fold (accept_all kind l (accept x kind h)).
    rewrite IH. destruct (decide (u ∈ l)) as [Hl|Hl].
    + rewrite decide_True; [done|by apply list_elem_of_further].
    + cbn. destruct (decide (u = x)) as [->|Hne].
      * rewrite decide_True by apply list_elem_of_here.
        by rewrite lookup_insert_eq.
      * rewrite decide_False by (intros [?|?]%elem_of_cons; done).
        by rewrite lookup_insert_ne.
Qed.

Lemma desired_of_accept_all kind mxids h :
  desired_of config (accept_all kind mxids h) = desired_of config h.
Proof.
  revert h. induction mxids as [|x l IH]; intros h; [done|].
  cbn [accept_all foldl]. fold (accept_all kind l (accept x kind h)).
  by rewrite IH.
Qed.

Lemma process_member_accepting room_id kind mxid (w : World TestHS) :
  script (hs w) = [] →
  process_member config room_id kind mxid w
  = ({| hs := accept mxid kind (hs w);
        trace := trace w ++
          [update_room_membership (audiences_bot_user_id config) mxid room_id kind] |},
     Ok tt).
Proof.
  intros Hs. unfold process_member, do. by rewrite perform_accepting.
Qed.

Lemma batch_accepting room_id kind mxids (w : World TestHS) :
  script (hs w) = [] →
  _process_batch_memberships_type config room_id kind mxids w
  = ({| hs := accept_all kind mxids (hs w);
        trace := trace w ++
          map (fun mxid => update_room_membership (audiences_bot_user_id config)
                             mxid room_id kind) mxids |},
     Ok tt).
Proof.
  revert w. induction mxids as [|x l IH]; intros w Hs.
  - cbn. rewrite app_nil_r. by destruct w.
  - cbn [_process_batch_memberships_type].
    rewrite EffectsFacts.bind_run, process_member_accepting by done.
    rewrite IH by (by apply script_accept). cbn. by rewrite <- app_assoc.
Qed.

Lemma desired_room_members_test room_id (w : World TestHS) :
  _desired_room_members config room_id w = (w, Ok (desired_of config (hs w))).
Proof.
  unfold _desired_room_members, _get_subs.
  rewrite !EffectsFacts.bind_run. cbn. by rewrite String.eqb_refl.
Qed.

Lemma fetch_invited_and_joined_test room_id (w : World TestHS) :
  _fetch_invited_and_joined_users room_id w
  = (w, Ok (users_with Membership_INVITE (hs w), users_with Membership_JOIN (hs w))).
Proof. reflexivity. Qed.

Lemma elem_of_users_with kind h u :
  u ∈ users_with kind h ↔ members h !! u = Some kind.
Proof.
  unfold users_with. rewrite elem_of_list_to_set, list_elem_of_fmap. split.
  - intros ([u' k] & -> & Hin). apply list_elem_of_In, filter_In in Hin.
    destruct Hin as [Hin Hk]. cbn in *. apply String.eqb_eq in Hk as ->.
    by apply elem_of_map_to_list, list_elem_of_In.
  - intros Hl. exists (u, kind). split; [done|].
    apply list_elem_of_In, filter_In. split.
    + by apply list_elem_of_In, elem_of_map_to_list.
    + apply String.eqb_refl.
Qed.

(** C9, as the code has it: on a homeserver that accepts every change, a
    second run right after the first finds nobody to remove and the same
    users to invite as the first run, since an invited user is not yet
    joined; its diff is empty only if the first run had nobody to
    invite. *)
Theorem second_reconcile_diff room_id (w : World TestHS) :
  script (hs w) = [] →
  let D := desired_of config (hs w) in
  let to_add := room_members_to_add D (users_with Membership_JOIN (hs w)) in
  ∃ w1,
    process_batch_memberships config room_id w = (w1, Ok tt)
    ∧ _desired_room_members config room_id w1 = (w1, Ok D)
    ∧ room_members_to_remove config D
        (users_with Membership_INVITE (hs w1)) (users_with Membership_JOIN (hs w1))
      = []
    ∧ room_members_to_add D (users_with Membership_JOIN (hs w1)) = to_add
    ∧ ∃ leaves,
        trace (process_batch_memberships config room_id w1).1
        = trace w1 ++
          map (fun mxid => update_room_membership (audiences_bot_user_id config)
                             mxid room_id "invite") to_add
        ∧ trace w1 = trace w ++
          map (fun mxid => update_room_membership (audiences_bot_user_id config)
                             mxid room_id "invite") to_add ++ leaves.
Proof.
  intros Hs. cbn zeta.
  set (D := desired_of config (hs w)).
  set (I := users_with Membership_INVITE (hs w)).
  set (J := users_with Membership_JOIN (hs w)).
  set (A := room_members_to_add D J).
  set (R := room_members_to_remove config D I J).
  assert (process_batch_memberships config room_id w
          = ({| hs := accept_all "leave" R (accept_all "invite" A (hs w));
                trace := (trace w ++
                  map (fun mxid => update_room_membership
                         (audiences_bot_user_id config) mxid room_id "invite") A) ++
                  map (fun mxid => update_room_membership
                         (audiences_bot_user_id config) mxid room_id "leave") R |},
             Ok tt)) as Hrun.
  { unfold process_batch_memberships.
    rewrite EffectsFacts.bind_run, desired_room_members_test.
    rewrite EffectsFacts.bind_run, fetch_invited_and_joined_test.
    rewrite EffectsFacts.bind_run, batch_accepting by done.
    rewrite batch_accepting by (by apply script_accept_all). done. }
  eexists. split; [exact Hrun|]. cbn [hs trace].
  set (h1 := accept_all "leave" R (accept_all "invite" A (hs w))).
  assert (desired_of config h1 = D) as HD.
  { unfold h1. by rewrite !desired_of_accept_all. }
  assert (∀ u, members h1 !! u
               = if decide (u ∈ R) then Some "leave"
                 else if decide (u ∈ A) then Some "invite"
                 else members (hs w) !! u) as Hmem.
  { intros u. unfold h1. by rewrite !members_accept_all. }
  assert (script h1 = []) as Hs1.
  { unfold h1. by apply script_accept_all, script_accept_all. }
  assert (room_members_to_remove config D (users_with Membership_INVITE h1)
            (users_with Membership_JOIN h1) = []) as Hremove.
  { apply elem_of_nil_inv. intros u.
    rewrite AudiencesFacts.elem_of_room_members_to_remove, elem_of_union,
      !elem_of_users_with, Hmem.
    intros (Hin & HnD & Hnbot & Hne).
    destruct (decide (u ∈ R)) as [HR|HR]; [by destruct Hin|].
    destruct (decide (u ∈ A)) as [HA|HA].
    - apply AudiencesFacts.elem_of_room_members_to_add in HA. tauto.
    - apply HR. apply AudiencesFacts.elem_of_room_members_to_remove.
      rewrite elem_of_union. unfold I, J. rewrite !elem_of_users_with. tauto. }
  assert (room_members_to_add D (users_with Membership_JOIN h1) = A) as Hadd.
  { unfold A, room_members_to_add. apply filter_ext_in. intros u Hu.
    apply list_elem_of_In, elem_of_elements in Hu. f_equal. f_equal.
    apply bool_decide_ext. unfold J. rewrite !elem_of_users_with, Hmem.
    destruct (decide (u ∈ R)) as [HR|HR].
    { apply AudiencesFacts.elem_of_room_members_to_remove in HR. tauto. }
    destruct (decide (u ∈ A)) as [HA|HA]; [|done].
    apply AudiencesFacts.elem_of_room_members_to_add in HA.
    unfold J in HA. rewrite elem_of_users_with in HA. split; [done|tauto]. }
  split; [by rewrite desired_room_members_test; cbn [hs]; rewrite HD|].
  split; [done|]. split; [done|].
  exists (map (fun mxid => update_room_membership
                 (audiences_bot_user_id config) mxid room_id "leave") R).
  split; [|by rewrite <- app_assoc].
  unfold process_batch_memberships.
  rewrite EffectsFacts.bind_run, desired_room_members_test.
  rewrite EffectsFacts.bind_run, fetch_invited_and_joined_test.
  cbn [hs]. rewrite HD, Hremove, Hadd.
  rewrite EffectsFacts.bind_run, batch_accepting by done.
  done.
Qed.

End Facts.

End ReconcileTwiceFacts.

(** * Properties of the archive controller *)

Module ArchiveFacts.

Import ArchiveRooms EffectsFacts.

Section Facts.

Context {H : Type} {homeserver : Homeserver H}.
Variable bot_ids : list string.
Variable audiences_services_enabled : bool.

Lemma update_member_spec room_id requester archive um :
  update_member bot_ids room_id requester archive um
  = if qualifies bot_ids requester um
    then except_UnstableSpecAuthError
           (membership_transition room_id requester archive (fst um))
    else ret tt.
Proof.
  destruct um as [u m]. unfold update_member, qualifies. cbn [fst snd].
  destruct (EventAuth.str_in u bot_ids); [done|]. cbn [negb andb].
  destruct (EventAuth.str_in m _); [|done]. cbn [andb].
  by destruct (String.eqb u requester).
Qed.

(** The eviction of one member: the leave comes first, then at most the
    wait and the forget. *)
Lemma membership_transition_trace room_id requester user_id (w : World H) :
  ∃ t,
    trace (membership_transition room_id requester true user_id w).1
    = trace w ++ update_membership requester user_id room_id Membership_LEAVE :: t
    ∧ membership_changes t = []
    ∧ Forall (fun c => is_eviction_call room_id c = true) t.
Proof.
  unfold membership_transition. rewrite bind_run. step_do h1 r1.
  destruct r1 as [stream_id|e]; [|exists []; by cbn].
  rewrite bind_run. step_do h2 r2. cbn [hs trace].
  destruct r2 as [n2|e]; [|exists [wait_for_stream_position room_id stream_id]].
  - rewrite bind_run. step_do h3 r3. cbn [hs trace].
    exists [wait_for_stream_position room_id stream_id; forget user_id room_id].
    split; [destruct r3; cbn; by rewrite <- ?app_assoc|]. split; [done|].
    repeat constructor; cbn; apply String.eqb_refl.
  - split; [cbn; by rewrite <- ?app_assoc|]. split; [done|].
    repeat constructor; cbn; apply String.eqb_refl.
Qed.

Lemma except_trace (m : M H unit) (w : World H) :
  trace (except_UnstableSpecAuthError m w).1 = trace (m w).1.
Proof.
  unfold except_UnstableSpecAuthError. destruct (m w) as [w' [[]|e]]; [done|].
  by destruct e.
Qed.

Lemma for_each_member_trace room_id requester users (w : World H) :
  ∃ t,
    trace (for_each_member bot_ids room_id requester true users w).1 = trace w ++ t
    ∧ Forall (fun c => is_eviction_call room_id c = true) t
    ∧ membership_changes t `prefix_of` expected_leaves bot_ids room_id requester users
    ∧ ((for_each_member bot_ids room_id requester true users w).2 = Ok tt →
       membership_changes t = expected_leaves bot_ids room_id requester users).
Proof.
  revert w. induction users as [|um users IH]; intros w.
  - exists []. cbn. rewrite app_nil_r. by repeat split.
  - cbn [for_each_member]. rewrite bind_run, update_member_spec.
    unfold expected_leaves. cbn [List.filter].
    destruct (qualifies bot_ids requester um) eqn:Hq.
    + destruct (membership_transition_trace room_id requester (fst um) w)
        as (t1 & Ht1 & Hch1 & Hall1).
      rewrite <- except_trace in Ht1.
      destruct (except_UnstableSpecAuthError _ w) as [w1 r1].
      cbn [fst] in Ht1. destruct r1 as [[]|e].
      * destruct (IH w1) as (t2 & Ht2 & Hall2 & Hpre2 & Hok2).
        destruct (for_each_member bot_ids room_id requester true users w1)
          as [w2 r2]. cbn [fst snd] in *.
        exists (update_membership requester um.1 room_id Membership_LEAVE
                  :: t1 ++ t2).
        split; [by rewrite Ht2, Ht1, <- app_assoc|]. split.
        { constructor; [cbn; apply String.eqb_refl|]. by apply Forall_app. }
        unfold membership_changes in *. cbn [List.filter is_membership_change map].
        rewrite List.filter_app, Hch1. cbn [app]. split.
        -- by apply prefix_cons.
        -- intros Hr. f_equal. by apply Hok2.
      * cbn [fst snd].
        exists (update_membership requester um.1 room_id Membership_LEAVE :: t1).
        split; [done|]. split.
        { constructor; [cbn; apply String.eqb_refl|done]. }
        unfold membership_changes in *. cbn [List.filter is_membership_change map].
        rewrite Hch1. split; [|done]. apply prefix_cons, prefix_nil.
    + cbn. apply IH.
Qed.

Lemma elem_of_expected_leaves room_id requester users c :
  c ∈ expected_leaves bot_ids room_id requester users →
  ∃ u m, (u, m) ∈ users
         ∧ c = update_membership requester u room_id Membership_LEAVE
         ∧ (u ∉ bot_ids) ∧ u ≠ requester
         ∧ m ∈ [Membership_JOIN; Membership_LEAVE; Membership_INVITE].
Proof.
  unfold expected_leaves. rewrite list_elem_of_fmap.
  intros ([u m] & -> & Hin). apply list_elem_of_In, filter_In in Hin.
  destruct Hin as [Hin Hq]. exists u, m. split; [by apply list_elem_of_In|].
  split; [done|]. unfold qualifies in Hq. cbn [fst snd] in Hq.
  apply andb_prop in Hq as [Hq Hreq]. apply andb_prop in Hq as [Hbot Hm].
  apply negb_true_iff in Hbot, Hreq. apply String.eqb_neq in Hreq.
  split; [|split; [done|]].
  - intros Hb%AudiencesFacts.str_in_elem_of. by rewrite Hb in Hbot.
  - by apply AudiencesFacts.str_in_elem_of.
Qed.

(** The phases of an archival request: block the room, evict the members,
    read the join rule, hide the room. *)
Lemma handle_put_archive_run room_id requester (w : World H) :
  handle_put bot_ids audiences_services_enabled room_id true requester w
  = match do (block_room room_id requester) w with
    | (w1, Raise e) => (w1, Raise e)
    | (w1, Ok _) =>
        match for_each_member bot_ids room_id requester true
                (get_local_users_related_to_room (hs w1) room_id) w1 with
        | (w2, Raise e) => (w2, Raise e)
        | (w2, Ok _) =>
            match get_join_rules (hs w2) room_id with
            | None => (w2, Ok (200, (room_id, true)))
            | Some jr =>
                match dict_get "join_rule" (content jr) with
                | None => (w2, Raise (KeyError "join_rule"))
                | Some v =>
                    if eq_str (Some v) "public"
                    then
                      match do (set_room_is_public room_id false) w2 with
                      | (w3, Raise e) => (w3, Raise e)
                      | (w3, Ok _) => (w3, Ok (200, (room_id, true)))
                      end
                    else (w2, Ok (200, (room_id, true)))
                end
            end
        end
    end.
Proof.
  unfold handle_put, update_memberships_directly, ask.
  unfold mbind, M_bind, bind, ret, raise.
  destruct (do (block_room room_id requester) w) as [w1 [n1|e1]]; [|done].
  destruct (for_each_member bot_ids room_id requester true
              (get_local_users_related_to_room (hs w1) room_id) w1)
    as [w2 [[]|e2]]; [|done].
  destruct (get_join_rules (hs w2) room_id) as [jr|]; [|done].
  destruct (dict_get "join_rule" (content jr)) as [v|]; [|done].
  destruct (eq_str (Some v) "public"); [|done]. cbn [negb].
  by destruct (do (set_room_is_public room_id false) w2) as [w3 [n3|e3]].
Qed.

(** An eviction that fails, fails at its last call, with the error that
    the homeserver raised for that call. *)
Lemma membership_transition_failure room_id requester user_id (w w' : World H) e :
  membership_transition room_id requester true user_id w = (w', Raise e) →
  ∃ h t0 c,
    trace w' = trace w ++ t0 ++ [c]
    ∧ is_eviction_call room_id c = true
    ∧ (perform h c).2 = Raise e.
Proof.
  unfold membership_transition. rewrite bind_run.
  destruct (do_spec (update_membership requester user_id room_id Membership_LEAVE) w)
    as (h1 & r1 & -> & Hp1).
  destruct r1 as [stream_id|e1].
  2:{ intros [= <- <-]. eexists (hs w), [], _. cbn [trace app].
      split; [reflexivity|].
      split; [cbn; apply String.eqb_refl|by rewrite Hp1]. }
  rewrite bind_run.
  match goal with |- context [do ?c ?w0] =>
    destruct (do_spec c w0) as (h2 & r2 & -> & Hp2) end.
  cbn [hs trace] in *. destruct r2 as [n2|e2].
  2:{ intros [= <- <-]. eexists h1, [_], _. cbn [trace].
      split; [by rewrite <- app_assoc|].
      split; [cbn; apply String.eqb_refl|by rewrite Hp2]. }
  rewrite bind_run.
  match goal with |- context [do ?c ?w0] =>
    destruct (do_spec c w0) as (h3 & r3 & -> & Hp3) end.
  cbn [hs trace] in *. destruct r3 as [n3|e3]; [done|].
  intros [= <- <-]. eexists h2, [_; _], _. cbn [trace].
  split; [by rewrite <- !app_assoc|].
  split; [cbn; apply String.eqb_refl|by rewrite Hp3].
Qed.

(** The loop over the members fails only at a call of an eviction, with
    the error of that call, which is not an [UnstableSpecAuthError]. *)
Lemma for_each_member_failure room_id requester users (w w' : World H) e :
  for_each_member bot_ids room_id requester true users w = (w', Raise e) →
  (∀ code msg errcode, e ≠ UnstableSpecAuthError code msg errcode)
  ∧ ∃ h t0 c,
      trace w' = trace w ++ t0 ++ [c]
      ∧ is_eviction_call room_id c = true
      ∧ (perform h c).2 = Raise e.
Proof.
  revert w. induction users as [|um users IH]; intros w; [done|].
  cbn [for_each_member]. rewrite bind_run, update_member_spec.
  destruct (qualifies bot_ids requester um). 2:{ cbn. apply IH. }
  unfold except_UnstableSpecAuthError.
  destruct (membership_transition room_id requester true (fst um) w)
    as [w1 [[]|e1]] eqn:Hm.
  - intros Hrest. destruct (IH _ Hrest) as (Hne & h & t0 & c & Ht & Hc & Hp).
    split; [done|].
    destruct (membership_transition_trace room_id requester (fst um) w)
      as (t1 & Ht1 & _). rewrite Hm in Ht1. cbn [fst] in Ht1.
    exists h, (update_membership requester um.1 room_id Membership_LEAVE
                 :: t1 ++ t0), c.
    split; [|done]. rewrite Ht, Ht1, <- !app_assoc. cbn.
    by rewrite <- !app_assoc.
  - destruct (membership_transition_failure _ _ _ _ _ _ Hm)
      as (h & t0 & c & Ht & Hc & Hp).
    destruct e1; try (intros [= <- <-]; split; [done|by exists h, t0, c]).
    intros Hrest. destruct (IH _ Hrest) as (Hne & h' & t0' & c' & Ht' & Hc' & Hp').
    split; [done|]. exists h', (t0 ++ [c] ++ t0'), c'.
    split; [|done]. rewrite Ht', Ht, <- !app_assoc. done.
Qed.

(** C8, as the code has it: archiving blocks the room first; the calls
    that follow are those of the evictions and, last, the one that makes
    the room non-public; the membership changes are leaves, issued by the
    requester in the order of the store, for local users that are not
    bots, are not the requester and are joined, left or invited. When the
    request completes there is one such leave for every such user, and
    the room is made non-public exactly if its join rule is public. The
    request ends early only on the error of its last call, which for a
    call of an eviction is not an [UnstableSpecAuthError], or on a join
    rule without [join_rule] once every leave was issued; the users not
    reached by then get no leave, and the room is made non-public only
    after every leave was issued. *)
Theorem archive_evicts_members room_id requester (w : World H) :
  let run := handle_put bot_ids audiences_services_enabled room_id true requester w in
  let blocked := do (block_room room_id requester) w in
  let users := get_local_users_related_to_room (hs blocked.1) room_id in
  let expected := expected_leaves bot_ids room_id requester users in
  ∃ t,
    trace run.1 = trace w ++ block_room room_id requester :: t
    ∧ membership_changes t `prefix_of` expected
    ∧ (∀ c, c ∈ membership_changes t →
         ∃ u m, (u, m) ∈ users
                ∧ c = update_membership requester u room_id Membership_LEAVE
                ∧ (u ∉ bot_ids) ∧ u ≠ requester
                ∧ m ∈ [Membership_JOIN; Membership_LEAVE; Membership_INVITE])
    ∧ Forall (fun c => is_eviction_call room_id c = true
                       ∨ c = set_room_is_public room_id false) t
    ∧ (set_room_is_public room_id false ∈ t → membership_changes t = expected)
    ∧ (∀ v, run.2 = Ok v →
         v = (200, (room_id, true))
         ∧ membership_changes t = expected
         ∧ ∃ evictions w2,
             for_each_member bot_ids room_id requester true users blocked.1
             = (w2, Ok tt)
             ∧ trace w2 = trace blocked.1 ++ evictions
             ∧ Forall (fun c => is_eviction_call room_id c = true) evictions
             ∧ t = evictions ++
                   (if join_rule_is_public (get_join_rules (hs w2) room_id)
                    then [set_room_is_public room_id false]
                    else []))
    ∧ (∀ e, run.2 = Raise e →
         (e = KeyError "join_rule" ∧ membership_changes t = expected)
         ∨ ∃ h t0 c,
             block_room room_id requester :: t = t0 ++ [c]
             ∧ (perform h c).2 = Raise e
             ∧ (is_eviction_call room_id c = true →
                ∀ code msg errcode, e ≠ UnstableSpecAuthError code msg errcode)).
Proof.
  cbn zeta.
  assert (∀ t users, membership_changes t
                     `prefix_of` expected_leaves bot_ids room_id requester users →
          ∀ c, c ∈ membership_changes t →
            ∃ u m, (u, m) ∈ users
                   ∧ c = update_membership requester u room_id Membership_LEAVE
                   ∧ (u ∉ bot_ids) ∧ u ≠ requester
                   ∧ m ∈ [Membership_JOIN; Membership_LEAVE; Membership_INVITE])
    as Hframe.
  { intros t users [k Hk] c Hc. apply (elem_of_expected_leaves room_id).
    rewrite Hk. apply elem_of_app. by left. }
  assert (∀ ev, Forall (fun c => is_eviction_call room_id c = true) ev →
          Forall (fun c => is_eviction_call room_id c = true
                           ∨ c = set_room_is_public room_id false) ev)
    as Hcalls.
  { intros ev Hev. eapply Forall_impl; [exact Hev|]. intros c Hc. by left. }
  assert (∀ ev, Forall (fun c => is_eviction_call room_id c = true) ev →
          set_room_is_public room_id false ∉ ev) as Hhidden.
  { intros ev Hev Hin. rewrite Forall_forall in Hev.
    specialize (Hev _ Hin). discriminate Hev. }
  rewrite handle_put_archive_run.
  destruct (do_spec (block_room room_id requester) w) as (h1 & r1 & Hdo & Hp1).
  rewrite Hdo. cbn [fst snd hs]. destruct r1 as [n1|e1].
  2:{ exists []. split; [done|]. split; [apply prefix_nil|].
      split; [by intros c Hc%elem_of_nil|]. split; [done|].
      split; [by intros Hin%elem_of_nil|]. split; [by intros v [=]|].
      intros e [= <-]. right. exists (hs w), [], (block_room room_id requester).
      split; [done|]. split; [by rewrite Hp1|]. by intros [=]. }
  set (w1 := {| hs := h1; trace := trace w ++ [block_room room_id requester] |}).
  set (users := get_local_users_related_to_room h1 room_id).
  destruct (for_each_member_trace room_id requester users w1)
    as (ev & Hev & Hall & Hpre & Hok).
  destruct (for_each_member bot_ids room_id requester true users w1) as [w2 r2]
    eqn:Hrun.
  cbn [fst snd] in Hev, Hok.
  assert (trace w2 = trace w ++ block_room room_id requester :: ev) as Hev'.
  { rewrite Hev. unfold w1. cbn [trace]. by rewrite <- app_assoc. }
  destruct r2 as [[]|e2].
  2:{ exists ev. cbn [fst snd].
      split; [done|]. split; [done|]. split; [by apply Hframe|].
      split; [by apply Hcalls|].
      split; [intros Hin; by destruct (Hhidden ev Hall)|].
      split; [by intros v [=]|]. intros e [= <-]. right.
      destruct (for_each_member_failure _ _ _ _ _ _ Hrun)
        as (Hne & h & t0 & c & Ht & Hc & Hp).
      exists h, (block_room room_id requester :: t0), c.
      split; [|split; [done|by intros _]].
      rewrite Hev in Ht. apply app_inv_head in Ht. by rewrite Ht. }
  specialize (Hok eq_refl). unfold join_rule_is_public.
  destruct (get_join_rules (hs w2) room_id) as [jr|] eqn:Hjrs.
  - destruct (dict_get "join_rule" (content jr)) as [v|] eqn:Hjr.
    + destruct (eq_str (Some v) "public") eqn:Hpub.
      * destruct (do_spec (set_room_is_public room_id false) w2)
          as (h3 & r3 & -> & Hp3).
        exists (ev ++ [set_room_is_public room_id false]).
        assert (membership_changes (ev ++ [set_room_is_public room_id false])
                = membership_changes ev) as Hch.
        { unfold membership_changes. rewrite List.filter_app. cbn.
          by rewrite app_nil_r. }
        rewrite Hch. split.
        { destruct r3; cbn [fst trace]; by rewrite Hev', <- app_assoc. }
        split; [done|]. split; [by apply Hframe|].
        split.
        { apply Forall_app. split; [by apply Hcalls|].
          constructor; [by right|done]. }
        split; [done|]. split.
        -- intros v0 Hv. split; [destruct r3; cbn in Hv; by inversion Hv|].
           split; [done|]. exists ev, w2. rewrite Hjrs, Hjr, Hpub.
           by repeat split.
        -- intros e He. right.
           exists (hs w2), (block_room room_id requester :: ev),
             (set_room_is_public room_id false).
           split; [done|]. split.
           { rewrite Hp3. destruct r3; cbn in He; by inversion He. }
           by intros [=].
      * cbn [fst snd]. exists ev.
        split; [done|]. split; [done|]. split; [by apply Hframe|].
        split; [by apply Hcalls|]. split; [done|]. split; [|by intros e [=]].
        intros v0 [= <-]. split; [done|]. split; [done|].
        exists ev, w2. rewrite Hjrs, Hjr, Hpub, app_nil_r. by repeat split.
    + cbn [fst snd]. exists ev.
      split; [done|]. split; [done|]. split; [by apply Hframe|].
      split; [by apply Hcalls|]. split; [done|]. split; [by intros v0 [=]|].
      intros e [= <-]. by left.
  - cbn [fst snd]. exists ev.
    split; [done|]. split; [done|]. split; [by apply Hframe|].
    split; [by apply Hcalls|]. split; [done|]. split; [|by intros e [=]].
    intros v0 [= <-]. split; [done|]. split; [done|].
    exists ev, w2. rewrite Hjrs, app_nil_r. by repeat split.
Qed.

(** C7, as the code has it: when the eviction of a member raises an
    [UnstableSpecAuthError], the error is dropped and the remaining members
    are processed; any other error of that member ends the loop and is
    raised to the caller, the remaining members being left as they are. *)
Theorem archive_per_user_error room_id requester um users (w w1 : World H) e :
  qualifies bot_ids requester um = true →
  membership_transition room_id requester true (fst um) w = (w1, Raise e) →
  for_each_member bot_ids room_id requester true (um :: users) w
  = match e with
    | UnstableSpecAuthError _ _ _ =>
        for_each_member bot_ids room_id requester true users w1
    | _ => (w1, Raise e)
    end.
Proof.
  intros Hq Hraise. cbn [for_each_member].
  rewrite bind_run, update_member_spec, Hq.
  unfold except_UnstableSpecAuthError. rewrite Hraise. by destruct e.
Qed.

End Facts.

End ArchiveFacts.

(** * Scenarios

    The theorems above on the rooms of the test suite, and the inputs on
    which the code departs from a statement. *)

Module Scenarios.

Import Sample.

Lemma bot_kick_permitted_without_checks_witness :
  let event := leave_event bot a [] in
  let auth_events :=
    state_of [power_levels_event a [(a, JInt 100); (bot, JInt 100)];
              member_event a "join" []] in
  is_leave_event event
  ∧ sender event ∈ bots
  ∧ state_key event ≠ sender event
  ∧ EventAuth._is_membership_change_allowed (host:=sample_host) bots
      room_version event auth_events = ([], Ok tt).
Proof.
  cbn zeta.
  assert (is_leave_event (leave_event bot a [])) as H1 by (split; reflexivity).
  assert (sender (leave_event bot a []) ∈ bots) as H2
    by (apply elem_of_singleton; reflexivity).
  assert (state_key (leave_event bot a []) ≠ sender (leave_event bot a [])) as H3
    by discriminate.
  split; [exact H1|]. split; [exact H2|]. split; [exact H3|].
  exact (EventAuthFacts.bot_kick_permitted_without_checks (host:=sample_host)
           bots room_version _ _ H1 H2 H3).
Defined.

Lemma kick_authorization_witness :
  let event := leave_event a b [] in
  let auth_events :=
    state_of [power_levels_event a [(a, JInt 100); (b, JInt 100)];
              member_event a "join" []] in
  is_leave_event event
  ∧ state_key event ≠ sender event
  ∧ has_membership (auth_events !! (EventTypes_Member, state_key event))
      Membership_BAN = false
  ∧ EventAuth._is_leave_allowed (host:=sample_host) bots event auth_events = Ok tt.
Proof.
  cbn zeta.
  assert (is_leave_event (leave_event a b [])) as H1 by (split; reflexivity).
  assert (state_key (leave_event a b []) ≠ sender (leave_event a b [])) as H2
    by discriminate.
  split; [exact H1|]. split; [exact H2|]. split; [reflexivity|].
  apply (EventAuthFacts.kick_authorization (host:=sample_host) bots _ _ H1 H2).
  - reflexivity.
  - split; [|split; [reflexivity|split; [by vm_compute|by vm_compute]]].
    intros [_ Hbot]. apply elem_of_singleton in Hbot. discriminate.
Defined.

Lemma self_leave_authorization_witness :
  let event := leave_event a a [] in
  let auth_events :=
    state_of [power_levels_event a [(a, JInt 100); (b, JInt 100); (bot, JInt 100)];
              member_event a "join" []] in
  is_leave_event event
  ∧ state_key event = sender event
  ∧ EventAuth._is_leave_allowed (host:=sample_host) bots event auth_events = Ok tt.
Proof.
  cbn zeta.
  assert (is_leave_event (leave_event a a [])) as H1 by (split; reflexivity).
  assert (state_key (leave_event a a []) = sender (leave_event a a [])) as H2
    by reflexivity.
  split; [exact H1|]. split; [exact H2|].
  pose proof (EventAuthFacts.self_leave_authorization (host:=sample_host) bots
                (leave_event a a [])
                (state_of [power_levels_event a
                             [(a, JInt 100); (b, JInt 100); (bot, JInt 100)];
                           member_event a "join" []]) H1 H2) as (_ & _ & Hjoined).
  specialize (Hjoined eq_refl).
  assert (state_of [power_levels_event a
                      [(a, JInt 100); (b, JInt 100); (bot, JInt 100)];
                    member_event a "join" []] !! (EventTypes_PowerLevels, "")
          = Some (power_levels_event a
                    [(a, JInt 100); (b, JInt 100); (bot, JInt 100)])) as Hpl
    by reflexivity.
  rewrite Hpl in Hjoined. destruct Hjoined as [_ Hjoined].
  destruct (Hjoined _ eq_refl eq_refl) as [_ Hallowed].
  apply Hallowed. exists b. split.
  - exists (JInt 100). split; [|reflexivity].
    apply list_elem_of_further, list_elem_of_here.
  - split; [by apply String.eqb_neq|]. intros Hb%elem_of_singleton.
    by apply String.eqb_neq in Hb.
Defined.

(** C1 fails as it is stated: a self-leave that carries the "Account
    deactivated" reason is refused when its sender is not in the room, and
    an invited user may decline although no other human is at 100. *)
Lemma self_leave_outside_the_sole_admin_rule :
  let auth_events := state_of [power_levels_event a [(a, JInt 100)]] in
  let deactivated := leave_event a a [("reason", JStr "Account deactivated")] in
  let invited :=
    state_of [power_levels_event a [(bot, JInt 100)]; member_event b "invite" []] in
  let declined := leave_event b b [] in
  (is_leave_event deactivated
   ∧ state_key deactivated = sender deactivated
   ∧ eq_str (dict_get "reason" (content deactivated)) "Account deactivated" = true
   ∧ EventAuth._is_leave_allowed (host:=sample_host) bots deactivated auth_events
     = Raise (UnstableSpecAuthError 403
                "@a:localhost not in room !abc:localhost." NOT_JOINED))
  ∧ (is_leave_event declined
     ∧ state_key declined = sender declined
     ∧ eq_str (dict_get "reason" (content declined)) "Account deactivated" = false
     ∧ EventAuth.other_human_admin_ids bots declined [(bot, JInt 100)] = ∅
     ∧ EventAuth._is_leave_allowed (host:=sample_host) bots declined invited
       = Ok tt).
Proof.
  cbn zeta. repeat split; vm_compute; reflexivity.
Qed.

Lemma power_levels_change_guard_witness :
  let current_state := power_levels_event a [(a, JInt 100); (bot, JInt 100)] in
  let event := power_levels_event a [(a, JInt 100)] in
  let auth_events := state_of [current_state] in
  auth_events !! (type event, state_key event) = Some current_state
  ∧ get_mapping "users" (content current_state)
    = Ok [(a, JInt 100); (bot, JInt 100)]
  ∧ get_mapping "users" (content event) = Ok [(a, JInt 100)]
  ∧ EventAuth._raise_if_human_demotes_bot_or_last_human bots event current_state
    = Raise (AuthError 403 "Human admins cannot demote bot admins")
  ∧ is_raise (EventAuth._check_power_levels (host:=sample_host) bots
                room_version event auth_events).
Proof.
  cbn zeta.
  split; [reflexivity|]. split; [reflexivity|]. split; [reflexivity|].
  pose proof (EventAuthFacts.power_levels_change_guard (host:=sample_host) bots
                room_version (power_levels_event a [(a, JInt 100)])
                (power_levels_event a [(a, JInt 100); (bot, JInt 100)])
                (state_of [power_levels_event a [(a, JInt 100); (bot, JInt 100)]])
                [(a, JInt 100); (bot, JInt 100)] [(a, JInt 100)]
                eq_refl eq_refl eq_refl) as [Hhuman _].
  destruct Hhuman as (Hdemote & _).
  - intros Hs%elem_of_singleton. by apply String.eqb_neq in Hs.
  - apply Hdemote. exists bot. split; [by apply elem_of_singleton|]. split.
    + exists (JInt 100). split; [|reflexivity].
      apply list_elem_of_further, list_elem_of_here.
    + intros (v & Hin & _). apply list_elem_of_singleton in Hin.
      discriminate Hin.
Defined.

(** C2 fails as it is stated: the first power-levels event of a room,
    sent by a human, that puts only a bot at 100 is accepted, and no human
    is at 100 after it. *)
Lemma first_power_levels_event_without_human_admin :
  let event := power_levels_event a [(bot, JInt 100)] in
  let auth_events := state_of [member_event a "join" []] in
  (sender event ∉ bots)
  ∧ auth_events !! (type event, state_key event) = None
  ∧ get_mapping "users" (content event) = Ok [(bot, JInt 100)]
  ∧ EventAuth._check_power_levels (host:=sample_host) bots room_version event
      auth_events = Ok tt
  ∧ ¬ ∃ u, at_level_100 [(bot, JInt 100)] u ∧ u ∉ bots.
Proof.
  cbn zeta. split; [|split; [|split; [|split]]].
  - intros Hs%elem_of_singleton. by apply String.eqb_neq in Hs.
  - reflexivity.
  - reflexivity.
  - reflexivity.
  - intros (u & (v & Hin & _) & Hbot). apply list_elem_of_singleton in Hin.
    injection Hin as -> _. apply Hbot. by apply elem_of_singleton.
Qed.

(** C3 fails as it is stated: a sender that is not joined and whose power
    is below the kick level is refused with NOT_JOINED, not with
    INSUFFICIENT_POWER; and a human that is not joined and removes a bot
    is refused with the bot-protection error, not with NOT_JOINED. *)
Lemma kick_refusals_follow_the_order_of_the_checks :
  let auth_events :=
    state_of [power_levels_event b [(b, JInt 100)]; member_event b "join" []] in
  let by_outsider := leave_event a b [] in
  let of_bot := leave_event a bot [] in
  let joined :=
    has_membership (auth_events !! (EventTypes_Member, a)) Membership_JOIN in
  (is_leave_event by_outsider
   ∧ state_key by_outsider ≠ sender by_outsider
   ∧ has_membership (auth_events !! (EventTypes_Member, state_key by_outsider))
       Membership_BAN = false
   ∧ joined = false
   ∧ get_user_power_level (EventAuthHost:=sample_host) a auth_events
     < get_named_level (EventAuthHost:=sample_host) auth_events "kick" 50
   ∧ EventAuth._is_leave_allowed (host:=sample_host) bots by_outsider auth_events
     = Raise (UnstableSpecAuthError 403
                "@a:localhost not in room !abc:localhost." NOT_JOINED)
   ∧ ¬ denied_with
         (EventAuth._is_leave_allowed (host:=sample_host) bots by_outsider
            auth_events)
         INSUFFICIENT_POWER)
  ∧ (is_leave_event of_bot
     ∧ state_key of_bot ≠ sender of_bot
     ∧ has_membership (auth_events !! (EventTypes_Member, state_key of_bot))
         Membership_BAN = false
     ∧ joined = false
     ∧ EventAuth._is_leave_allowed (host:=sample_host) bots of_bot auth_events
       = Raise (AuthError 403 "Human admins cannot kick bot admins")
     ∧ ¬ denied_with
           (EventAuth._is_leave_allowed (host:=sample_host) bots of_bot
              auth_events)
           NOT_JOINED).
Proof.
  cbn zeta.
  assert (EventAuth._is_leave_allowed (host:=sample_host) bots
            (leave_event a b [])
            (state_of [power_levels_event b [(b, JInt 100)];
                       member_event b "join" []])
          = Raise (UnstableSpecAuthError 403
                     "@a:localhost not in room !abc:localhost." NOT_JOINED))
    as Houtsider by reflexivity.
  assert (EventAuth._is_leave_allowed (host:=sample_host) bots
            (leave_event a bot [])
            (state_of [power_levels_event b [(b, JInt 100)];
                       member_event b "join" []])
          = Raise (AuthError 403 "Human admins cannot kick bot admins"))
    as Hbot by reflexivity.
  rewrite Houtsider, Hbot. unfold denied_with.
  split; [|split; [split; reflexivity|]].
  - split; [split; reflexivity|]. split; [discriminate|].
    split; [reflexivity|]. split; [reflexivity|]. split; [reflexivity|].
    split; [reflexivity|]. intros (code & msg & Heq). discriminate Heq.
  - split; [discriminate|]. split; [reflexivity|]. split; [reflexivity|].
    split; [reflexivity|]. intros (code & msg & Heq). discriminate Heq.
Qed.

(** The store of the scenarios of [on_new_event]: the room is not blocked,
    and every user but the audiences bot is in it. *)
Lemma orphaned_admin_reassignment_witness :
  let in_room := fun u (_ : string) => negb (String.eqb u audiences_bot) in
  let event := leave_event b b [] in
  let power_levels :=
    power_levels_event a [(a, JInt 100); (b, JInt 100); (audiences_bot, JInt 100)] in
  let state_events := state_of [power_levels] in
  is_leave_event event
  ∧ state_events !! (EventTypes_PowerLevels, "") = Some power_levels
  ∧ EventAuth.index_mapping "users" (content power_levels)
    = Ok [(a, JInt 100); (b, JInt 100); (audiences_bot, JInt 100)]
  ∧ ∃ s,
      EventAuth.on_new_event "localhost" (fun _ => false) in_room event state_events
      = Ok [ {| type := EventTypes_PowerLevels;
                state_key := "";
                sender := s;
                room_id := room;
                content := [("ban", JInt 50); ("kick", JInt 50);
                            ("users_default", JInt 0);
                            ("users", JDict [(a, JInt 100);
                                             (audiences_bot, JInt 100)])] |} ]
      ∧ s = a.
Proof.
  cbn zeta.
  assert (is_leave_event (leave_event b b [])) as H1 by (split; reflexivity).
  split; [exact H1|]. split; [reflexivity|]. split; [reflexivity|].
  destruct (DemotionFacts.orphaned_admin_reassignment "localhost" (fun _ => false)
              (fun u (_ : string) => negb (String.eqb u audiences_bot))
              (leave_event b b [])
              (state_of [power_levels_event a
                 [(a, JInt 100); (b, JInt 100); (audiences_bot, JInt 100)]])
              (power_levels_event a
                 [(a, JInt 100); (b, JInt 100); (audiences_bot, JInt 100)])
              [(a, JInt 100); (b, JInt 100); (audiences_bot, JInt 100)]
              H1 eq_refl eq_refl) as (s & Hrun & _).
  exists s. split; [exact Hrun|].
  assert (EventAuth.on_new_event "localhost" (fun _ => false)
            (fun u (_ : string) => negb (String.eqb u audiences_bot))
            (leave_event b b [])
            (state_of [power_levels_event a
               [(a, JInt 100); (b, JInt 100); (audiences_bot, JInt 100)]])
          = Ok [ {| type := EventTypes_PowerLevels;
                    state_key := "";
                    sender := a;
                    room_id := room;
                    content := [("ban", JInt 50); ("kick", JInt 50);
                                ("users_default", JInt 0);
                                ("users", JDict [(a, JInt 100);
                                                 (audiences_bot, JInt 100)])] |} ])
    as Hvalue by reflexivity.
  rewrite Hvalue in Hrun. by injection Hrun as <-.
Defined.

(** C4 fails as it is stated: a user at 50 who leaves is removed from the
    mapping by a replacement event, and after a kick with nobody left to
    send it, the replacement event is sent by the kicker, not by the user
    who left. *)
Lemma replacement_event_beyond_admins :
  let nobody := fun (_ _ : string) => false in
  let users := [(a, JInt 100); (b, JInt 50)] in
  (dict_get b users = Some (JInt 50)
   ∧ EventAuth.on_new_event "localhost" (fun _ => false) nobody
       (leave_event b b []) (state_of [power_levels_event a users])
     = Ok [ {| type := EventTypes_PowerLevels;
               state_key := "";
               sender := b;
               room_id := room;
               content := [("ban", JInt 50); ("kick", JInt 50);
                           ("users_default", JInt 0);
                           ("users", JDict [(a, JInt 100)])] |} ])
  ∧ EventAuth.on_new_event "localhost" (fun _ => false) nobody
      (leave_event a b []) (state_of [power_levels_event a [(b, JInt 100)]])
    = Ok [ {| type := EventTypes_PowerLevels;
              state_key := "";
              sender := a;
              room_id := room;
              content := [("ban", JInt 50); ("kick", JInt 50);
                          ("users_default", JInt 0);
                          ("users", JDict [])] |} ].
Proof.
  cbn zeta. repeat split; vm_compute; reflexivity.
Qed.

Lemma reconcile_diff_and_order_witness :
  let h := homeserver_with [b; c] [(a, "join"); (b, "join")] [] None in
  let w := start h in
  let D := desired_of config h in
  let I := users_with Membership_INVITE h in
  let J := users_with Membership_JOIN h in
  Audiences._desired_room_members config room w = (w, Ok D)
  ∧ Audiences._fetch_invited_and_joined_users room w = (w, Ok (I, J))
  ∧ c ∈ Audiences.room_members_to_add D J
  ∧ a ∈ Audiences.room_members_to_remove config D I J
  ∧ (b ∉ Audiences.room_members_to_add D J)
  ∧ (b ∉ Audiences.room_members_to_remove config D I J).
Proof.
  cbn zeta.
  set (h := homeserver_with [b; c] [(a, "join"); (b, "join")] [] None).
  pose proof (ReconcileTwiceFacts.desired_room_members_test config room (start h))
    as Hd.
  pose proof (ReconcileTwiceFacts.fetch_invited_and_joined_test room (start h))
    as Hf.
  split; [exact Hd|]. split; [exact Hf|].
  destruct (AudiencesFacts.reconcile_diff_and_order config room (start h)
              _ _ _ Hd Hf) as (Hadd & Hremove & _).
  assert (∀ (u : string) (X : gset string),
            bool_decide (u ∈ X) = true → u ∈ X) as Hin
    by (intros u X; apply bool_decide_eq_true).
  assert (∀ (u : string) (X : gset string),
            bool_decide (u ∈ X) = false → u ∉ X) as Hnotin
    by (intros u X; apply bool_decide_eq_false).
  split; [|split; [|split]].
  - apply Hadd. split; [by apply Hin|]. split; [by apply Hnotin|].
    by apply String.eqb_neq.
  - apply Hremove. split; [by apply Hin|]. split; [by apply Hnotin|].
    split; [|by apply String.eqb_neq].
    intros Hbot%AudiencesFacts.str_in_elem_of. discriminate Hbot.
  - intros (_ & HJ & _)%Hadd. apply HJ. by apply Hin.
  - intros (_ & HD & _)%Hremove. apply HD. by apply Hin.
Defined.

(** C5 fails as it is stated: a desired user who is already invited is
    not in D − (I ∪ J), and is invited again. *)
Lemma reconcile_invites_invited_user_again :
  let h := homeserver_with [b] [(b, "invite")] [] None in
  let D := desired_of config h in
  let I := users_with Membership_INVITE h in
  let J := users_with Membership_JOIN h in
  Audiences._desired_room_members config room (start h) = (start h, Ok D)
  ∧ Audiences._fetch_invited_and_joined_users room (start h)
    = (start h, Ok (I, J))
  ∧ D ∖ (I ∪ J) = ∅
  ∧ Audiences.room_members_to_add D J = [b]
  ∧ trace (Audiences.process_batch_memberships config room (start h)).1
    = [update_room_membership audiences_bot b room "invite"].
Proof.
  cbn zeta. repeat split; vm_compute; reflexivity.
Qed.

(** C6 fails on the code: the reconciler removes [a] and [b]; the
    homeserver refuses the first removal with NOT_JOINED, the refusal is
    dropped and the batch goes on to [b] and returns normally. A rate
    limit without a delay is dropped in the same way, with no retry. *)
Theorem batch_drops_authorization_denial :
  let denial :=
    UnstableSpecAuthError 403
      "@audiences_bot:localhost not in room !abc:localhost." NOT_JOINED in
  let h := homeserver_with [] [(a, "join"); (b, "join")] [Raise denial] None in
  let run :=
    Audiences._process_batch_memberships_type config room "leave" [a; b] (start h) in
  let limited :=
    homeserver_with [] [(a, "join")] [Raise (LimitExceededError None "Too Many Requests")]
      None in
  contains "already in the room" "@audiences_bot:localhost not in room !abc:localhost."
  = false
  ∧ perform h (update_room_membership audiences_bot a room "leave")
    = ((next_outcome h).1, Raise denial)
  ∧ run.2 = Ok tt
  ∧ trace run.1 = [update_room_membership audiences_bot a room "leave";
                   update_room_membership audiences_bot b room "leave"]
  ∧ members (hs run.1) !! a = Some "join"
  ∧ Audiences._process_batch_memberships_type config room "leave" [a] (start limited)
    = ({| hs := (next_outcome limited).1;
          trace := [update_room_membership audiences_bot a room "leave"] |},
       Ok tt).
Proof.
  cbn zeta. repeat split; vm_compute; reflexivity.
Qed.

Lemma archive_per_user_error_witness :
  let failure := SynapseError 500 "Internal server error" in
  let h := homeserver_with [] [(a, "join"); (b, "join"); (c, "join")]
             [Raise failure] None in
  let w1 : World TestHS :=
    {| hs := (next_outcome h).1;
       trace := [update_membership c a room "leave"] |} in
  qualifies [bot] c (a, "join") = true
  ∧ ArchiveRooms.membership_transition room c true a (start h) = (w1, Raise failure)
  ∧ ArchiveRooms.for_each_member [bot] room c true [(a, "join"); (b, "join")]
      (start h)
    = (w1, Raise failure).
Proof.
  cbn zeta. split; [reflexivity|]. split; [reflexivity|].
  set (failure := SynapseError 500 "Internal server error").
  set (h := homeserver_with [] [(a, "join"); (b, "join"); (c, "join")]
              [Raise failure] None).
  exact (ArchiveFacts.archive_per_user_error [bot] room c (a, "join")
           [(b, "join")] (start h)
           {| hs := (next_outcome h).1;
              trace := [update_membership c a room "leave"] |}
           failure eq_refl eq_refl).
Defined.

(** C7 fails as it is stated: the homeserver fails on the first member
    with an error that is not an [UnstableSpecAuthError]; the request ends
    with that error and the second member, who qualifies, is not
    evicted. *)
Lemma archive_aborts_on_other_error :
  let failure := SynapseError 500 "Internal server error" in
  let h := homeserver_with [] [(a, "join"); (b, "join"); (c, "join")]
             [Ok 1; Raise failure] None in
  let run := ArchiveRooms.handle_put [bot] false room true c (start h) in
  List.filter (qualifies [bot] c) (get_local_users_related_to_room h room)
  = [(a, "join"); (b, "join")]
  ∧ run.2 = Raise failure
  ∧ trace run.1 = [block_room room c; update_membership c a room "leave"]
  ∧ members (hs run.1) !! b = Some "join".
Proof.
  cbn zeta. repeat split; vm_compute; reflexivity.
Qed.

Lemma second_reconcile_diff_witness :
  let h := homeserver_with [b; c] [(a, "join"); (b, "join")] [] None in
  script (hs (start h)) = []
  ∧ ∃ w1,
      Audiences.process_batch_memberships config room (start h) = (w1, Ok tt)
      ∧ Audiences.room_members_to_remove config (desired_of config h)
          (users_with Membership_INVITE (hs w1)) (users_with Membership_JOIN (hs w1))
        = []
      ∧ Audiences.room_members_to_add (desired_of config h)
          (users_with Membership_JOIN (hs w1))
        = Audiences.room_members_to_add (desired_of config h)
            (users_with Membership_JOIN h).
Proof.
  cbn zeta. split; [reflexivity|].
  destruct (ReconcileTwiceFacts.second_reconcile_diff config room
              (start (homeserver_with [b; c] [(a, "join"); (b, "join")] [] None))
              eq_refl) as (w1 & Hrun & _ & Hremove & Hadd & _).
  exists w1. split; [exact Hrun|]. split; [exact Hremove|exact Hadd].
Defined.

(** C9 fails as it is stated: the first run invites [c]; nothing changes;
    the second run finds [c] invited, not joined, and invites it again. *)
Lemma second_reconcile_invites_again :
  let h := homeserver_with [b; c] [(a, "join"); (b, "join")] [] None in
  let first := Audiences.process_batch_memberships config room (start h) in
  let second := Audiences.process_batch_memberships config room first.1 in
  first.2 = Ok tt
  ∧ trace first.1 = [update_room_membership audiences_bot c room "invite";
                     update_room_membership audiences_bot a room "leave"]
  ∧ Audiences.room_members_to_add (desired_of config (hs first.1))
      (users_with Membership_JOIN (hs first.1))
    = [c]
  ∧ trace second.1 = trace first.1
                     ++ [update_room_membership audiences_bot c room "invite"].
Proof.
  cbn zeta. repeat split; vm_compute; reflexivity.
Qed.

Lemma archive_evicts_members_witness :
  let h := homeserver_with [] [(a, "join"); (b, "invite"); (c, "join"); (bot, "join")]
             [] (Some public_join_rules) in
  let run := ArchiveRooms.handle_put [bot] false room true c (start h) in
  run.2 = Ok (200, (room, true))
  ∧ ∃ t,
      trace run.1 = block_room room c :: t
      ∧ membership_changes t = [update_membership c a room "leave";
                                update_membership c b room "leave"]
      ∧ set_room_is_public room false ∈ t.
Proof.
  cbn zeta. split; [reflexivity|].
  destruct (ArchiveFacts.archive_evicts_members [bot] false room c
              (start (homeserver_with []
                        [(a, "join"); (b, "invite"); (c, "join"); (bot, "join")]
                        [] (Some public_join_rules))))
    as (t & Htrace & _ & _ & _ & _ & Hdone & _).
  destruct (Hdone (200, (room, true)) eq_refl)
    as (_ & Hchanges & evictions & w2 & Hrun & _ & _ & Ht).
  exists t. split; [exact Htrace|]. split; [rewrite Hchanges; reflexivity|].
  rewrite Ht. apply elem_of_app. right.
  assert (join_rule_is_public (get_join_rules (hs w2) room) = true) as ->.
  { vm_compute in Hrun. injection Hrun as <-. reflexivity. }
  apply list_elem_of_here.
Defined.


(** C8 fails as it is stated: the homeserver fails on the first member
    with an error that is not an [UnstableSpecAuthError]; the second
    member, who qualifies, gets no leave, and the room, whose join rule
    is public, is not made non-public. *)
Lemma archive_stops_at_failing_member :
  let failure := SynapseError 500 "Internal server error" in
  let h := homeserver_with [] [(a, "join"); (b, "join"); (c, "join")]
             [Ok 1; Raise failure] (Some public_join_rules) in
  let run := ArchiveRooms.handle_put [bot] false room true c (start h) in
  List.filter (qualifies [bot] c) (get_local_users_related_to_room h room)
  = [(a, "join"); (b, "join")]
  ∧ join_rule_is_public (get_join_rules h room) = true
  ∧ run.2 = Raise failure
  ∧ trace run.1 = [block_room room c; update_membership c a room "leave"]
  ∧ members (hs run.1) !! b = Some "join".
Proof.
  cbn zeta. repeat split; vm_compute; reflexivity.
Qed.

End Scenarios.

(** * Further properties of the patched event authorization *)

Module MoreEventAuthFacts.

Import EventAuth.

Section Facts.

Context {host : EventAuthHost}.
Variable bot_ids : gset string.

Lemma for_each_ok {A : Type} (f : A → result unit) (l : list A) :
  for_each f l = Ok tt ↔ ∀ x, x ∈ l → f x = Ok tt.
Proof.
  induction l as [|x l IH]; cbn [for_each].
  - split; [intros _ x Hx; by apply elem_of_nil in Hx|done].
  - destruct (f x) as [[]|e] eqn:Hfx; cbn [mbind result_bind].
    + rewrite IH. split.
      * intros Hl y [->|Hy]%elem_of_cons; [done|by apply Hl].
      * intros Hl y Hy. apply Hl. by apply list_elem_of_further.
    + split; [done|]. intros Hl.
      specialize (Hl x (list_elem_of_here _ _)). congruence.
Qed.

Lemma dict_get_in_keys k (d : dict) v : dict_get k d = Some v → k ∈ dict_keys d.
Proof.
  induction d as [|[k0 v0] d IH]; [done|]. cbn.
  destruct (String.eqb k0 k) eqn:Hk.
  - apply String.eqb_eq in Hk as ->. intros _. apply list_elem_of_here.
  - intros Hget. apply list_elem_of_further. by apply IH.
Qed.

Lemma level_at_in_keys loc k z : level_at loc k = Ok (Some z) → k ∈ dict_keys loc.
Proof.
  unfold level_at. destruct (dict_get k loc) as [v|] eqn:Hget; [|done].
  intros _. by eapply dict_get_in_keys.
Qed.

(** What one accepted turn of the loop over [levels_to_check] says. *)
Lemma check_level_ok user_level old_loc new_loc k o n :
  level_at old_loc k = Ok o →
  level_at new_loc k = Ok n →
  (let old_level_too_big :=
     match o with Some z => user_level <? z | None => false end in
   let new_level_too_big :=
     match n with Some z => user_level <? z | None => false end in
   (if match n, o with Some a, Some b => a =? b | _, _ => false end
    then Ok tt
    else if old_level_too_big || new_level_too_big
         then Raise (AuthError 403
                "You don't have permission to add ops level greater than your own")
         else Ok tt) = Ok tt) →
  o ≠ n →
  within_power o user_level ∧ within_power n user_level.
Proof.
  intros _ _. cbn zeta. unfold within_power. intros Hok Hne.
  destruct o as [a|], n as [b|]; cbn in Hok.
  - destruct (Z.eqb_spec b a) as [Hba|Hab]; [by subst|].
    destruct (Z.ltb_spec user_level a); [done|].
    destruct (Z.ltb_spec user_level b); [done|].
    split; intros z [= <-]; lia.
  - destruct (Z.ltb_spec user_level a); [done|].
    split; [intros z [= <-]; lia|done].
  - destruct (Z.ltb_spec user_level b); [done|].
    split; [done|intros z [= <-]; lia].
  - done.
Qed.

(** The levels an accepted change went through. *)
Lemma check_power_levels_checks room_version event current_state auth_events
    old_users new_users :
  auth_events !! (type event, state_key event) = Some current_state →
  get_mapping "users" (content current_state) = Ok old_users →
  get_mapping "users" (content event) = Ok new_users →
  _check_power_levels bot_ids room_version event auth_events = Ok tt →
  ∀ lc,
    lc ∈ map (fun n => (n, None)) int_level_names
         ++ map (fun u => (u, Some "users"))
              (dict_keys old_users ++ dict_keys new_users) →
    check_level (get_user_power_level (sender event) auth_events)
      (content current_state) (content event) lc = Ok tt.
Proof.
  intros Hcur Hold Hnew. unfold _check_power_levels. rewrite Hcur, Hnew, Hold.
  cbn [mbind result_bind].
  destruct (for_each validate_user new_users) as [[]|]; [|done].
  cbn [mbind result_bind].
  destruct (if String.eqb (type event) EventTypes_PowerLevels
               && enforce_int_power_levels room_version
            then for_each reject_stringy_level (content event)
            else Ok tt) as [[]|]; [|done].
  cbn [mbind result_bind].
  destruct (_raise_if_human_demotes_bot_or_last_human bot_ids event current_state)
    as [[]|]; [|done].
  cbn [mbind result_bind].
  destruct (get_mapping "events" (content current_state)) as [old_events|];
    [|done].
  cbn [mbind result_bind].
  destruct (get_mapping "events" (content event)) as [new_events|]; [|done].
  cbn [mbind result_bind].
  assert (∀ (levels : list (string * option string)) lc,
            for_each (check_level
                        (get_user_power_level (user_id event) auth_events)
                        (content current_state) (content event)) levels = Ok tt →
            lc ∈ levels →
            check_level (get_user_power_level (sender event) auth_events)
              (content current_state) (content event) lc = Ok tt) as Hall.
  { intros levels lc Hfor Hin. by apply (proj1 (for_each_ok _ _) Hfor). }
  destruct (limit_notifications_power_levels room_version).
  - destruct (get_mapping "notifications" (content current_state)); [|done].
    cbn [mbind result_bind].
    destruct (get_mapping "notifications" (content event)); [|done].
    cbn [mbind result_bind]. intros Hfor lc Hin. apply (Hall _ _ Hfor).
    apply elem_of_app. left. apply elem_of_app. by left.
  - cbn [mbind result_bind]. intros Hfor lc Hin. apply (Hall _ _ Hfor).
    apply elem_of_app. by left.
Qed.

(** X1: an accepted change of the power levels changes no level above the
    sender's own power: where the old and the new level of a user, or of
    one of the named levels, differ, both are at most the sender's
    power. A level equal to the sender's power may be changed. *)
Theorem accepted_change_within_sender_power room_version event current_state
    auth_events old_users new_users :
  auth_events !! (type event, state_key event) = Some current_state →
  get_mapping "users" (content current_state) = Ok old_users →
  get_mapping "users" (content event) = Ok new_users →
  _check_power_levels bot_ids room_version event auth_events = Ok tt →
  let user_level := get_user_power_level (sender event) auth_events in
  (∀ u o n,
     level_at old_users u = Ok o → level_at new_users u = Ok n → o ≠ n →
     within_power o user_level ∧ within_power n user_level)
  ∧ (∀ name o n,
       name ∈ int_level_names →
       level_at (content current_state) name = Ok o →
       level_at (content event) name = Ok n → o ≠ n →
       within_power o user_level ∧ within_power n user_level).
Proof.
  intros Hcur Hold Hnew Hok. cbn zeta.
  pose proof (check_power_levels_checks _ _ _ _ _ _ Hcur Hold Hnew Hok) as Hall.
  split.
  - intros u o n Ho Hn Hne.
    assert (u ∈ dict_keys old_users ++ dict_keys new_users) as Hu.
    { apply elem_of_app. destruct o as [z|].
      - left. by eapply level_at_in_keys.
      - destruct n as [z|]; [|done]. right. by eapply level_at_in_keys. }
    specialize (Hall (u, Some "users")). unfold check_level in Hall.
    rewrite Hold, Hnew in Hall. cbn [mbind result_bind] in Hall.
    rewrite Ho, Hn in Hall. cbn [mbind result_bind] in Hall.
    eapply check_level_ok; [exact Ho|exact Hn| |exact Hne].
    apply Hall. apply elem_of_app. right. apply list_elem_of_fmap. by exists u.
  - intros name o n Hname Ho Hn Hne.
    specialize (Hall (name, None)). unfold check_level in Hall.
    cbn [mbind result_bind] in Hall. rewrite Ho, Hn in Hall.
    cbn [mbind result_bind] in Hall.
    eapply check_level_ok; [exact Ho|exact Hn| |exact Hne].
    apply Hall. apply elem_of_app. left. apply list_elem_of_fmap. by exists name.
Qed.

(** X2: the patched guard accepts a change sent by a human exactly when
    no bot that was at 100 loses it and a human is at 100 in the new
    mapping; so a human may demote another human, or add users. *)
Theorem guard_accepts_exactly event current_state old_users new_users :
  sender event ∉ bot_ids →
  get_mapping "users" (content current_state) = Ok old_users →
  get_mapping "users" (content event) = Ok new_users →
  _raise_if_human_demotes_bot_or_last_human bot_ids event current_state = Ok tt
  ↔ ¬ (∃ u, u ∈ bot_ids ∧ at_level_100 old_users u ∧ ¬ at_level_100 new_users u)
    ∧ ∃ u, at_level_100 new_users u ∧ u ∉ bot_ids.
Proof.
  intros Hhuman Hold Hnew. unfold _raise_if_human_demotes_bot_or_last_human.
  rewrite decide_False, Hold, Hnew by done. cbn [mbind result_bind].
  destruct (decide ((admin_ids old_users ∖ admin_ids new_users) ∩ bot_ids ≠ ∅))
    as [Hrem|Hrem].
  - apply EventAuthFacts.removed_bot_admins in Hrem. split; [done|tauto].
  - assert (¬ ∃ u, u ∈ bot_ids ∧ at_level_100 old_users u
                   ∧ ¬ at_level_100 new_users u) as Hdem.
    { intros Hdem. by apply Hrem, EventAuthFacts.removed_bot_admins. }
    destruct (decide (admin_ids new_users ∖ bot_ids = ∅)) as [Hnone|Hsome].
    + apply EventAuthFacts.no_human_admins in Hnone. split; [done|tauto].
    + split; [|done]. intros _. split; [done|].
      apply set_choose_L in Hsome as [u Hu]. exists u.
      rewrite elem_of_difference, EventAuthFacts.elem_of_admin_ids in Hu. tauto.
Qed.

Lemma for_each_forall {A : Type} (f : A → result unit) (l : list A) :
  (∀ x, x ∈ l → f x = Ok tt) → for_each f l = Ok tt.
Proof. apply for_each_ok. Qed.

Lemma str_in_true (k : string) (l : list string) :
  str_in k l = true ↔ k ∈ l.
Proof.
  unfold str_in. rewrite existsb_exists. split.
  - intros (x & Hin & Heq%String.eqb_eq). subst. by apply list_elem_of_In.
  - intros Hin. exists k. split; [by apply list_elem_of_In|apply String.eqb_refl].
Qed.

(** X3: the first power-levels event of a room (no current power-levels
    event in the auth events) is accepted as soon as it is well formed:
    user ids that parse, integer levels, integer-valued mappings. Neither
    the bots nor the sender's power are looked at. *)
Theorem first_power_levels_event_accepted room_version event auth_events users :
  auth_events !! (type event, state_key event) = None →
  get_mapping "users" (content event) = Ok users →
  (∀ u v, (u, v) ∈ users → UserID_from_string u = true ∧ is_int v = true) →
  (∀ k v, (k, v) ∈ content event →
     (k ∈ int_level_names → is_int v = true)
     ∧ (k ∈ ["events"; "notifications"; "users"] →
        ∃ m, v = JDict m ∧ ∀ kv, kv ∈ m → is_int (snd kv) = true)) →
  _check_power_levels bot_ids room_version event auth_events = Ok tt.
Proof.
  intros Hnone Husers Hvalid Hints. unfold _check_power_levels.
  rewrite Husers, Hnone. cbn [mbind result_bind].
  rewrite (for_each_forall validate_user users); cbn [mbind result_bind].
  2:{ intros [u v] Hin. destruct (Hvalid u v Hin) as [Hu Hv].
      unfold validate_user. cbn [fst snd]. rewrite Hu. cbn [negb].
      destruct v; try done. }
  destruct (String.eqb (type event) EventTypes_PowerLevels
            && enforce_int_power_levels room_version); [|done].
  rewrite for_each_forall; [done|].
  intros [k v] Hin. destruct (Hints k v Hin) as [Hname Hmap].
  unfold reject_stringy_level.
  destruct (str_in k int_level_names) eqn:Hk.
  - rewrite Hname by (by apply str_in_true). cbn [negb andb mbind result_bind].
    destruct (str_in k ["events"; "notifications"; "users"]) eqn:Hk'; [|done].
    destruct Hmap as (m & -> & Hm); [by apply str_in_true|].
    rewrite (proj2 (forallb_forall _ m)); [done|].
    intros kv Hkv. apply Hm. by apply list_elem_of_In.
  - cbn [andb mbind result_bind].
    destruct (str_in k ["events"; "notifications"; "users"]) eqn:Hk'; [|done].
    destruct Hmap as (m & -> & Hm); [by apply str_in_true|].
    rewrite (proj2 (forallb_forall _ m)); [done|].
    intros kv Hkv. apply Hm. by apply list_elem_of_In.
Qed.

(** The checks the removal of another user goes through, the target
    banned or not. *)
Lemma removal_decision_list event auth_events :
  is_leave_event event →
  state_key event ≠ sender event →
  _is_leave_allowed bot_ids event auth_events
  = if decide (human_kicks_bot bot_ids event)
    then Raise (AuthError 403 "Human admins cannot kick bot admins")
    else if negb (has_membership (auth_events !! (EventTypes_Member, sender event))
                    Membership_JOIN)
    then Raise (UnstableSpecAuthError 403
           (sender event +:+ " not in room " +:+ room_id event +:+ ".") NOT_JOINED)
    else if has_membership (auth_events !! (EventTypes_Member, state_key event))
              Membership_BAN
            && (get_user_power_level (sender event) auth_events
                  <? get_named_level auth_events "ban" 50)
    then Raise (UnstableSpecAuthError 403
           ("You cannot unban user " +:+ state_key event +:+ ".")
           INSUFFICIENT_POWER)
    else if (get_user_power_level (sender event) auth_events
               <? get_named_level auth_events "kick" 50)
            || (get_user_power_level (sender event) auth_events
                  <? get_user_power_level (state_key event) auth_events)
    then Raise (UnstableSpecAuthError 403
           ("You cannot kick user " +:+ state_key event +:+ ".")
           INSUFFICIENT_POWER)
    else Ok tt.
Proof.
  intros Hleave Hne. unfold _is_leave_allowed, user_id.
  rewrite (EventAuthFacts.is_leave_event_guard _ Hleave),
    (EventAuthFacts.eqb_false_of_ne _ _ Hne), andb_false_r.
  cbn [negb andb mbind result_bind].
  rewrite EventAuthFacts.raise_if_human_kicks_bot_spec.
  destruct (decide (human_kicks_bot bot_ids event)); reflexivity.
Qed.

(** X4: lifting a ban (a leave event for a banned user sent by someone
    else) goes through the checks of a removal in the order of the source.
    A human that lifts the ban of a bot is refused with the bot-protection
    error, whatever the levels; otherwise a sender that is not joined is
    refused with NOT_JOINED; otherwise a sender below the ban level is
    refused with "You cannot unban user"; otherwise a sender below the
    kick level or the target's power is refused with "You cannot kick
    user". So it is accepted exactly when no human removes a bot, the
    sender is joined and the sender's power is at least the ban level,
    the kick level and the target's power. *)
Theorem unban_authorization event auth_events :
  is_leave_event event →
  state_key event ≠ sender event →
  has_membership (auth_events !! (EventTypes_Member, state_key event))
    Membership_BAN = true →
  let joined :=
    has_membership (auth_events !! (EventTypes_Member, sender event))
      Membership_JOIN in
  let user_level := get_user_power_level (sender event) auth_events in
  let target_level := get_user_power_level (state_key event) auth_events in
  let ban_level := get_named_level auth_events "ban" 50 in
  let kick_level := get_named_level auth_events "kick" 50 in
  let r := _is_leave_allowed bot_ids event auth_events in
  (r = Ok tt ↔
     ¬ human_kicks_bot bot_ids event ∧ joined = true
     ∧ ban_level ≤ user_level ∧ kick_level ≤ user_level
     ∧ target_level ≤ user_level)
  ∧ (human_kicks_bot bot_ids event →
     r = Raise (AuthError 403 "Human admins cannot kick bot admins"))
  ∧ (¬ human_kicks_bot bot_ids event → joined = false →
     r = Raise (UnstableSpecAuthError 403
                  (sender event +:+ " not in room " +:+ room_id event +:+ ".")
                  NOT_JOINED))
  ∧ (¬ human_kicks_bot bot_ids event → joined = true → user_level < ban_level →
     r = Raise (UnstableSpecAuthError 403
                  ("You cannot unban user " +:+ state_key event +:+ ".")
                  INSUFFICIENT_POWER))
  ∧ (¬ human_kicks_bot bot_ids event → joined = true →
     ban_level ≤ user_level →
     user_level < kick_level ∨ user_level < target_level →
     r = Raise (UnstableSpecAuthError 403
                  ("You cannot kick user " +:+ state_key event +:+ ".")
                  INSUFFICIENT_POWER)).
Proof.
  intros Hleave Hne Hban. cbn zeta.
  rewrite (removal_decision_list _ _ Hleave Hne), Hban. cbn [andb].
  destruct (decide (human_kicks_bot bot_ids event)) as [Hkb|Hkb].
  { split; [split; [done|tauto]|]. repeat split; intros; tauto. }
  destruct (has_membership (auth_events !! (EventTypes_Member, sender event))
              Membership_JOIN); cbn [negb].
  2:{ split; [split; [done|by intros (_ & [=] & _)]|].
      repeat split; intros; done. }
  destruct (Z.ltb_spec (get_user_power_level (sender event) auth_events)
              (get_named_level auth_events "ban" 50)).
  { split; [split; [done|intros (_ & _ & ? & _); lia]|].
    repeat split; intros; try done; lia. }
  destruct (Z.ltb_spec (get_user_power_level (sender event) auth_events)
              (get_named_level auth_events "kick" 50)); cbn [orb].
  { split; [split; [done|intros (_ & _ & _ & ? & _); lia]|].
    repeat split; intros; try done; lia. }
  destruct (Z.ltb_spec (get_user_power_level (sender event) auth_events)
              (get_user_power_level (state_key event) auth_events)).
  { split; [split; [done|intros (_ & _ & _ & _ & ?); lia]|].
    repeat split; intros; try done; lia. }
  split; [split; [intros _; repeat split; done|done]|].
  repeat split; intros; try done; lia.
Qed.

(** X5: the exemption of bots covers the removal of other users only. Any
    sender's own leave, a bot's included, goes through
    [_is_leave_allowed], once; an event that is not a member event, or a
    member event whose membership is not leave, goes to the host's
    original check, once; and on a member event without a membership the
    test of the guard raises [KeyError] and no check is invoked. *)
Theorem bot_exemption_is_for_removals_only room_version event auth_events :
  (is_leave_event event → state_key event = sender event →
   _is_membership_change_allowed bot_ids room_version event auth_events
   = ([Called_is_leave_allowed], _is_leave_allowed bot_ids event auth_events))
  ∧ (type event ≠ EventTypes_Member
     ∨ (∃ m, membership event = Some m ∧ m ≠ JStr Membership_LEAVE) →
     _is_membership_change_allowed bot_ids room_version event auth_events
     = ([Called_original],
        _is_membership_change_allowed_original room_version event auth_events))
  ∧ (type event = EventTypes_Member → membership event = None →
     _is_membership_change_allowed bot_ids room_version event auth_events
     = ([], Raise (KeyError "membership"))).
Proof.
  unfold _is_membership_change_allowed, user_id. split; [|split].
  - intros Hleave Heq.
    rewrite (EventAuthFacts.is_leave_event_guard _ Hleave), Heq, String.eqb_refl.
    by rewrite andb_false_r.
  - intros Hother.
    assert (is_member_leave event = Ok false) as ->; [|done].
    unfold is_member_leave.
    destruct (String.eqb (type event) EventTypes_Member) eqn:Htype; [|done].
    apply String.eqb_eq in Htype.
    destruct Hother as [Hne|(m & -> & Hm)]; [done|].
    f_equal. destruct m as [| | |s0| |]; try done. cbn.
    apply String.eqb_neq. by intros ->.
  - intros Htype Hnone. unfold is_member_leave.
    by rewrite Htype, Hnone.
Qed.

Lemma for_each_validate_user users :
  (for_each validate_user users = Ok tt
   ∧ ∀ u v, (u, v) ∈ users →
       UserID_from_string u = true ∧ ∃ n, py_int v = Ok n)
  ∨ (∃ msg, for_each validate_user users = Raise (SynapseError 400 msg))
    ∧ ∃ u v, (u, v) ∈ users
             ∧ (UserID_from_string u = false ∨ ∃ e, py_int v = Raise e).
Proof.
  induction users as [|[u v] users IH].
  - left. split; [done|]. intros u v Hin. by apply elem_of_nil in Hin.
  - cbn [for_each].
    destruct (UserID_from_string u) eqn:Hu.
    + destruct (py_int v) as [n|e] eqn:Hv.
      * assert (validate_user (u, v) = Ok tt) as ->.
        { unfold validate_user. cbn [fst snd]. by rewrite Hu, Hv. }
        cbn [mbind result_bind].
        destruct IH as [[Hok Hall]|[Hraise (u' & v' & Hin & Hbad)]].
        -- left. split; [done|].
           intros u' v' [[= -> ->]|Hin]%elem_of_cons; [|by apply Hall].
           split; [done|]. by exists n.
        -- right. split; [done|]. exists u', v'.
           split; [by apply list_elem_of_further|done].
      * assert (validate_user (u, v)
                = Raise (SynapseError 400
                           ("Not a valid power level: " +:+ py_str v))) as ->.
        { unfold validate_user. cbn [fst snd]. by rewrite Hu, Hv. }
        right. split; [by eexists|]. exists u, v.
        split; [apply list_elem_of_here|]. right. by exists e.
    + assert (validate_user (u, v)
              = Raise (SynapseError 400 ("Not a valid user_id: " +:+ u))) as ->.
      { unfold validate_user. cbn [fst snd]. by rewrite Hu. }
      right. split; [by eexists|]. exists u, v.
      split; [apply list_elem_of_here|]. by left.
Qed.

(** X18: the users of a power-levels event are validated before anything
    else is looked at: an event with a user id that does not parse, or
    with a level that [int] does not convert, is refused with a
    [SynapseError] 400, whoever sent it (a bot included) and whatever the
    current power levels. *)
Theorem malformed_users_are_refused room_version event auth_events users :
  get_mapping "users" (content event) = Ok users →
  ¬ (∀ u v, (u, v) ∈ users →
       UserID_from_string u = true ∧ ∃ n, py_int v = Ok n) →
  ∃ msg,
    _check_power_levels bot_ids room_version event auth_events
    = Raise (SynapseError 400 msg).
Proof.
  intros Husers Hbad. unfold _check_power_levels. rewrite Husers.
  cbn [mbind result_bind].
  destruct (for_each_validate_user users) as [[_ Hall]|[[msg ->] _]]; [done|].
  by exists msg.
Qed.

End Facts.

End MoreEventAuthFacts.

(** * Further properties of the power-levels clean-up *)

Module MoreDemotionFacts.

Import EventAuth.

Section Facts.

Variable server_name : string.
Variable is_room_blocked : string -> bool.
Variable check_local_user_in_room : string -> string -> bool.

Lemma dict_get_del_eq k (d : dict) : dict_get k (dict_del k d) = None.
Proof.
  unfold dict_del. induction d as [|[k0 v0] d IH]; [done|]. cbn.
  destruct (String.eqb k0 k) eqn:Hk; cbn; [done|]. by rewrite Hk.
Qed.

Lemma dict_get_del_ne k k' (d : dict) :
  k' ≠ k → dict_get k' (dict_del k d) = dict_get k' d.
Proof.
  intros Hne. unfold dict_del. induction d as [|[k0 v0] d IH]; [done|]. cbn.
  destruct (String.eqb k0 k) eqn:Hk; cbn.
  - apply String.eqb_eq in Hk as ->.
    by rewrite (EventAuthFacts.eqb_false_of_ne k k') by done.
  - by rewrite IH.
Qed.

Lemma dict_get_replace_ne k k' v (d : dict) :
  k' ≠ k → dict_get k' (dict_replace k v d) = dict_get k' d.
Proof.
  intros Hne. induction d as [|[k0 v0] d IH]; [done|]. cbn.
  destruct (String.eqb k0 k) eqn:Hk; cbn.
  - apply String.eqb_eq in Hk as ->.
    by rewrite (EventAuthFacts.eqb_false_of_ne k k') by done.
  - by rewrite IH.
Qed.

(** X6: whatever the new event and the state, [on_new_event] emits nothing
    or one power-levels event, and one only for a leave in a room that is
    not blocked; that event is for the same room, it differs from the
    current power-levels content in the [users] mapping only, and that
    mapping has lost the entry of the user who left and nothing else. *)
Theorem replacement_event_removes_only_the_leaver event state_events evs :
  on_new_event server_name is_room_blocked check_local_user_in_room
    event state_events = Ok evs →
  evs = []
  ∨ ∃ ev power_levels users new_users,
      evs = [ev]
      ∧ is_leave_event event
      ∧ is_room_blocked (room_id event) = false
      ∧ state_events !! (EventTypes_PowerLevels, "") = Some power_levels
      ∧ index_mapping "users" (content power_levels) = Ok users
      ∧ index_mapping "users" (content ev) = Ok new_users
      ∧ type ev = EventTypes_PowerLevels
      ∧ state_key ev = ""
      ∧ room_id ev = room_id event
      ∧ is_Some (dict_get (state_key event) users)
      ∧ dict_get (state_key event) new_users = None
      ∧ (∀ u, u ≠ state_key event → dict_get u new_users = dict_get u users)
      ∧ (∀ k, k ≠ "users" →
           dict_get k (content ev) = dict_get k (content power_levels)).
Proof.
  unfold on_new_event.
  destruct (String.eqb (type event) EventTypes_Member) eqn:Htype; cbn [negb];
    [|intros [= <-]; by left].
  apply String.eqb_eq in Htype.
  destruct (membership event) as [m|] eqn:Hm; [|done].
  destruct (eq_str (Some m) Membership_LEAVE) eqn:Hleave; cbn [negb];
    [|intros [= <-]; by left].
  assert (m = JStr Membership_LEAVE) as ->.
  { destruct m; try done. cbn in Hleave. by apply String.eqb_eq in Hleave as ->. }
  change ("m.room.power_levels", "") with (EventTypes_PowerLevels, "").
  destruct (state_events !! (EventTypes_PowerLevels, "")) as [power_levels|];
    [|intros [= <-]; by left].
  destruct (index_mapping "users" (content power_levels)) as [users|e] eqn:Husers.
  2:{ unfold _delete_user_from_power_levels, index_mapping in *.
      destruct (dict_get "users" (content power_levels)) as [users|]; [|done].
      cbn [mbind result_bind].
      destruct (in_json (state_key event) users) as [present|]; [|done].
      cbn [mbind result_bind].
      destruct present; cbn [negb]; [|intros [= <-]; by left].
      destruct (is_room_blocked (room_id event)); [intros [= <-]; by left|].
      by destruct users. }
  rewrite (DemotionFacts.delete_user_from_mapping _ _ _ _ _ _ Husers).
  destruct (dict_contains (state_key event) users) eqn:Hin; cbn [negb];
    [|intros [= <-]; by left].
  destruct (is_room_blocked (room_id event)) eqn:Hblocked;
    [intros [= <-]; by left|].
  destruct (_find_sender_in_room _ _ _ _) as [s|]; [|done].
  cbn [mbind result_bind]. intros [= <-]. right.
  eexists _, power_levels, users, (dict_del (state_key event) users).
  split; [reflexivity|]. cbn [type state_key room_id content].
  split; [done|]. split; [done|]. split; [done|]. split; [done|].
  split; [by apply (DemotionFacts.index_mapping_replace _ users)|].
  split; [done|]. split; [done|]. split; [done|].
  split.
  { unfold dict_contains in Hin.
    by destruct (dict_get (state_key event) users). }
  split; [apply dict_get_del_eq|].
  split; [intros u Hu; by apply dict_get_del_ne|].
  intros k Hk. by apply dict_get_replace_ne.
Qed.

Lemma dict_get_elem_of k (d : dict) v : dict_get k d = Some v → (k, v) ∈ d.
Proof.
  induction d as [|[k0 v0] d IH]; [done|]. cbn.
  destruct (String.eqb k0 k) eqn:Hk.
  - apply String.eqb_eq in Hk as ->. intros [= ->]. apply list_elem_of_here.
  - intros Hd. apply list_elem_of_further. by apply IH.
Qed.

(** X17: the sender chosen for the replacement event is a user at 100 in
    the mapping that the store reports in the room, or else the sender of
    the leave event: the event is never sent in the name of a user that
    is not an admin, or of an admin that is not in the room. *)
Theorem chosen_sender_is_in_room_or_sent_the_leave leave_event content s :
  _find_sender_in_room server_name check_local_user_in_room leave_event content
  = Ok s →
  ∃ users,
    index_mapping "users" content = Ok users
    ∧ ((at_level_100 users s
        ∧ check_local_user_in_room s (room_id leave_event) = true)
       ∨ s = sender leave_event).
Proof.
  intros Hs.
  destruct (index_mapping "users" content) as [users|e] eqn:Husers.
  2:{ unfold _find_sender_in_room in Hs. by rewrite Husers in Hs. }
  exists users. split; [done|].
  destruct (DemotionFacts.find_sender_in_room_spec server_name
              check_local_user_in_room leave_event content users Husers)
    as (s' & Hs' & Hbot & Hother & Hlast).
  rewrite Hs in Hs'. injection Hs' as <-.
  set (bot_eligible :=
         (∃ v, dict_get (audiences_bot_id server_name) users = Some v
               ∧ eq_int v 100 = true)
         ∧ check_local_user_in_room (audiences_bot_id server_name)
             (room_id leave_event) = true) in *.
  set (other_admin := fun u =>
         at_level_100 users u ∧ u ≠ audiences_bot_id server_name
         ∧ check_local_user_in_room u (room_id leave_event) = true) in *.
  assert (bot_eligible ∨ ¬ bot_eligible) as [Hb|Hb].
  { unfold bot_eligible.
    destruct (check_local_user_in_room (audiences_bot_id server_name)
                (room_id leave_event)); [|right; by intros [_ ?]].
    destruct (dict_get (audiences_bot_id server_name) users) as [v|];
      [|right; by intros [(? & [=] & _) _]].
    destruct (eq_int v 100) eqn:Hv; [left; split; [by exists v|done]|].
    right. intros [(v' & [= <-] & Hv') _]. congruence. }
  - rewrite (Hbot Hb) in *. destruct Hb as [(v & Hv & H100) Hroom].
    left. split; [|done]. exists v. split; [by apply dict_get_elem_of|done].
  - assert ((∃ u, other_admin u) ∨ ¬ (∃ u, other_admin u)) as [Ho|Ho].
    { destruct (List.find
                  (fun kv => eq_int (snd kv) 100
                             && negb (String.eqb (fst kv) (audiences_bot_id server_name))
                             && check_local_user_in_room (fst kv) (room_id leave_event))
                  users) as [[u v]|] eqn:Hfind.
      - left. apply find_some in Hfind as [Hin Hc]. cbn in Hc.
        apply andb_prop in Hc as [Hc Hroom]. apply andb_prop in Hc as [H100 Hne].
        apply negb_true_iff, String.eqb_neq in Hne. exists u.
        split; [exists v; split; [by apply list_elem_of_In|done]|done].
      - right. intros (u & (v & Hin & H100) & Hne & Hroom).
        pose proof (find_none _ _ Hfind (u, v)) as Hn. cbn in Hn.
        rewrite H100, Hroom in Hn.
        rewrite (EventAuthFacts.eqb_false_of_ne _ _ Hne) in Hn.
        assert (true = false) as Habs; [|done].
        apply Hn. by apply list_elem_of_In. }
    + destruct (Hother Hb Ho) as (H100 & _ & Hroom). by left.
    + right. apply (Hlast Hb Ho).
Qed.

End Facts.

End MoreDemotionFacts.

(** * Further properties of the audience reconciler *)

Module MoreAudiencesFacts.

Import Audiences EffectsFacts.

Section Facts.

Context {H : Type} {homeserver : Homeserver H}.
Variable config : Config.

Lemma do_run (c : call) (w : World H) h' r :
  perform (hs w) c = (h', r) →
  do c w = ({| hs := h'; trace := trace w ++ [c] |}, r).
Proof. intros Hp. unfold do. by rewrite Hp. Qed.

(** X7: a member whose change is rate limited with a delay is retried
    once, after a sleep of that delay, and the outcome of the second
    attempt is the outcome for the member: any error of the retry, a
    second rate limit or an [UnstableSpecAuthError] included, is raised. *)
Theorem rate_limited_member_is_retried_once room_id kind mxid (w : World H)
    h1 h2 h3 ms msg n r :
  let attempt :=
    update_room_membership (audiences_bot_user_id config) mxid room_id kind in
  perform (hs w) attempt = (h1, Raise (LimitExceededError (Some ms) msg)) →
  perform h1 (sleep ms) = (h2, Ok n) →
  perform h2 attempt = (h3, r) →
  process_member config room_id kind mxid w
  = ({| hs := h3; trace := trace w ++ [attempt; sleep ms; attempt] |},
     match r with Ok _ => Ok tt | Raise e => Raise e end).
Proof.
  cbn zeta. intros H1 H2 H3. unfold process_member.
  rewrite (do_run _ _ _ _ H1). rewrite !bind_run.
  rewrite (do_run _ _ h2 (Ok n)) by exact H2.
  rewrite bind_run. rewrite (do_run _ _ h3 r) by exact H3.
  cbn [trace]. rewrite <- !app_assoc. by destruct r.
Qed.

(** X8: an error of a member's change that is neither an
    [UnstableSpecAuthError] nor a [LimitExceededError] (the sole-admin and
    bot-protection [AuthError]s among them) ends the batch: it is raised,
    and no call is issued for the members that follow. *)
Theorem batch_stops_at_other_error room_id kind mxid mxids (w : World H) h1 e :
  perform (hs w)
    (update_room_membership (audiences_bot_user_id config) mxid room_id kind)
  = (h1, Raise e) →
  (∀ code msg errcode, e ≠ UnstableSpecAuthError code msg errcode) →
  (∀ retry_after_ms msg, e ≠ LimitExceededError retry_after_ms msg) →
  _process_batch_memberships_type config room_id kind (mxid :: mxids) w
  = ({| hs := h1;
        trace := trace w ++
          [update_room_membership (audiences_bot_user_id config) mxid room_id kind] |},
     Raise e).
Proof.
  intros Hp Hauth Hlimit. cbn [_process_batch_memberships_type].
  rewrite bind_run. unfold process_member. rewrite (do_run _ _ _ _ Hp).
  destruct e; try done.
  - by destruct (Hauth code msg errcode).
  - by destruct (Hlimit retry_after_ms msg).
Qed.

Lemma desired_room_members_value room_id (w w' : World H) D :
  _desired_room_members config room_id w = (w', Ok D) →
  w' = w
  ∧ ∃ subs,
      get_json_subs (hs w) room_id = Ok (room_id, subs)
      ∧ D = list_to_set
              (List.filter
                 (fun mxid => negb (EventAuth.str_in mxid (get_deactivated_users (hs w))))
                 (select_user_external_ids (hs w) (self_idp_id config) subs)).
Proof.
  unfold _desired_room_members, _get_subs, ask_result, ask.
  rewrite !bind_run.
  destruct (get_json_subs (hs w) room_id) as [[room_mxid subs]|e] eqn:Hsubs;
    [|done].
  cbn [fst snd]. destruct (String.eqb room_mxid room_id) eqn:Hroom; [|done].
  apply String.eqb_eq in Hroom as ->. cbn. intros [= <- <-].
  split; [done|]. by exists subs.
Qed.

(** X9: a deactivated user is never among the desired members, so the
    reconciler never invites one, and it removes one that is invited or
    joined (a bot apart). *)
Theorem deactivated_users_are_removed_not_invited room_id (w w' : World H)
    (D I J : gset string) u :
  _desired_room_members config room_id w = (w', Ok D) →
  u ∈ get_deactivated_users (hs w) →
  (u ∉ D)
  ∧ (u ∉ room_members_to_add D J)
  ∧ (u ∈ I ∪ J → u ≠ "" → u ∉ bot_user_ids config →
     u ∈ room_members_to_remove config D I J).
Proof.
  intros Hd Hu. apply desired_room_members_value in Hd as (_ & subs & _ & ->).
  assert (u ∉ (list_to_set
                 (List.filter
                    (fun mxid => negb (EventAuth.str_in mxid
                                         (get_deactivated_users (hs w))))
                    (select_user_external_ids (hs w) (self_idp_id config) subs))
               : gset string)) as HD.
  { rewrite elem_of_list_to_set, list_elem_of_In, filter_In.
    intros [_ Hc]. apply negb_true_iff in Hc.
    by rewrite (proj2 (AudiencesFacts.str_in_elem_of _ _) Hu) in Hc. }
  split; [done|]. split.
  - rewrite AudiencesFacts.elem_of_room_members_to_add. tauto.
  - intros Hin Hne Hbot.
    apply AudiencesFacts.elem_of_room_members_to_remove. tauto.
Qed.

(** X10: restoring the memberships of a room only invites: every call is
    an invite by the audiences bot of a desired user, or a sleep; when it
    returns normally every desired user, joined or not, had an invite
    issued; and when the desired members cannot be read nothing is
    issued. *)
Theorem restore_only_invites room_id (w : World H) :
  let run := restore_memberships_from_audience_criteria config room_id w in
  match _desired_room_members config room_id w with
  | (_, Raise e) => run = (w, Raise e)
  | (_, Ok D) =>
      ∃ t,
        trace run.1 = trace w ++ t
        ∧ Forall (is_batch_call config room_id "invite" (elements D)) t
        ∧ (run.2 = Ok tt →
           ∀ u, u ∈ D →
             update_room_membership (audiences_bot_user_id config) u room_id "invite"
             ∈ t)
  end.
Proof.
  cbn zeta. unfold restore_memberships_from_audience_criteria.
  rewrite bind_run.
  destruct (_desired_room_members config room_id w) as [w' [D|e]] eqn:Hd.
  - apply desired_room_members_value in Hd as (-> & _).
    destruct (AudiencesFacts.process_batch_memberships_type_trace config room_id
                "invite" (elements D) w) as (t & Ht & Hall & Hok).
    exists t. split; [done|]. split; [done|].
    intros Hr u Hu. apply Hok; [done|]. by apply elem_of_elements.
  - f_equal. revert Hd. unfold _desired_room_members, _get_subs, ask_result, ask.
    rewrite !bind_run.
    destruct (get_json_subs (hs w) room_id) as [[room_mxid subs]|e']; cbn [fst snd].
    + destruct (String.eqb room_mxid room_id); cbn; by intros [= <-].
    + by intros [= <-].
Qed.

Lemma NoDup_list_filter {A : Type} (f : A → bool) (l : list A) :
  NoDup l → NoDup (List.filter f l).
Proof.
  induction 1 as [|x l Hx Hl IH]; cbn; [constructor|].
  destruct (f x); [|done]. constructor; [|done].
  rewrite list_elem_of_In, filter_In, <- list_elem_of_In. tauto.
Qed.

(** X11: in one run nobody is both invited and removed, and nobody is
    the target of a batch twice. *)
Theorem diff_is_disjoint_and_duplicate_free (D I J : gset string) :
  NoDup (room_members_to_add D J)
  ∧ NoDup (room_members_to_remove config D I J)
  ∧ ∀ u, u ∈ room_members_to_add D J → u ∉ room_members_to_remove config D I J.
Proof.
  split; [|split].
  - unfold room_members_to_add. apply NoDup_list_filter, NoDup_elements.
  - unfold room_members_to_remove. apply NoDup_list_filter, NoDup_elements.
  - intros u. rewrite AudiencesFacts.elem_of_room_members_to_add,
      AudiencesFacts.elem_of_room_members_to_remove. tauto.
Qed.

End Facts.

End MoreAudiencesFacts.

(** * Convergence on a homeserver that accepts every change *)

Module ConvergenceFacts.

Import Audiences Sample.

Section Facts.

Variable config : Config.

(** A run on a homeserver that accepts every change: it returns normally,
    and a user's membership afterwards is [leave] for the removed users,
    [invite] for the invited ones, and is unchanged for the others. *)
Lemma reconcile_accepting_run room_id (w : World TestHS) :
  script (hs w) = [] →
  let D := desired_of config (hs w) in
  let I := users_with Membership_INVITE (hs w) in
  let J := users_with Membership_JOIN (hs w) in
  ∃ w1,
    process_batch_memberships config room_id w = (w1, Ok tt)
    ∧ ∀ u, members (hs w1) !! u
           = if decide (u ∈ room_members_to_remove config D I J)
             then Some "leave"
             else if decide (u ∈ room_members_to_add D J)
                  then Some "invite"
                  else members (hs w) !! u.
Proof.
  intros Hs. cbn zeta. eexists. split.
  - unfold process_batch_memberships.
    rewrite EffectsFacts.bind_run, ReconcileTwiceFacts.desired_room_members_test.
    rewrite EffectsFacts.bind_run, ReconcileTwiceFacts.fetch_invited_and_joined_test.
    rewrite EffectsFacts.bind_run, ReconcileTwiceFacts.batch_accepting by done.
    rewrite ReconcileTwiceFacts.batch_accepting
      by (by apply ReconcileTwiceFacts.script_accept_all).
    reflexivity.
  - intros u. cbn [hs]. by rewrite !ReconcileTwiceFacts.members_accept_all.
Qed.

(** X12: on a homeserver that accepts every change, after a run the users
    that are invited or joined are the desired users and the bots that
    were invited or joined before (the empty id apart); a desired user
    that was joined is still joined, and the membership of a user that is
    neither desired nor invited or joined is not touched. *)
Theorem reconcile_converges room_id (w : World TestHS) :
  script (hs w) = [] →
  let D := desired_of config (hs w) in
  let present :=
    fun h => users_with Membership_INVITE h ∪ users_with Membership_JOIN h in
  ∃ w1,
    process_batch_memberships config room_id w = (w1, Ok tt)
    ∧ (∀ u, u ≠ "" →
         (u ∈ present (hs w1) ↔
          u ∈ D ∨ (u ∈ present (hs w) ∧ u ∈ bot_user_ids config)))
    ∧ (∀ u, u ∈ D → u ∈ users_with Membership_JOIN (hs w) →
         u ∈ users_with Membership_JOIN (hs w1))
    ∧ (∀ u, u ∉ D → u ∉ present (hs w) →
         members (hs w1) !! u = members (hs w) !! u).
Proof.
  intros Hs. cbn zeta.
  destruct (reconcile_accepting_run room_id w Hs) as (w1 & Hrun & Hmem).
  exists w1. split; [exact Hrun|].
  assert (∀ u, u ∈ users_with Membership_INVITE (hs w)
               ∪ users_with Membership_JOIN (hs w) ↔
               members (hs w) !! u = Some "invite"
               ∨ members (hs w) !! u = Some "join") as Hpresent.
  { intros u. by rewrite elem_of_union, !ReconcileTwiceFacts.elem_of_users_with. }
  split; [|split].
  - intros u Hne.
    rewrite elem_of_union, !ReconcileTwiceFacts.elem_of_users_with, Hmem, Hpresent.
    destruct (decide (u ∈ room_members_to_remove config _ _ _)) as [HR|HR].
    + apply AudiencesFacts.elem_of_room_members_to_remove in HR.
      split; [intros [?|?]; done|]. tauto.
    + destruct (decide (u ∈ room_members_to_add _ _)) as [HA|HA].
      * apply AudiencesFacts.elem_of_room_members_to_add in HA.
        split; [tauto|]. intros _. by left.
      * rewrite AudiencesFacts.elem_of_room_members_to_add in HA.
        rewrite AudiencesFacts.elem_of_room_members_to_remove, Hpresent in HR.
        rewrite ReconcileTwiceFacts.elem_of_users_with in HA.
        destruct (decide (u ∈ desired_of config (hs w))) as [HD|HD];
          destruct (decide (u ∈ bot_user_ids config)) as [HB|HB];
          split; try tauto.
        -- intros _.
           destruct (decide (members (hs w) !! u = Some "join")); tauto.
        -- intros _.
           destruct (decide (members (hs w) !! u = Some "join")); tauto.
  - intros u HD HJ. rewrite ReconcileTwiceFacts.elem_of_users_with in HJ |- *.
    rewrite Hmem.
    rewrite decide_False
      by (rewrite AudiencesFacts.elem_of_room_members_to_remove; tauto).
    rewrite decide_False; [done|].
    rewrite AudiencesFacts.elem_of_room_members_to_add,
      ReconcileTwiceFacts.elem_of_users_with. tauto.
  - intros u HD HP. rewrite Hmem.
    rewrite decide_False
      by (rewrite AudiencesFacts.elem_of_room_members_to_remove; tauto).
    rewrite decide_False; [done|].
    rewrite AudiencesFacts.elem_of_room_members_to_add. tauto.
Qed.

End Facts.

End ConvergenceFacts.

(** * Further properties of the archive controller *)

Module MoreArchiveFacts.

Import ArchiveRooms EffectsFacts ArchiveApi.

Section Facts.

Context {H : Type} {homeserver : Homeserver H}.
Variable bot_ids : list string.
Variable audiences_services_enabled : bool.

Lemma visibility_phase_trace room_id archive (w : World H) :
  ∃ t,
    trace (visibility_phase room_id archive w).1 = trace w ++ t
    ∧ (t = [] ∨ t = [set_room_is_public room_id (negb archive)])
    ∧ (∀ v, (visibility_phase room_id archive w).2 = Ok v →
         v = (200, (room_id, archive))
         ∧ (t = [set_room_is_public room_id (negb archive)]
            ↔ join_rule_is_public (get_join_rules (hs w) room_id) = true)).
Proof.
  unfold visibility_phase, join_rule_is_public.
  destruct (get_join_rules (hs w) room_id) as [jr|].
  - destruct (dict_get "join_rule" (content jr)) as [v|].
    + destruct (eq_str (Some v) "public").
      * step_do h3 r3. exists [set_room_is_public room_id (negb archive)].
        split; [by destruct r3|]. split; [by right|].
        intros v0 Hv. split; [destruct r3; cbn in Hv; by inversion Hv|done].
      * exists []. cbn. rewrite app_nil_r. split; [done|]. split; [by left|].
        by intros v0 [= <-].
    + exists []. cbn. rewrite app_nil_r. split; [done|]. split; [by left|].
      by intros v0 [=].
  - exists []. cbn. rewrite app_nil_r. split; [done|]. split; [by left|].
    by intros v0 [= <-].
Qed.

(** The phases of a request to unarchive: unblock the room, start the
    restore when the audiences services are enabled, then the
    visibility. *)
Lemma handle_put_unarchive_run room_id requester (w : World H) :
  handle_put bot_ids audiences_services_enabled room_id false requester w
  = match do (unblock_room room_id) w with
    | (w1, Raise e) => (w1, Raise e)
    | (w1, Ok _) =>
        if audiences_services_enabled
        then
          match do (run_as_background_process
                      "audiences_batch_processor_restore_memberships_from_audience_criteria"
                      room_id) w1 with
          | (w2, Raise e) => (w2, Raise e)
          | (w2, Ok _) => visibility_phase room_id false w2
          end
        else visibility_phase room_id false w1
    end.
Proof.
  unfold handle_put, visibility_phase, ask.
  unfold mbind, M_bind, bind, ret, raise.
  destruct (do (unblock_room room_id) w) as [w1 [n1|e1]]; [|done].
  destruct audiences_services_enabled.
  - destruct (do (run_as_background_process _ room_id) w1) as [w2 [n2|e2]];
      [|done].
    destruct (get_join_rules (hs w2) room_id) as [jr|]; [|done].
    destruct (dict_get "join_rule" (content jr)) as [v|]; [|done].
    destruct (eq_str (Some v) "public"); [|done].
    by destruct (do (set_room_is_public room_id (negb false)) w2)
      as [w3 [n3|e3]].
  - destruct (get_join_rules (hs w1) room_id) as [jr|]; [|done].
    destruct (dict_get "join_rule" (content jr)) as [v|]; [|done].
    destruct (eq_str (Some v) "public"); [|done].
    by destruct (do (set_room_is_public room_id (negb false)) w1)
      as [w3 [n3|e3]].
Qed.

(** X13: unarchiving unblocks the room first and then changes nobody's
    membership itself: what may follow is the start of the background
    restore, only when the audiences services are enabled, and making the
    room public again, only when its join rule is public. A request that
    completes answers [200] with [archive] false. *)
Theorem unarchive_changes_no_membership room_id requester (w : World H) :
  let run :=
    handle_put bot_ids audiences_services_enabled room_id false requester w in
  let restore :=
    run_as_background_process
      "audiences_batch_processor_restore_memberships_from_audience_criteria"
      room_id in
  ∃ t,
    trace run.1 = trace w ++ unblock_room room_id :: t
    ∧ membership_changes t = []
    ∧ Forall (fun c => c = restore ∨ c = set_room_is_public room_id true) t
    ∧ (audiences_services_enabled = false → restore ∉ t)
    ∧ (∀ v, run.2 = Ok v →
         v = (200, (room_id, false))
         ∧ (audiences_services_enabled = true → restore ∈ t)
         ∧ let h1 := (perform (hs w) (unblock_room room_id)).1 in
           let h2 :=
             if audiences_services_enabled then (perform h1 restore).1 else h1 in
           set_room_is_public room_id true ∈ t
           ↔ join_rule_is_public (get_join_rules h2 room_id) = true).
Proof.
  cbn zeta. rewrite handle_put_unarchive_run.
  set (restore := run_as_background_process
         "audiences_batch_processor_restore_memberships_from_audience_criteria"
         room_id).
  destruct (do_spec (unblock_room room_id) w) as (h1 & r1 & -> & Hp1).
  rewrite Hp1. cbn [fst].
  destruct r1 as [n1|e1].
  2:{ exists []. cbn. split; [done|]. split; [done|]. split; [done|].
      split; [intros _ Hin; by apply elem_of_nil in Hin|]. by intros v [=]. }
  assert (restore ≠ set_room_is_public room_id true) as Hne by done.
  destruct audiences_services_enabled.
  - destruct (do_spec restore
                {| hs := h1; trace := trace w ++ [unblock_room room_id] |})
      as (h2 & r2 & -> & Hp2).
    cbn [hs trace] in *. rewrite Hp2. cbn [fst]. destruct r2 as [n2|e2].
    + destruct (visibility_phase_trace room_id false
                  {| hs := h2;
                     trace := (trace w ++ [unblock_room room_id]) ++ [restore] |})
        as (t' & Ht' & Hshape & Hdone).
      exists (restore :: t'). cbn [trace negb] in *.
      split; [by rewrite Ht', <- !app_assoc|].
      split; [by destruct Hshape as [->| ->]|].
      split.
      { constructor; [by left|]. destruct Hshape as [->| ->]; [done|].
        constructor; [by right|done]. }
      split; [done|]. intros v Hv. destruct (Hdone v Hv) as [-> Hiff].
      split; [done|]. split; [intros _; apply list_elem_of_here|].
      cbn [hs] in Hiff. rewrite <- Hiff. split.
      * intros [?|Hin]%elem_of_cons; [done|].
        destruct Hshape as [->| ->]; [by apply elem_of_nil in Hin|done].
      * intros ->. apply list_elem_of_further, list_elem_of_here.
    + exists [restore]. cbn. split; [by rewrite <- app_assoc|].
      split; [done|]. split; [constructor; [by left|done]|].
      split; [done|]. by intros v [=].
  - destruct (visibility_phase_trace room_id false
                {| hs := h1; trace := trace w ++ [unblock_room room_id] |})
      as (t' & Ht' & Hshape & Hdone).
    exists t'. cbn [trace negb] in *.
    split; [by rewrite Ht', <- !app_assoc|].
    split; [by destruct Hshape as [->| ->]|].
    split.
    { destruct Hshape as [->| ->]; [done|]. constructor; [by right|done]. }
    split.
    { intros _ Hin. destruct Hshape as [->| ->]; [by apply elem_of_nil in Hin|].
      apply list_elem_of_singleton in Hin. done. }
    intros v Hv. destruct (Hdone v Hv) as [-> Hiff].
    split; [done|]. split; [done|].
    cbn [hs] in Hiff. rewrite <- Hiff. split.
    * intros Hin. destruct Hshape as [->| ->]; [by apply elem_of_nil in Hin|done].
    * intros ->. apply list_elem_of_here.
Qed.

(** X14: [_validate_user] lets through every requester that has a numeric
    entry in the users mapping of the room's power-levels event, whatever
    the level, since the error for a level below 100 is built and not
    raised; it raises the permission error exactly when the power-levels
    event, its [users] key or the requester's entry is missing. *)
Theorem validate_user_outcomes (room_state : StateMap) requester :
  (_validate_user (Ok room_state) requester = Ok tt ↔
   ∃ power_levels users v,
     room_state !! ("m.room.power_levels", "") = Some power_levels
     ∧ EventAuth.index_mapping "users" (content power_levels) = Ok users
     ∧ dict_get (requester_user requester) users = Some v
     ∧ ((∃ n, v = JInt n) ∨ (∃ b, v = JBool b)))
  ∧ (_validate_user (Ok room_state) requester
     = Raise (_archive_permission_error requester) ↔
     room_state !! ("m.room.power_levels", "") = None
     ∨ ∃ power_levels,
         room_state !! ("m.room.power_levels", "") = Some power_levels
         ∧ (dict_get "users" (content power_levels) = None
            ∨ ∃ users,
                EventAuth.index_mapping "users" (content power_levels) = Ok users
                ∧ dict_get (requester_user requester) users = None)).
Proof.
  unfold _validate_user, _archive_permission_error. cbn [mbind result_bind].
  destruct (room_state !! ("m.room.power_levels", "")) as [pl|] eqn:Hpl;
    cbn [mbind result_bind].
  2:{ split; [split; [done|]|split; [intros _; by left|done]].
      intros (pl' & _ & _ & Hpl' & _). congruence. }
  destruct (EventAuth.index_mapping "users" (content pl)) as [users|e] eqn:Hidx;
    cbn [mbind result_bind].
  2:{ unfold EventAuth.index_mapping in Hidx.
      destruct (dict_get "users" (content pl)) as [u|] eqn:Hget.
      - assert (e = TypeError) as -> by (destruct u; congruence).
        split; [split; [done|]|split; [done|]].
        + intros (pl' & users' & _ & Hpl' & Hidx' & _).
          assert (pl' = pl) as -> by congruence.
          unfold EventAuth.index_mapping in Hidx'. rewrite Hget in Hidx'.
          destruct u; congruence.
        + intros [?|(pl' & Hpl' & [Hnone|(users' & Hidx' & _)])]; [congruence| |].
          * assert (pl' = pl) as -> by congruence. congruence.
          * assert (pl' = pl) as -> by congruence.
            unfold EventAuth.index_mapping in Hidx'. rewrite Hget in Hidx'.
            destruct u; congruence.
      - injection Hidx as <-.
        split; [split; [done|]|split; [|done]].
        + intros (pl' & users' & _ & Hpl' & Hidx' & _).
          assert (pl' = pl) as -> by congruence.
          unfold EventAuth.index_mapping in Hidx'. rewrite Hget in Hidx'. done.
        + intros _. right. exists pl. split; [done|]. by left. }
  unfold dict_index.
  destruct (dict_get (requester_user requester) users) as [v|] eqn:Hv.
  2:{ split; [split; [done|]|split; [|done]].
      - intros (pl' & users' & v' & Hpl' & Hidx' & Hv' & _).
        assert (pl' = pl) as -> by congruence.
        assert (users' = users) as -> by congruence. congruence.
      - intros _. right. exists pl. split; [done|]. right. by exists users. }
  assert (dict_get "users" (content pl) ≠ None) as Hsome.
  { unfold EventAuth.index_mapping in Hidx.
    by destruct (dict_get "users" (content pl)). }
  split.
  - split.
    + intros Hok. exists pl, users, v. split; [done|]. split; [done|].
      split; [done|]. destruct v; try done; [right|left]; by eexists.
    + intros (pl' & users' & v' & Hpl' & Hidx' & Hv' & Hnum).
      assert (pl' = pl) as -> by congruence.
      assert (users' = users) as -> by congruence.
      assert (v' = v) as -> by congruence.
      destruct Hnum as [[n ->]|[b ->]]; cbn.
      * by destruct (n <? 100).
      * by destruct ((if b then 1 else 0) <? 100).
  - split.
    + destruct v; cbn; try done.
      * by destruct ((if b then 1 else 0) <? 100).
      * by destruct (n <? 100).
    + intros [?|(pl' & Hpl' & [Hnone|(users' & Hidx' & Hnone)])]; [congruence| |].
      * assert (pl' = pl) as -> by congruence. done.
      * assert (pl' = pl) as -> by congruence.
        assert (users' = users) as -> by congruence. congruence.
Qed.

End Facts.

End MoreArchiveFacts.

(** * Properties of the power-levels helpers *)

Module PowerLevelsHelpersFacts.

Import PowerLevelsHelpers.

(** X15: [authorize] accepts exactly the users that have an entry in the
    users mapping of the power-levels event that is an integer (or a
    boolean, which Python counts as 0 or 1) at least the required level;
    every refusal is the 403 [AuthError], except that a [users] value that
    is not a mapping raises [TypeError]. *)
Theorem authorize_outcomes user_id power_levels level :
  (authorize user_id power_levels level = Ok tt ↔
   ∃ users v n,
     EventAuth.index_mapping "users" (content power_levels) = Ok users
     ∧ dict_get user_id users = Some v
     ∧ (v = JInt n ∨ (∃ b : bool, v = JBool b ∧ n = if b then 1 else 0))
     ∧ level ≤ n)
  ∧ (authorize user_id power_levels level = Ok tt
     ∨ authorize user_id power_levels level = Raise permission_denied
     ∨ (authorize user_id power_levels level = Raise TypeError
        ∧ ∃ v, dict_get "users" (content power_levels) = Some v
               ∧ ∀ m, v ≠ JDict m)).
Proof.
  unfold authorize.
  destruct (EventAuth.index_mapping "users" (content power_levels))
    as [users|e] eqn:Hidx; cbn [mbind result_bind].
  2:{ unfold EventAuth.index_mapping in Hidx.
      destruct (dict_get "users" (content power_levels)) as [u|] eqn:Hget.
      - assert (e = TypeError ∧ ∀ m, u ≠ JDict m) as [-> Hu]
          by (destruct u; split; congruence).
        split; [split; [done|intros (? & ? & ? & ? & _); congruence]|].
        right. right. split; [done|]. by exists u.
      - injection Hidx as <-.
        split; [split; [done|intros (? & ? & ? & ? & _); congruence]|].
        right. by left. }
  unfold dict_index.
  destruct (dict_get user_id users) as [v|] eqn:Hv.
  2:{ split; [split; [done|]|right; by left].
      intros (users' & v' & n & Hidx' & Hv' & _).
      assert (users' = users) as -> by congruence. congruence. }
  assert (∀ P : Prop,
            (∃ users' v' n,
               Ok users = Ok users' ∧ dict_get user_id users' = Some v'
               ∧ (v' = JInt n ∨ (∃ b : bool, v' = JBool b ∧ n = if b then 1 else 0))
               ∧ level ≤ n) →
            (∀ n, (v = JInt n ∨ (∃ b : bool, v = JBool b ∧ n = if b then 1 else 0)) →
                  level ≤ n → P) → P) as Hinv.
  { intros P (users' & v' & n & [= <-] & Hv' & Hnum & Hle) HP.
    assert (v' = v) as -> by congruence. by apply (HP n). }
  destruct v as [|b|n|s|l|d]; cbn;
    try (split; [split; [done|]|right; by left];
         intros Hex; apply (Hinv _ Hex);
         intros n [?|(b & ? & _)] _; congruence).
  - destruct (Z.ltb_spec (if b then 1 else 0) level).
    + split; [split; [done|]|right; by left].
      intros Hex. apply (Hinv _ Hex).
      intros n [?|(b' & Hb & ->)] Hle; [congruence|].
      injection Hb as <-. lia.
    + split; [|by left]. split; [|done]. intros _.
      exists users, (JBool b), (if b then 1 else 0).
      split; [done|]. split; [done|]. split; [right; by exists b|done].
  - destruct (Z.ltb_spec n level).
    + split; [split; [done|]|right; by left].
      intros Hex. apply (Hinv _ Hex).
      intros n' [Hn|(b' & ? & _)] Hle; [|congruence].
      injection Hn as <-. lia.
    + split; [|by left]. split; [|done]. intros _.
      exists users, (JInt n), n.
      split; [done|]. split; [done|]. split; [by left|done].
Qed.

End PowerLevelsHelpersFacts.

(** * Properties of the room creation listener *)

Module RoomCreationFacts.

Import RoomCreationListener.

Section Facts.

Variable audiences_bot_user_id : string.
Variable bridge_bot_user_id : string.

Lemma dict_get_set_eq k v (d : dict) : dict_get k (dict_set k v d) = Some v.
Proof.
  induction d as [|[k0 v0] d IH]; cbn.
  - by rewrite String.eqb_refl.
  - destruct (String.eqb k0 k) eqn:Hk; cbn; by rewrite Hk.
Qed.

Lemma dict_get_set_ne k k' v (d : dict) :
  k' ≠ k → dict_get k' (dict_set k v d) = dict_get k' d.
Proof.
  intros Hne. induction d as [|[k0 v0] d IH]; cbn.
  - by rewrite (EventAuthFacts.eqb_false_of_ne k k') by done.
  - destruct (String.eqb k0 k) eqn:Hk; cbn.
    + apply String.eqb_eq in Hk as ->.
      by rewrite (EventAuthFacts.eqb_false_of_ne k k') by done.
    + by rewrite IH.
Qed.

Lemma dict_get_app k (d d' : dict) :
  dict_get k (d ++ d')
  = match dict_get k d with Some v => Some v | None => dict_get k d' end.
Proof.
  induction d as [|[k0 v0] d IH]; [done|]. cbn.
  by destruct (String.eqb k0 k).
Qed.

Lemma setdefault_spec k (d d' : dict) v :
  setdefault k d = (d', v) →
  dict_get k d' = Some v
  ∧ (∀ k', k' ≠ k → dict_get k' d' = dict_get k' d)
  ∧ (∀ v0, dict_get k d = Some v0 → v = v0).
Proof.
  unfold setdefault. destruct (dict_get k d) as [v0|] eqn:Hget.
  - intros [= <- <-]. split; [done|]. split; [done|]. by intros ? [= <-].
  - intros [= <- <-]. rewrite dict_get_app, Hget. cbn. rewrite String.eqb_refl.
    split; [done|]. split; [|done]. intros k' Hne.
    rewrite dict_get_app. destruct (dict_get k' d); [done|]. cbn.
    by rewrite (EventAuthFacts.eqb_false_of_ne k k') by done.
Qed.

(** X16: when a room that is not a direct chat is created, the content
    that [_on_create_room] leaves has the audiences bot, the requester and
    the bridge bot at 100 in the users of its power-level override, and
    the audiences bot among its invites, with the bridge bot unless it is
    the requester; the invites that were asked for come first, the other
    users of the override keep their level, and no other key of the
    content changes. *)
Theorem room_creation_installs_the_bots requester_user_id
    (request_content content' : dict) :
  match dict_get "is_direct" request_content with
  | Some v => truthy_json v
  | None => false
  end = false →
  _on_create_room audiences_bot_user_id bridge_bot_user_id requester_user_id
    request_content = Ok content' →
  ∃ override users invites,
    dict_get "power_level_content_override" content' = Some (JDict override)
    ∧ dict_get "users" override = Some (JDict users)
    ∧ dict_get audiences_bot_user_id users = Some (JInt 100)
    ∧ dict_get requester_user_id users = Some (JInt 100)
    ∧ dict_get bridge_bot_user_id users = Some (JInt 100)
    ∧ dict_get "invite" content' = Some (JList invites)
    ∧ JStr audiences_bot_user_id ∈ invites
    ∧ (requester_user_id ≠ bridge_bot_user_id →
       JStr bridge_bot_user_id ∈ invites)
    ∧ (∀ old, dict_get "invite" request_content = Some (JList old) →
         old `prefix_of` invites)
    ∧ (∀ old_override old_users u,
         dict_get "power_level_content_override" request_content
         = Some (JDict old_override) →
         dict_get "users" old_override = Some (JDict old_users) →
         u ≠ audiences_bot_user_id → u ≠ requester_user_id →
         u ≠ bridge_bot_user_id →
         dict_get u users = dict_get u old_users)
    ∧ (∀ k, k ≠ "invite" → k ≠ "power_level_content_override" →
         dict_get k content' = dict_get k request_content).
Proof.
  intros Hdirect. unfold _on_create_room. rewrite Hdirect.
  set (rc1 := if dict_contains "invite" request_content then request_content
              else request_content ++ [("invite", JList [])]).
  assert (dict_get "invite" rc1
          = Some (match dict_get "invite" request_content with
                  | Some v => v
                  | None => JList []
                  end)
          ∧ ∀ k, k ≠ "invite" → dict_get k rc1 = dict_get k request_content)
    as [Hinv1 Hoth1].
  { unfold rc1, dict_contains.
    destruct (dict_get "invite" request_content) as [v|] eqn:Hget.
    - by split.
    - split.
      + by rewrite dict_get_app, Hget.
      + intros k Hne. rewrite dict_get_app.
        destruct (dict_get k request_content); [done|]. cbn [dict_get].
        by rewrite (EventAuthFacts.eqb_false_of_ne "invite" k) by done. }
  destruct (setdefault "power_level_content_override" rc1) as [rc2 plo] eqn:Hsd1.
  apply setdefault_spec in Hsd1 as (Hplo & Hoth2 & Hold2).
  destruct plo as [| | | | |override]; try done. cbn [mbind result_bind].
  destruct (setdefault "users" override) as [override2 upl] eqn:Hsd2.
  apply setdefault_spec in Hsd2 as (Hupl & Hoth3 & Hold3).
  assert (dict_get "invite" rc2 = dict_get "invite" rc1) as Hinv2
    by (by apply Hoth2).
  rewrite Hinv2, Hinv1.
  destruct (match dict_get "invite" request_content with
            | Some v => v
            | None => JList []
            end) as [| | | |old_invites|] eqn:Hold_inv; try done.
  cbn [mbind result_bind].
  destruct upl as [| | | | |old_users]; try done. cbn [mbind result_bind].
  set (invites := if negb (String.eqb requester_user_id bridge_bot_user_id)
                  then (old_invites ++ [JStr audiences_bot_user_id])
                       ++ [JStr bridge_bot_user_id]
                  else old_invites ++ [JStr audiences_bot_user_id]).
  set (users := if negb (String.eqb requester_user_id bridge_bot_user_id)
                then dict_set bridge_bot_user_id (JInt 100)
                       (dict_set requester_user_id (JInt 100)
                          (dict_set audiences_bot_user_id (JInt 100) old_users))
                else dict_set requester_user_id (JInt 100)
                       (dict_set audiences_bot_user_id (JInt 100) old_users)).
  assert ((if negb (String.eqb requester_user_id bridge_bot_user_id)
           then ((old_invites ++ [JStr audiences_bot_user_id])
                 ++ [JStr bridge_bot_user_id],
                 dict_set bridge_bot_user_id (JInt 100)
                   (dict_set requester_user_id (JInt 100)
                      (dict_set audiences_bot_user_id (JInt 100) old_users)))
           else (old_invites ++ [JStr audiences_bot_user_id],
                 dict_set requester_user_id (JInt 100)
                   (dict_set audiences_bot_user_id (JInt 100) old_users)))
          = (invites, users)) as ->.
  { unfold invites, users.
    by destruct (negb (String.eqb requester_user_id bridge_bot_user_id)). }
  intros [= <-]. exists (dict_replace "users" (JDict users) override2), users, invites.
  split.
  { apply (DemotionFacts.dict_get_replace _ (JDict override)).
    by rewrite MoreDemotionFacts.dict_get_replace_ne. }
  split; [by apply (DemotionFacts.dict_get_replace _ (JDict old_users))|].
  assert (dict_get audiences_bot_user_id
            (dict_set requester_user_id (JInt 100)
               (dict_set audiences_bot_user_id (JInt 100) old_users))
          = Some (JInt 100)) as Hbot.
  { destruct (decide (audiences_bot_user_id = requester_user_id)) as [->|Hne].
    - apply dict_get_set_eq.
    - rewrite dict_get_set_ne by done. apply dict_get_set_eq. }
  split.
  { unfold users. destruct (String.eqb requester_user_id bridge_bot_user_id);
      cbn [negb]; [done|].
    destruct (decide (audiences_bot_user_id = bridge_bot_user_id)) as [->|Hne].
    - apply dict_get_set_eq.
    - by rewrite dict_get_set_ne. }
  split.
  { unfold users. destruct (String.eqb requester_user_id bridge_bot_user_id);
      cbn [negb]; [apply dict_get_set_eq|].
    destruct (decide (requester_user_id = bridge_bot_user_id)) as [->|Hne].
    - apply dict_get_set_eq.
    - rewrite dict_get_set_ne by done. apply dict_get_set_eq. }
  split.
  { unfold users.
    destruct (String.eqb requester_user_id bridge_bot_user_id) eqn:Heq;
      cbn [negb]; [|apply dict_get_set_eq].
    apply String.eqb_eq in Heq as <-. apply dict_get_set_eq. }
  split.
  { rewrite MoreDemotionFacts.dict_get_replace_ne by done.
    apply (DemotionFacts.dict_get_replace _ (JList old_invites)).
    by rewrite Hinv2, Hinv1. }
  split.
  { unfold invites. destruct (negb _).
    - apply elem_of_app. left. apply elem_of_app. right. apply list_elem_of_here.
    - apply elem_of_app. right. apply list_elem_of_here. }
  split.
  { intros Hne. unfold invites.
    rewrite (EventAuthFacts.eqb_false_of_ne _ _ Hne). cbn [negb].
    apply elem_of_app. right. apply list_elem_of_here. }
  split.
  { intros old Hold. rewrite Hold in Hold_inv. injection Hold_inv as ->.
    unfold invites. destruct (negb _).
    - rewrite <- app_assoc. by apply prefix_app_r.
    - by apply prefix_app_r. }
  split.
  { intros old_override old_users' u Hov Hus Hu1 Hu2 Hu3.
    assert (dict_get "power_level_content_override" rc1 = Some (JDict old_override))
      as Hov1 by (by rewrite Hoth1).
    apply Hold2 in Hov1. injection Hov1 as <-.
    apply Hold3 in Hus. injection Hus as <-.
    unfold users. destruct (negb _); by rewrite !dict_get_set_ne. }
  intros k Hk1 Hk2.
  rewrite !MoreDemotionFacts.dict_get_replace_ne by done.
  rewrite Hoth2 by done. by apply Hoth1.
Qed.

End Facts.

End RoomCreationFacts.

(** * More scenarios *)

Module MoreScenarios.

Import Sample.

Lemma accepted_change_within_sender_power_witness :
  let current_state :=
    power_levels_event a [(a, JInt 100); (b, JInt 100); (bot, JInt 100)] in
  let event := power_levels_event a [(a, JInt 100); (bot, JInt 100)] in
  let auth_events := state_of [current_state] in
  EventAuth._check_power_levels (host:=sample_host) bots room_version event
    auth_events = Ok tt
  ∧ EventAuth.level_at (host:=sample_host)
      [(a, JInt 100); (b, JInt 100); (bot, JInt 100)] b = Ok (Some 100)
  ∧ EventAuth.level_at (host:=sample_host) [(a, JInt 100); (bot, JInt 100)] b
    = Ok None
  ∧ within_power (Some 100) (sample_user_power_level a auth_events).
Proof.
  cbn zeta. split; [reflexivity|]. split; [reflexivity|]. split; [reflexivity|].
  destruct (MoreEventAuthFacts.accepted_change_within_sender_power
              (host:=sample_host) bots room_version
              (power_levels_event a [(a, JInt 100); (bot, JInt 100)])
              (power_levels_event a [(a, JInt 100); (b, JInt 100); (bot, JInt 100)])
              (state_of [power_levels_event a
                           [(a, JInt 100); (b, JInt 100); (bot, JInt 100)]])
              [(a, JInt 100); (b, JInt 100); (bot, JInt 100)]
              [(a, JInt 100); (bot, JInt 100)]
              eq_refl eq_refl eq_refl eq_refl) as [Husers _].
  destruct (Husers b (Some 100) None eq_refl eq_refl) as [Hold _]; [done|].
  exact Hold.
Defined.

Lemma guard_accepts_exactly_witness :
  let current_state :=
    power_levels_event a [(a, JInt 100); (b, JInt 100); (bot, JInt 100)] in
  let event := power_levels_event a [(a, JInt 100); (bot, JInt 100)] in
  (sender event ∉ bots)
  ∧ EventAuth._raise_if_human_demotes_bot_or_last_human bots event current_state
    = Ok tt
  ∧ ∃ u, at_level_100 [(a, JInt 100); (bot, JInt 100)] u ∧ u ∉ bots.
Proof.
  cbn zeta.
  assert (sender (power_levels_event a [(a, JInt 100); (bot, JInt 100)]) ∉ bots)
    as Hhuman.
  { intros Hs%elem_of_singleton. by apply String.eqb_neq in Hs. }
  split; [exact Hhuman|]. split; [reflexivity|].
  apply (MoreEventAuthFacts.guard_accepts_exactly bots
           (power_levels_event a [(a, JInt 100); (bot, JInt 100)])
           (power_levels_event a [(a, JInt 100); (b, JInt 100); (bot, JInt 100)])
           [(a, JInt 100); (b, JInt 100); (bot, JInt 100)]
           [(a, JInt 100); (bot, JInt 100)] Hhuman eq_refl eq_refl).
  reflexivity.
Defined.

Lemma first_power_levels_event_accepted_witness :
  let event := power_levels_event a [(bot, JInt 100)] in
  (∅ : StateMap) !! (type event, state_key event) = None
  ∧ EventAuth.admin_ids [(bot, JInt 100)] ∖ bots = ∅
  ∧ EventAuth._check_power_levels (host:=sample_host) bots room_version event ∅
    = Ok tt.
Proof.
  cbn zeta. split; [reflexivity|]. split; [reflexivity|].
  apply (MoreEventAuthFacts.first_power_levels_event_accepted (host:=sample_host)
           bots room_version (power_levels_event a [(bot, JInt 100)]) ∅
           [(bot, JInt 100)]).
  - reflexivity.
  - reflexivity.
  - intros u v Hin. apply list_elem_of_singleton in Hin. injection Hin as -> ->.
    split; reflexivity.
  - intros k v Hin. cbn in Hin.
    repeat (apply elem_of_cons in Hin as [Hin|Hin]; [injection Hin as -> ->|]).
    + split; [reflexivity|].
      intros Hk%MoreEventAuthFacts.str_in_true. discriminate Hk.
    + split; [reflexivity|].
      intros Hk%MoreEventAuthFacts.str_in_true. discriminate Hk.
    + split; [reflexivity|].
      intros Hk%MoreEventAuthFacts.str_in_true. discriminate Hk.
    + split; [intros Hk%MoreEventAuthFacts.str_in_true; discriminate Hk|].
      intros _. exists [(bot, JInt 100)]. split; [reflexivity|].
      intros kv Hkv. apply list_elem_of_singleton in Hkv as ->. reflexivity.
    + by apply elem_of_nil in Hin.
Defined.

Lemma unban_authorization_witness :
  let event := leave_event a b [] in
  let auth_events :=
    state_of [power_levels_event a [(a, JInt 100)];
              member_event a "join" []; member_event b "ban" []] in
  is_leave_event event
  ∧ state_key event ≠ sender event
  ∧ has_membership (auth_events !! (EventTypes_Member, state_key event))
      Membership_BAN = true
  ∧ EventAuth._is_leave_allowed (host:=sample_host) bots event auth_events = Ok tt.
Proof.
  cbn zeta.
  assert (is_leave_event (leave_event a b [])) as H1 by (split; reflexivity).
  assert (state_key (leave_event a b []) ≠ sender (leave_event a b [])) as H2
    by discriminate.
  split; [exact H1|]. split; [exact H2|]. split; [reflexivity|].
  apply (MoreEventAuthFacts.unban_authorization (host:=sample_host) bots _ _ H1 H2).
  - reflexivity.
  - split; [|split; [reflexivity|split; [by vm_compute|split; by vm_compute]]].
    intros [_ Hbot]. apply elem_of_singleton in Hbot. discriminate.
Defined.

Lemma bot_exemption_is_for_removals_only_witness :
  let own_leave := leave_event bot bot [] in
  let join := member_event a "join" [] in
  let no_membership :=
    {| type := "m.room.member"; state_key := a; sender := a; room_id := room;
       content := [] |} in
  let auth_events := state_of [member_event bot "join" []] in
  (is_leave_event own_leave
   ∧ state_key own_leave = sender own_leave
   ∧ EventAuth._is_membership_change_allowed (host:=sample_host) bots
       room_version own_leave auth_events
     = ([EventAuth.Called_is_leave_allowed],
        EventAuth._is_leave_allowed (host:=sample_host) bots own_leave
          auth_events))
  ∧ (membership join = Some (JStr "join")
     ∧ EventAuth._is_membership_change_allowed (host:=sample_host) bots
         room_version join auth_events
       = ([EventAuth.Called_original],
          _is_membership_change_allowed_original (EventAuthHost:=sample_host)
            room_version join auth_events))
  ∧ (type no_membership = EventTypes_Member
     ∧ membership no_membership = None
     ∧ EventAuth._is_membership_change_allowed (host:=sample_host) bots
         room_version no_membership auth_events
       = ([], Raise (KeyError "membership"))).
Proof.
  cbn zeta.
  assert (is_leave_event (leave_event bot bot [])) as H1 by (split; reflexivity).
  split; [|split].
  - split; [exact H1|]. split; [reflexivity|].
    exact (proj1 (MoreEventAuthFacts.bot_exemption_is_for_removals_only
                    (host:=sample_host) bots room_version
                    (leave_event bot bot [])
                    (state_of [member_event bot "join" []]))
             H1 eq_refl).
  - split; [reflexivity|].
    apply (MoreEventAuthFacts.bot_exemption_is_for_removals_only
             (host:=sample_host) bots room_version (member_event a "join" [])
             (state_of [member_event bot "join" []])).
    right. exists (JStr "join"). split; [reflexivity|discriminate].
  - split; [reflexivity|]. split; [reflexivity|].
    by apply (MoreEventAuthFacts.bot_exemption_is_for_removals_only
                (host:=sample_host) bots room_version).
Defined.

Lemma replacement_event_removes_only_the_leaver_witness :
  let state_events :=
    state_of [power_levels_event a [(a, JInt 100); (b, JInt 50)]] in
  ∃ ev new_users,
    EventAuth.on_new_event "localhost" (fun _ => false) (fun _ _ => false)
      (leave_event b b []) state_events = Ok [ev]
    ∧ EventAuth.index_mapping "users" (content ev) = Ok new_users
    ∧ dict_get b new_users = None
    ∧ dict_get a new_users = Some (JInt 100)
    ∧ dict_get "kick" (content ev) = Some (JInt 50).
Proof.
  cbn zeta.
  destruct (MoreDemotionFacts.replacement_event_removes_only_the_leaver
              "localhost" (fun _ => false) (fun _ _ => false)
              (leave_event b b [])
              (state_of [power_levels_event a [(a, JInt 100); (b, JInt 50)]])
              _ eq_refl)
    as [Hnone|(ev & pl & users & new_users & Hev & _ & _ & Hpl & Husers & Hnew
               & _ & _ & _ & _ & Hgone & Hkept & Hother)];
    [discriminate Hnone|].
  assert (pl = power_levels_event a [(a, JInt 100); (b, JInt 50)]) as ->.
  { assert (state_of [power_levels_event a [(a, JInt 100); (b, JInt 50)]]
              !! (EventTypes_PowerLevels, "")
            = Some (power_levels_event a [(a, JInt 100); (b, JInt 50)])) as Hl
      by reflexivity.
    rewrite Hl in Hpl. by injection Hpl as <-. }
  assert (users = [(a, JInt 100); (b, JInt 50)]) as ->.
  { assert (EventAuth.index_mapping "users"
              (content (power_levels_event a [(a, JInt 100); (b, JInt 50)]))
            = Ok [(a, JInt 100); (b, JInt 50)]) as Hi by reflexivity.
    rewrite Hi in Husers. by injection Husers as <-. }
  exists ev, new_users. injection Hev as <-.
  split; [reflexivity|]. split; [exact Hnew|]. split; [exact Hgone|].
  split.
  - rewrite Hkept; [reflexivity|]. by apply String.eqb_neq.
  - rewrite Hother; [reflexivity|]. by apply String.eqb_neq.
Defined.

Lemma rate_limited_member_is_retried_once_witness :
  let h := homeserver_with [] [(a, "join")]
             [Raise (LimitExceededError (Some 2000) "Too Many Requests")] None in
  let attempt := update_room_membership audiences_bot a room "leave" in
  let h1 := (perform h attempt).1 in
  let h2 := (perform h1 (sleep 2000)).1 in
  let h3 := (perform h2 attempt).1 in
  Audiences.process_member config room "leave" a (start h)
  = ({| hs := h3; trace := [attempt; sleep 2000; attempt] |}, Ok tt)
  ∧ members h3 !! a = Some "leave".
Proof.
  cbn zeta. split; [|reflexivity].
  set (h := homeserver_with [] [(a, "join")]
              [Raise (LimitExceededError (Some 2000) "Too Many Requests")] None).
  set (attempt := update_room_membership audiences_bot a room "leave").
  exact (MoreAudiencesFacts.rate_limited_member_is_retried_once config room
           "leave" a (start h)
           (perform h attempt).1
           (perform (perform h attempt).1 (sleep 2000)).1
           (perform (perform (perform h attempt).1 (sleep 2000)).1 attempt).1
           2000 "Too Many Requests" 0 (Ok 0) eq_refl eq_refl eq_refl).
Defined.

Lemma batch_stops_at_other_error_witness :
  let denial :=
    AuthError 403
      "You cannot leave the room, because you are the only admin in this room." in
  let h := homeserver_with [] [(a, "join"); (b, "join")] [Raise denial] None in
  Audiences._process_batch_memberships_type config room "leave" [a; b] (start h)
  = ({| hs := (next_outcome h).1;
        trace := [update_room_membership audiences_bot a room "leave"] |},
     Raise denial).
Proof.
  cbn zeta.
  apply (MoreAudiencesFacts.batch_stops_at_other_error config room "leave" a [b]
           (start (homeserver_with [] [(a, "join"); (b, "join")]
                     [Raise (AuthError 403
                        "You cannot leave the room, because you are the only admin in this room.")]
                     None))).
  - reflexivity.
  - intros code msg errcode. discriminate.
  - intros retry_after_ms msg. discriminate.
Defined.

Lemma deactivated_users_are_removed_not_invited_witness :
  let h : TestHS :=
    {| members := list_to_map [(a, "join"); (b, "join")];
       script := [];
       subs := [a; b];
       external_ids := [(a, a); (b, b)];
       deactivated := [b];
       join_rules := None |} in
  let D := desired_of config h in
  let I := users_with Membership_INVITE h in
  let J := users_with Membership_JOIN h in
  Audiences._desired_room_members config room (start h) = (start h, Ok D)
  ∧ b ∈ get_deactivated_users h
  ∧ (b ∉ D)
  ∧ b ∈ Audiences.room_members_to_remove config D I J.
Proof.
  cbn zeta.
  set (h := {| members := list_to_map [(a, "join"); (b, "join")];
               script := [];
               subs := [a; b];
               external_ids := [(a, a); (b, b)];
               deactivated := [b];
               join_rules := None |}).
  pose proof (ReconcileTwiceFacts.desired_room_members_test config room (start h))
    as Hd.
  assert (b ∈ get_deactivated_users h) as Hb by apply list_elem_of_here.
  split; [exact Hd|]. split; [exact Hb|].
  destruct (MoreAudiencesFacts.deactivated_users_are_removed_not_invited config
              room (start h) (start h) (desired_of config h)
              (users_with Membership_INVITE h) (users_with Membership_JOIN h)
              b Hd Hb) as (HD & _ & Hremove).
  assert (∀ (u : string) (X : gset string), bool_decide (u ∈ X) = true → u ∈ X)
    as Hin by (intros u X; apply bool_decide_eq_true).
  split; [exact HD|]. apply Hremove.
  - by apply Hin.
  - by apply String.eqb_neq.
  - intros Hbot%AudiencesFacts.str_in_elem_of. discriminate Hbot.
Defined.

Lemma reconcile_converges_witness :
  let h := homeserver_with [b; c] [(a, "join"); (b, "join"); (bot, "join")] [] None in
  script (hs (start h)) = []
  ∧ ∃ w1,
      Audiences.process_batch_memberships config room (start h) = (w1, Ok tt)
      ∧ c ∈ users_with Membership_INVITE (hs w1) ∪ users_with Membership_JOIN (hs w1)
      ∧ bot ∈ users_with Membership_INVITE (hs w1) ∪ users_with Membership_JOIN (hs w1)
      ∧ (a ∉ users_with Membership_INVITE (hs w1) ∪ users_with Membership_JOIN (hs w1)).
Proof.
  cbn zeta. split; [reflexivity|].
  set (h := homeserver_with [b; c] [(a, "join"); (b, "join"); (bot, "join")] [] None).
  destruct (ConvergenceFacts.reconcile_converges config room (start h) eq_refl)
    as (w1 & Hrun & Hpresent & _).
  exists w1. split; [exact Hrun|].
  assert (∀ (u : string) (X : gset string), bool_decide (u ∈ X) = true → u ∈ X)
    as Hin by (intros u X; apply bool_decide_eq_true).
  assert (∀ (u : string) (X : gset string), bool_decide (u ∈ X) = false → u ∉ X)
    as Hnotin by (intros u X; apply bool_decide_eq_false).
  split; [|split].
  - apply Hpresent; [by apply String.eqb_neq|]. left. by apply Hin.
  - apply Hpresent; [by apply String.eqb_neq|]. right.
    split; [by apply Hin|]. apply list_elem_of_here.
  - rewrite Hpresent by (by apply String.eqb_neq). intros [HD|[_ Hbot]].
    + revert HD. by apply Hnotin.
    + apply AudiencesFacts.str_in_elem_of in Hbot. discriminate Hbot.
Defined.

Lemma room_creation_installs_the_bots_witness :
  let bridge := "@bridge:localhost" in
  let request_content :=
    [("name", JStr "Team"); ("invite", JList [JStr b])] in
  ∃ content' override users invites,
    RoomCreationListener._on_create_room audiences_bot bridge a request_content
    = Ok content'
    ∧ dict_get "power_level_content_override" content' = Some (JDict override)
    ∧ dict_get "users" override = Some (JDict users)
    ∧ dict_get audiences_bot users = Some (JInt 100)
    ∧ dict_get a users = Some (JInt 100)
    ∧ dict_get bridge users = Some (JInt 100)
    ∧ dict_get "invite" content' = Some (JList invites)
    ∧ [JStr b] `prefix_of` invites
    ∧ dict_get "name" content' = Some (JStr "Team").
Proof.
  cbn zeta.
  destruct (RoomCreationFacts.room_creation_installs_the_bots audiences_bot
              "@bridge:localhost" a
              [("name", JStr "Team"); ("invite", JList [JStr b])] _
              eq_refl eq_refl)
    as (override & users & invites & Hov & Hus & Hbot & Hreq & Hbridge & Hinv
        & _ & _ & Hold & _ & Hother).
  eexists _, override, users, invites.
  split; [reflexivity|]. split; [exact Hov|]. split; [exact Hus|].
  split; [exact Hbot|]. split; [exact Hreq|]. split; [exact Hbridge|].
  split; [exact Hinv|]. split; [by apply Hold|].
  rewrite Hother; [reflexivity| |]; by apply String.eqb_neq.
Defined.

Lemma chosen_sender_is_in_room_or_sent_the_leave_witness :
  let in_room := fun u (_ : string) => String.eqb u c in
  let content := [("users", JDict [(a, JInt 100); (c, JInt 100)])] in
  EventAuth._find_sender_in_room "localhost" in_room (leave_event b b []) content
  = Ok c
  ∧ ∃ users,
      EventAuth.index_mapping "users" content = Ok users
      ∧ ((at_level_100 users c ∧ in_room c room = true) ∨ c = b).
Proof.
  cbn zeta. split; [reflexivity|].
  exact (MoreDemotionFacts.chosen_sender_is_in_room_or_sent_the_leave
           "localhost" (fun u (_ : string) => String.eqb u c)
           (leave_event b b [])
           [("users", JDict [(a, JInt 100); (c, JInt 100)])] c eq_refl).
Defined.

Lemma malformed_users_are_refused_witness :
  let event := power_levels_event bot [("not a user id", JInt 100)] in
  let auth_events := state_of [power_levels_event a [(a, JInt 100)]] in
  (sender event ∈ bots)
  ∧ ∃ msg,
      EventAuth._check_power_levels (host:=sample_host) bots room_version event
        auth_events = Raise (SynapseError 400 msg).
Proof.
  cbn zeta. split; [by apply elem_of_singleton|].
  apply (MoreEventAuthFacts.malformed_users_are_refused (host:=sample_host) bots
           room_version (power_levels_event bot [("not a user id", JInt 100)])
           (state_of [power_levels_event a [(a, JInt 100)]])
           [("not a user id", JInt 100)] eq_refl).
  intros Hall.
  destruct (Hall "not a user id" (JInt 100) (list_elem_of_here _ _)) as [Hid _].
  discriminate Hid.
Defined.

End MoreScenarios.
